(** * playwright-mcp: session lifecycle manager and test-script rendering

    A shallow embedding of [src/index.ts] (class [PlaywrightMCPServer]):
    the session registries, the periodic cleanup policies, the shutdown
    handler and the test-script renderers, followed by the properties
    established about them.

    Conventions.
    - A JavaScript [Map] is an association list in insertion order with
      unique keys ([JsMap]); uniqueness is the hypothesis [JsMap.wf].
    - Timestamps ([Date.now()]) are integers ([Z]); the clock value is an
      argument of every function that reads it.
    - Effects on the outside world (driver calls, log streams, the console,
      shell commands, process exit) are recorded in a trace carried by the
      server state, oldest event first.
    - Code that can throw runs in the monad [M]: state passing with
      exceptions, where the state survives a throw as in JavaScript.
    - An awaited driver call returns or rejects; only the shutdown handler,
      which waits for many calls at once, is also modelled for a call that
      never settles.
    - A tool runs from its request to its answer without another request
      in between; [browser_launch] is also modelled as a task that is
      suspended at each [await], so that requests can overlap
      ([run_turns]).
    - A console message that prints a float or a file path is cut down to
      its fixed text; an error object is printed as its message. *)

From Stdlib Require Import List String Ascii ZArith QArith Lia Bool Arith.
From Stdlib Require Import Permutation Sorted DecimalString.
Import ListNotations.
Local Close Scope Q_scope.
Local Open Scope list_scope.

(** ** Strings and template literals *)

Definition nl : string := String (ascii_of_nat 10) EmptyString.

(** [`${n}`] for a non-negative integer number. *)
Definition show_number (n : N) : string :=
  NilZero.string_of_uint (N.to_uint n).

Definition show_nat (n : nat) : string := show_number (N.of_nat n).

(** [`${v}`] for an optional string field: a missing field prints as
    [undefined]. *)
Definition show_opt (v : option string) : string :=
  match v with
  | Some s => s
  | None => "undefined"%string
  end.

Definition show_bool (b : bool) : string :=
  (if b then "true" else "false")%string.

(** Number of positions of [hay] at which [needle] starts. *)
Fixpoint occurrences (needle hay : string) : nat :=
  (if String.prefix needle hay then 1 else 0) +
  match hay with
  | EmptyString => 0
  | String _ rest => occurrences needle rest
  end.

Definition includes (needle hay : string) : bool :=
  negb (Nat.eqb (occurrences needle hay) 0).

(** [hay] has [needle] as a contiguous part. *)
Definition Contains (needle hay : string) : Prop :=
  exists pre post, hay = (pre ++ needle ++ post)%string.

(** ** Recordings and actions (interfaces [TestAction], [TestRecording]) *)

Inductive ActionType :=
  | navigate | click | fill | select | press | wait | assert.

Inductive AssertionType :=
  | a_text | a_visible | a_enabled | a_url | a_title.

Record Assertion := {
  a_type : AssertionType;
  expected : string
}.

Record TestAction := {
  type : ActionType;
  timestamp : Z;
  selector : option string;
  value : option string;
  url : option string;
  assertion : option Assertion
}.

Record Viewport := {
  width : N;
  height : N
}.

Record Metadata := {
  m_url : string;
  viewport : Viewport;
  userAgent : string
}.

Record TestRecording := {
  r_sessionId : string;
  actions : list TestAction;
  startTime : Z;
  metadata : Metadata
}.

(** ** Script rendering *)

Module Render.

Local Open Scope string_scope.

(** One iteration of the [for] loop of [generatePlaywrightScript]: the text
    appended to [testBody] for one action. *)
Definition playwrightStep (action : TestAction) : string :=
  match type action with
  | navigate =>
      "  // Navigate to page" ++ nl ++
      "  await page.goto('" ++ show_opt (url action) ++ "');" ++ nl ++ nl
  | click =>
      "  // Click element" ++ nl ++
      "  await page.click('" ++ show_opt (selector action) ++ "');" ++ nl ++ nl
  | fill =>
      "  // Fill input" ++ nl ++
      "  await page.fill('" ++ show_opt (selector action) ++ "', '" ++
      show_opt (value action) ++ "');" ++ nl ++ nl
  | select =>
      "  // Select option" ++ nl ++
      "  await page.selectOption('" ++ show_opt (selector action) ++ "', '" ++
      show_opt (value action) ++ "');" ++ nl ++ nl
  | press =>
      "  // Press key" ++ nl ++
      "  await page.press('" ++ show_opt (selector action) ++ "', '" ++
      show_opt (value action) ++ "');" ++ nl ++ nl
  | wait =>
      "  // Wait for element" ++ nl ++
      "  await page.waitForSelector('" ++ show_opt (selector action) ++ "');" ++
      nl ++ nl
  | assert =>
      match assertion action with
      | Some a =>
          match a_type a with
          | a_text =>
              "  // Assert text content" ++ nl ++
              "  await expect(page.locator('" ++ show_opt (selector action) ++
              "')).toHaveText('" ++ expected a ++ "');" ++ nl ++ nl
          | a_visible =>
              "  // Assert element is visible" ++ nl ++
              "  await expect(page.locator('" ++ show_opt (selector action) ++
              "')).toBeVisible();" ++ nl ++ nl
          | a_url =>
              "  // Assert URL" ++ nl ++
              "  await expect(page).toHaveURL('" ++ expected a ++ "');" ++ nl ++ nl
          | a_title =>
              "  // Assert page title" ++ nl ++
              "  await expect(page).toHaveTitle('" ++ expected a ++ "');" ++
              nl ++ nl
          | a_enabled => EmptyString
          end
      | None => EmptyString
      end
  end.

Fixpoint playwrightBody (testBody : string) (actions : list TestAction) : string :=
  match actions with
  | [] => testBody
  | action :: rest => playwrightBody (testBody ++ playwrightStep action) rest
  end.

Definition generatePlaywrightScript
    (testName : string) (actions : list TestAction) (metadata : Metadata) : string :=
  let imports :=
    "const { test, expect } = require('@playwright/test');" ++ nl ++ nl in
  let testHeader := "test('" ++ testName ++ "', async ({ page }) => {" ++ nl in
  let testFooter := "});" ++ nl in
  let testBody :=
    "  // Set viewport" ++ nl ++
    "  await page.setViewportSize({ width: " ++
    show_number (width (viewport metadata)) ++ ", height: " ++
    show_number (height (viewport metadata)) ++ " });" ++ nl ++ nl in
  imports ++ testHeader ++ playwrightBody testBody actions ++ testFooter.

(** One iteration of the loop of [generateActionSteps]. Only [navigate],
    [click], [fill] and a [visible] assertion have a case; every other
    action adds nothing to [steps]. *)
Definition actionStep (indent format : string) (action : TestAction) : string :=
  let jest := String.eqb format "jest" in
  match type action with
  | navigate =>
      if jest
      then indent ++ "await page.goto('" ++ show_opt (url action) ++ "');" ++ nl
      else indent ++ "await driver.get('" ++ show_opt (url action) ++ "');" ++ nl
  | click =>
      if jest
      then indent ++ "await page.click('" ++ show_opt (selector action) ++ "');" ++ nl
      else indent ++ "await driver.findElement(By.css('" ++
           show_opt (selector action) ++ "')).click();" ++ nl
  | fill =>
      if jest
      then indent ++ "await page.type('" ++ show_opt (selector action) ++ "', '" ++
           show_opt (value action) ++ "');" ++ nl
      else indent ++ "await driver.findElement(By.css('" ++
           show_opt (selector action) ++ "')).sendKeys('" ++
           show_opt (value action) ++ "');" ++ nl
  | assert =>
      match assertion action with
      | Some {| a_type := a_visible |} =>
          if jest
          then indent ++ "await expect(page.$('" ++ show_opt (selector action) ++
               "')).resolves.toBeTruthy();" ++ nl
          else indent ++ "const element = await driver.findElement(By.css('" ++
               show_opt (selector action) ++ "'));" ++ nl ++
               indent ++ "assert(await element.isDisplayed());" ++ nl
      | _ => EmptyString
      end
  | _ => EmptyString
  end.

Fixpoint actionSteps (steps : string) (actions : list TestAction)
    (indent format : string) : string :=
  match actions with
  | [] => steps
  | action :: rest =>
      actionSteps (steps ++ actionStep indent format action) rest indent format
  end.

Definition generateActionSteps
    (actions : list TestAction) (indent format : string) : string :=
  actionSteps EmptyString actions indent format.

Definition generateJestScript
    (testName : string) (actions : list TestAction) (metadata : Metadata) : string :=
  "const puppeteer = require('puppeteer');" ++ nl ++
  nl ++
  "describe('" ++ testName ++ "', () => {" ++ nl ++
  "  let browser;" ++ nl ++
  "  let page;" ++ nl ++
  nl ++
  "  beforeAll(async () => {" ++ nl ++
  "    browser = await puppeteer.launch();" ++ nl ++
  "    page = await browser.newPage();" ++ nl ++
  "    await page.setViewport({ width: " ++
  show_number (width (viewport metadata)) ++ ", height: " ++
  show_number (height (viewport metadata)) ++ " });" ++ nl ++
  "  });" ++ nl ++
  nl ++
  "  afterAll(async () => {" ++ nl ++
  "    await browser.close();" ++ nl ++
  "  });" ++ nl ++
  nl ++
  "  test('" ++ testName ++ " test case', async () => {" ++ nl ++
  generateActionSteps actions "    " "jest" ++ nl ++
  "  });" ++ nl ++
  "});" ++ nl.

Definition generateMochaScript
    (testName : string) (actions : list TestAction) (metadata : Metadata) : string :=
  "const { Builder, By, until } = require('selenium-webdriver');" ++ nl ++
  "const assert = require('assert');" ++ nl ++
  nl ++
  "describe('" ++ testName ++ "', function() {" ++ nl ++
  "  let driver;" ++ nl ++
  nl ++
  "  before(async function() {" ++ nl ++
  "    driver = await new Builder().forBrowser('chrome').build();" ++ nl ++
  "    await driver.manage().window().setRect({ width: " ++
  show_number (width (viewport metadata)) ++ ", height: " ++
  show_number (height (viewport metadata)) ++ " });" ++ nl ++
  "  });" ++ nl ++
  nl ++
  "  after(async function() {" ++ nl ++
  "    await driver.quit();" ++ nl ++
  "  });" ++ nl ++
  nl ++
  "  it('" ++ testName ++ " test case', async function() {" ++ nl ++
  generateActionSteps actions "    " "mocha" ++ nl ++
  "  });" ++ nl ++
  "});" ++ nl.

Definition generateTestScript
    (recording : TestRecording) (testName format : string) : string :=
  if String.eqb format "playwright" then
    generatePlaywrightScript testName (actions recording) (metadata recording)
  else if String.eqb format "jest" then
    generateJestScript testName (actions recording) (metadata recording)
  else if String.eqb format "mocha" then
    generateMochaScript testName (actions recording) (metadata recording)
  else
    generatePlaywrightScript testName (actions recording) (metadata recording).

(** The action sequence [[navigate(url = X), assert(url, X)]]. *)
Definition navigateAction (t : Z) (X : string) : TestAction :=
  {| type := navigate; timestamp := t; selector := None; value := None;
     url := Some X; assertion := None |}.

Definition assertUrlAction (t : Z) (X : string) : TestAction :=
  {| type := assert; timestamp := t; selector := None; value := None;
     url := None; assertion := Some {| a_type := a_url; expected := X |} |}.

Definition roundTripRecording (X : string) : TestRecording :=
  {| r_sessionId := "s1";
     actions := [navigateAction 1 X; assertUrlAction 2 X];
     startTime := 0;
     metadata := {| m_url := "about:blank";
                    viewport := {| width := 1920; height := 1080 |};
                    userAgent := "Mozilla/5.0" |} |}.

End Render.

(** ** JavaScript [Map] with string keys

    Entries are kept in insertion order, which is the order of
    [entries()], [keys()], [values()] and [forEach]. *)

Module JsMap.

Definition t (V : Type) : Type := list (string * V).

Section Ops.
Context {V : Type}.

Definition empty : t V := [].

Definition keys (m : t V) : list string := map fst m.
Definition values (m : t V) : list V := map snd m.
Definition entries (m : t V) : list (string * V) := m.
Definition size (m : t V) : nat := List.length m.

Fixpoint get (k : string) (m : t V) : option V :=
  match m with
  | [] => None
  | (k', v) :: rest => if String.eqb k k' then Some v else get k rest
  end.

Definition has (k : string) (m : t V) : bool :=
  match get k m with
  | Some _ => true
  | None => false
  end.

(** [set] overwrites in place when the key is present and appends at the
    end otherwise. *)
Fixpoint set (k : string) (v : V) (m : t V) : t V :=
  match m with
  | [] => [(k, v)]
  | (k', v') :: rest =>
      if String.eqb k k' then (k', v) :: rest else (k', v') :: set k v rest
  end.

Definition delete (k : string) (m : t V) : t V :=
  filter (fun e => negb (String.eqb k (fst e))) m.

(** Keys are unique. *)
Definition wf (m : t V) : Prop := NoDup (keys m).

(** [a] is visited before [b] when iterating over [m]. *)
Fixpoint before (a b : string * V) (m : t V) : Prop :=
  match m with
  | [] => False
  | x :: rest => (x = a /\ In b rest) \/ before a b rest
  end.
End Ops.

End JsMap.

(** ** Data model (interfaces [BrowserSession], [ElectronSession]) *)

(** Driver objects ([Browser], [BrowserContext], [Page],
    [ElectronApplication]) and [WriteStream]s are opaque references. *)
Definition Handle := nat.
Definition StreamId := nat.

Record BrowserSession := {
  browser : Handle;
  context : Handle;
  pages : JsMap.t Handle;
  lastActivity : Z;
  createdAt : Z;
  logStreams : JsMap.t StreamId
}.

Record ElectronSession := {
  app : Handle;
  mainWindow : option Handle;
  executablePath : string;
  e_lastActivity : Z;
  e_createdAt : Z
}.

Definition SESSION_TIMEOUT : Z := 30 * 60 * 1000.
Definition CLEANUP_INTERVAL : Z := 5 * 60 * 1000.
Definition MAX_MEMORY_MB : Z := 2048.

(** Calls that leave the process, in the order they are made. *)
Inductive Event :=
  | ChromiumLaunch                       (* chromium.launch(...) *)
  | NewContext (b : Handle)              (* browser.newContext(...) *)
  | NewPage (c : Handle)                 (* context.newPage() *)
  | BrowserClose (b : Handle)            (* session.browser.close() *)
  | AppClose (a : Handle)                (* session.app.close() *)
  | CreateWriteStream (s : StreamId)     (* createWriteStream(logFilePath) *)
  | StreamWrite (s : StreamId)           (* stream.write(...) *)
  | StreamEnd (s : StreamId)             (* stream.end() *)
  | ConsoleError (msg : string)          (* console.error(...) *)
  | Pgrep                                (* pgrep -f headless_shell|chromium *)
  | Ps                                   (* ps -p <pid> -o rss= *)
  | PkillOldest                          (* pkill -o -f headless_shell *)
  | PkillAll                             (* pkill -f headless_shell *)
  | ClearInterval                        (* clearInterval(cleanupTimer) *)
  | ProcessExit (code : Z).              (* process.exit(code) *)

Definition Event_eqb (a b : Event) : bool :=
  match a, b with
  | ChromiumLaunch, ChromiumLaunch => true
  | NewContext x, NewContext y => Nat.eqb x y
  | NewPage x, NewPage y => Nat.eqb x y
  | BrowserClose x, BrowserClose y => Nat.eqb x y
  | AppClose x, AppClose y => Nat.eqb x y
  | CreateWriteStream x, CreateWriteStream y => Nat.eqb x y
  | StreamWrite x, StreamWrite y => Nat.eqb x y
  | StreamEnd x, StreamEnd y => Nat.eqb x y
  | ConsoleError x, ConsoleError y => String.eqb x y
  | Pgrep, Pgrep => true
  | Ps, Ps => true
  | PkillOldest, PkillOldest => true
  | PkillAll, PkillAll => true
  | ClearInterval, ClearInterval => true
  | ProcessExit x, ProcessExit y => Z.eqb x y
  | _, _ => false
  end.

(** How often [e] was performed in trace [tr]. *)
Definition count (e : Event) (tr : list Event) : nat :=
  List.length (filter (Event_eqb e) tr).

(** The fields of [PlaywrightMCPServer] the lifecycle code reads or writes,
    together with the trace of its external calls. *)
Record Server := {
  sessions : JsMap.t BrowserSession;
  electronSessions : JsMap.t ElectronSession;
  cleanupTimer : bool;
  isShuttingDown : bool;
  trace : list Event
}.

Definition initial : Server :=
  {| sessions := JsMap.empty;
     electronSessions := JsMap.empty;
     cleanupTimer := true;
     isShuttingDown := false;
     trace := [] |}.

Definition with_sessions (m : JsMap.t BrowserSession) (st : Server) : Server :=
  {| sessions := m;
     electronSessions := electronSessions st;
     cleanupTimer := cleanupTimer st;
     isShuttingDown := isShuttingDown st;
     trace := trace st |}.

Definition with_electronSessions (m : JsMap.t ElectronSession) (st : Server) : Server :=
  {| sessions := sessions st;
     electronSessions := m;
     cleanupTimer := cleanupTimer st;
     isShuttingDown := isShuttingDown st;
     trace := trace st |}.

Definition with_isShuttingDown (b : bool) (st : Server) : Server :=
  {| sessions := sessions st;
     electronSessions := electronSessions st;
     cleanupTimer := cleanupTimer st;
     isShuttingDown := b;
     trace := trace st |}.

Definition with_trace (tr : list Event) (st : Server) : Server :=
  {| sessions := sessions st;
     electronSessions := electronSessions st;
     cleanupTimer := cleanupTimer st;
     isShuttingDown := isShuttingDown st;
     trace := tr |}.

(** ** The monad of server code: state, and exceptions that keep the state *)

Inductive Completion (A : Type) :=
  | Normal (a : A)
  | Thrown (e : string).
Arguments Normal {A} a.
Arguments Thrown {A} e.

Definition M (A : Type) : Type := Server -> Completion A * Server.

Definition ret {A} (a : A) : M A := fun st => (Normal a, st).

Definition bind {A B} (c : M A) (k : A -> M B) : M B :=
  fun st =>
    match c st with
    | (Normal a, st') => k a st'
    | (Thrown e, st') => (Thrown e, st')
    end.

Definition throw {A} (e : string) : M A := fun st => (Thrown e, st).

(** [try { c } catch (error) { handler(error) }] *)
Definition try_catch {A} (c : M A) (handler : string -> M A) : M A :=
  fun st =>
    match c st with
    | (Normal a, st') => (Normal a, st')
    | (Thrown e, st') => handler e st'
    end.

Definition get_server : M Server := fun st => (Normal st, st).

Definition modify (f : Server -> Server) : M unit := fun st => (Normal tt, f st).

(** Performs an external call. *)
Definition emit (e : Event) : M unit :=
  modify (fun st => with_trace (trace st ++ [e]) st).

(** Outcome of an awaited external call that settles. *)
Definition await {A} (r : Completion A) : M A := fun st => (r, st).

Declare Scope m_scope.
Delimit Scope m_scope with m.
Notation "x <- c ;; k" := (bind c (fun x => k))
  (at level 61, c at next level, right associativity) : m_scope.
Notation "c ;; k" := (bind c (fun _ => k))
  (at level 61, right associativity) : m_scope.
Local Open Scope m_scope.

(** [for (const x of l) { body(x) }] *)
Fixpoint for_each {A} (l : list A) (body : A -> M unit) : M unit :=
  match l with
  | [] => ret tt
  | x :: rest => body x ;; for_each rest body
  end.

Definition console_error (msg : string) : M unit := emit (ConsoleError msg).

(** ** Results of shell commands and of the launch sequence *)

(** [await execAsync(cmd)]: the captured standard output, or a rejection. *)
Inductive ExecResult :=
  | ExecOk (stdout : string)
  | ExecError (e : string).

Definition exec (r : ExecResult) : M string :=
  match r with
  | ExecOk out => await (Normal out)
  | ExecError e => await (Thrown e)
  end.

(** [parseInt(stdout.trim())] of the [ps] probe: an integer number of
    kilobytes, or [None] for [NaN]; or the rejection of the command. *)
Inductive PsResult :=
  | PsRss (rss : option Z)
  | PsError (e : string).

(** What the driver and the file system answer during one [launchBrowser]. *)
Record LaunchWorld := {
  chromium_launch : Completion Handle;
  browser_newContext : Completion Handle;
  context_newPage : Completion Handle;
  createWriteStream : StreamId;
  launch_now : Z
}.

(** ** String helpers of [cleanupZombieProcesses] *)

Module Str.

Definition is_space (c : ascii) : bool :=
  let n := nat_of_ascii c in
  ((9 <=? n) && (n <=? 13)) || (n =? 32).

Fixpoint trimStart (s : string) : string :=
  match s with
  | EmptyString => EmptyString
  | String c rest => if is_space c then trimStart rest else s
  end.

Fixpoint trimEnd (s : string) : string :=
  match s with
  | EmptyString => EmptyString
  | String c rest =>
      match trimEnd rest with
      | EmptyString => if is_space c then EmptyString else String c EmptyString
      | r => String c r
      end
  end.

(** [s.trim()] on ASCII text. *)
Definition trim (s : string) : string := trimEnd (trimStart s).

(** [s.split('\n')] *)
Fixpoint split_lines (s : string) : list string :=
  match s with
  | EmptyString => [EmptyString]
  | String c rest =>
      if Ascii.eqb c (ascii_of_nat 10) then EmptyString :: split_lines rest
      else match split_lines rest with
           | [] => [String c EmptyString]
           | line :: lines => String c line :: lines
           end
  end.

(** A string is truthy when it is not empty. *)
Definition truthy (s : string) : bool :=
  match s with
  | EmptyString => false
  | _ => true
  end.

End Str.

(** [stdout.trim().split('\n').filter(pid => pid)] *)
Definition parsePids (stdout : string) : list string :=
  filter Str.truthy (Str.split_lines (Str.trim stdout)).

(** ** Stable sort of the session entries

    [Array.prototype.sort] with the comparator
    [(a, b) => a[1].createdAt - b[1].createdAt] is a stable sort on
    [createdAt]; it is modelled by insertion sort, an element going in front
    of the first one that is not older than it. *)

Definition Entry : Type := string * BrowserSession.

Fixpoint insert_by_createdAt (x : Entry) (l : list Entry) : list Entry :=
  match l with
  | [] => [x]
  | y :: rest =>
      if (createdAt (snd x) <=? createdAt (snd y))%Z then x :: y :: rest
      else y :: insert_by_createdAt x rest
  end.

Fixpoint sort_by_createdAt (l : list Entry) : list Entry :=
  match l with
  | [] => []
  | x :: rest => insert_by_createdAt x (sort_by_createdAt rest)
  end.

(** [Math.max(1, Math.floor(n * 0.25))] for an array length [n]: the
    product with 0.25 is exact, so the floor is the integer quotient. *)
Definition toClose (n : nat) : nat := Nat.max 1 (n / 4).

(** [parseInt(stdout.trim()) / 1024] *)
Definition memoryMB (rss : Z) : Q := (inject_Z rss / inject_Z 1024)%Q.

(** [memoryMB > MAX_MEMORY_MB] *)
Definition memory_high (rss : Z) : bool :=
  negb (Qle_bool (memoryMB rss) (inject_Z MAX_MEMORY_MB)).

(** ** Session lifecycle *)

Section Lifecycle.

(** Outcome of [await session.browser.close()] and of
    [await session.app.close()] for each driver object: the call returns
    or rejects. *)
Variable driver_browser_close : Handle -> Completion unit.
Variable driver_app_close : Handle -> Completion unit.

Definition await_browser_close (b : Handle) : M unit :=
  emit (BrowserClose b) ;; await (driver_browser_close b).

Definition await_app_close (a : Handle) : M unit :=
  emit (AppClose a) ;; await (driver_app_close a).

Definition sessions_delete (sessionId : string) : M unit :=
  modify (fun st => with_sessions (JsMap.delete sessionId (sessions st)) st).

Definition electronSessions_delete (sessionId : string) : M unit :=
  modify (fun st =>
    with_electronSessions (JsMap.delete sessionId (electronSessions st)) st).

Definition set_lastActivity (now : Z) (s : BrowserSession) : BrowserSession :=
  {| browser := browser s; context := context s; pages := pages s;
     lastActivity := now; createdAt := createdAt s;
     logStreams := logStreams s |}.

Definition set_e_lastActivity (now : Z) (s : ElectronSession) : ElectronSession :=
  {| app := app s; mainWindow := mainWindow s;
     executablePath := executablePath s;
     e_lastActivity := now; e_createdAt := e_createdAt s |}.

Definition set_logStreams (m : JsMap.t StreamId) (s : BrowserSession) : BrowserSession :=
  {| browser := browser s; context := context s; pages := pages s;
     lastActivity := lastActivity s; createdAt := createdAt s;
     logStreams := m |}.

(** The session object is mutated in place: its entry keeps its position. *)
Definition updateSessionActivity (sessionId : string) (now : Z) : M unit :=
  st <- get_server ;;
  match JsMap.get sessionId (sessions st) with
  | Some session =>
      modify (with_sessions
        (JsMap.set sessionId (set_lastActivity now session) (sessions st)))
  | None => ret tt
  end ;;
  st <- get_server ;;
  match JsMap.get sessionId (electronSessions st) with
  | Some electronSession =>
      modify (with_electronSessions
        (JsMap.set sessionId (set_e_lastActivity now electronSession)
           (electronSessions st)))
  | None => ret tt
  end.

Definition cleanupInactiveBrowser (TIMEOUT now : Z) (e : string * BrowserSession) : M unit :=
  let (sessionId, session) := e in
  if (now - lastActivity session >? TIMEOUT)%Z then
    console_error ("Cleaning up inactive browser session: " ++ sessionId)%string ;;
    try_catch (await_browser_close (browser session))
      (fun error =>
         console_error
           ("Error closing browser session " ++ sessionId ++ ": " ++ error)%string) ;;
    sessions_delete sessionId
  else ret tt.

Definition cleanupInactiveElectron (TIMEOUT now : Z) (e : string * ElectronSession) : M unit :=
  let (sessionId, session) := e in
  if (now - e_lastActivity session >? TIMEOUT)%Z then
    console_error ("Cleaning up inactive electron session: " ++ sessionId)%string ;;
    try_catch (await_app_close (app session))
      (fun error =>
         console_error
           ("Error closing electron session " ++ sessionId ++ ": " ++ error)%string) ;;
    electronSessions_delete sessionId
  else ret tt.

(** [cleanupInactiveSessions] with the constant [SESSION_TIMEOUT] taken as
    the argument [TIMEOUT]. Deleting the entry being visited does not
    disturb the iteration, so each loop runs over the entries present
    when it starts. *)
Definition cleanupInactiveSessions_with (TIMEOUT now : Z) : M unit :=
  st <- get_server ;;
  for_each (JsMap.entries (sessions st)) (cleanupInactiveBrowser TIMEOUT now) ;;
  st <- get_server ;;
  for_each (JsMap.entries (electronSessions st))
    (cleanupInactiveElectron TIMEOUT now).

Definition cleanupInactiveSessions (now : Z) : M unit :=
  cleanupInactiveSessions_with SESSION_TIMEOUT now.

Definition closeOldSession (e : Entry) : M unit :=
  let (sessionId, session) := e in
  console_error
    ("Closing old session due to memory pressure: " ++ sessionId)%string ;;
  try_catch (await_browser_close (browser session))
    (fun error =>
       console_error ("Error closing session " ++ sessionId ++ ": " ++ error)%string) ;;
  sessions_delete sessionId.

(** The loop [for (i = 0; i < toClose && i < browserSessions.length; i++)]
    visits the first [toClose] elements of the sorted array. *)
Definition cleanupOldestSessions : M unit :=
  st <- get_server ;;
  let browserSessions := sort_by_createdAt (JsMap.entries (sessions st)) in
  let toClose := toClose (List.length browserSessions) in
  for_each (firstn toClose browserSessions) closeOldSession.

Definition checkMemoryUsage (ps : PsResult) : M unit :=
  try_catch
    (emit Ps ;;
     rss <- await (match ps with
                   | PsRss r => Normal r
                   | PsError e => Thrown e
                   end) ;;
     match rss with
     | Some kb =>
         if memory_high kb then
           console_error "High memory usage detected. Cleaning up old sessions..." ;;
           cleanupOldestSessions
         else ret tt
     | None => ret tt
     end)
    (fun error => console_error ("Error checking memory usage: " ++ error)%string).

Definition cleanupZombieProcesses (pgrep pkill : ExecResult) : M unit :=
  try_catch
    (emit Pgrep ;;
     stdout <- exec pgrep ;;
     let pids := parsePids stdout in
     st <- get_server ;;
     if JsMap.size (sessions st) * 2 <? List.length pids then
       console_error
       ("Found " ++ show_nat (List.length pids) ++ " browser processes but only " ++
        show_nat (JsMap.size (sessions st)) ++
        " active sessions. Cleaning zombies...")%string ;;
       emit PkillOldest ;;
       _ <- exec pkill ;;
       ret tt
     else ret tt)
    (fun _ => ret tt).

(** One tick of [startCleanupRoutine]. *)
Definition cleanupTick (now : Z) (ps : PsResult) (pgrep pkill : ExecResult) : M unit :=
  cleanupInactiveSessions now ;;
  checkMemoryUsage ps ;;
  cleanupZombieProcesses pgrep pkill.

Definition closeLogStreams (sessionId : string) : M unit :=
  st <- get_server ;;
  match JsMap.get sessionId (sessions st) with
  | Some session =>
      for_each (JsMap.entries (logStreams session))
        (fun e => emit (StreamWrite (snd e)) ;; emit (StreamEnd (snd e))) ;;
      modify (fun st =>
        with_sessions
          (JsMap.set sessionId (set_logStreams JsMap.empty session) (sessions st))
          st)
  | None => ret tt
  end.

Definition closeBrowser (sessionId : string) : M string :=
  st <- get_server ;;
  match JsMap.get sessionId (sessions st) with
  | None => ret ("Session " ++ sessionId ++ " not found")%string
  | Some session =>
      try_catch
        (closeLogStreams sessionId ;;
         await_browser_close (browser session))
        (fun error =>
           console_error ("Error closing browser " ++ sessionId ++ ": " ++ error)%string) ;;
      sessions_delete sessionId ;;
      ret ("Browser session " ++ sessionId ++ " closed")%string
  end.

Definition closeElectron (sessionId : string) : M string :=
  st <- get_server ;;
  match JsMap.get sessionId (electronSessions st) with
  | None => ret ("Electron session " ++ sessionId ++ " not found")%string
  | Some session =>
      try_catch (await_app_close (app session))
        (fun error =>
           console_error ("Error closing electron " ++ sessionId ++ ": " ++ error)%string) ;;
      electronSessions_delete sessionId ;;
      ret ("Electron session " ++ sessionId ++ " closed")%string
  end.

Definition setupPageLogging (sessionId pageId : string) (page : Handle)
    (logStream : StreamId) : M unit :=
  st <- get_server ;;
  match JsMap.get sessionId (sessions st) with
  | None => ret tt
  | Some session =>
      emit (CreateWriteStream logStream) ;;
      modify (fun st =>
        with_sessions
          (JsMap.set sessionId
             (set_logStreams (JsMap.set pageId logStream (logStreams session)) session)
             (sessions st))
          st) ;;
      emit (StreamWrite logStream) ;;
      emit (StreamWrite logStream) ;;
      emit (StreamWrite logStream) ;;
      emit (StreamWrite logStream) ;;
      console_error
        ("Console logging enabled for session " ++ sessionId ++ ", page " ++ pageId)%string
  end.

(** The [viewport] argument only reaches [browser.newContext] and is left
    out. *)
Definition launchBrowser (sessionId : string) (headless : bool)
    (w : LaunchWorld) : M string :=
  st <- get_server ;;
  if JsMap.has sessionId (sessions st) then
    ret ("Session " ++ sessionId ++ " already exists")%string
  else
    emit ChromiumLaunch ;;
    browser <- await (chromium_launch w) ;;
    emit (NewContext browser) ;;
    context <- await (browser_newContext w) ;;
    emit (NewPage context) ;;
    page <- await (context_newPage w) ;;
    let now := launch_now w in
    let session :=
      {| browser := browser; context := context;
         pages := [("main"%string, page)];
         lastActivity := now; createdAt := now;
         logStreams := JsMap.empty |} in
    modify (fun st => with_sessions (JsMap.set sessionId session (sessions st)) st) ;;
    setupPageLogging sessionId "main" page (createWriteStream w) ;;
    ret ("Browser launched with session ID: " ++ sessionId ++
         " (headless: " ++ show_bool headless ++ ")")%string.

(** The [CallToolRequestSchema] handler around one tool: the activity of
    the named session is refreshed first, and whatever the tool throws
    becomes an error text. *)
Definition callTool (name sessionId : string) (now : Z) (tool : M string) : M string :=
  try_catch
    ((if Str.truthy sessionId then updateSessionActivity sessionId now else ret tt) ;;
     tool)
    (fun error =>
       console_error ("Tool " ++ name ++ " error: " ++ error)%string ;;
       ret ("Error: " ++ error)%string).

Definition tool_browser_launch (sessionId : string) (headless : bool)
    (now : Z) (w : LaunchWorld) : M string :=
  callTool "browser_launch" sessionId now (launchBrowser sessionId headless w).

Definition tool_browser_close (sessionId : string) (now : Z) : M string :=
  callTool "browser_close" sessionId now (closeBrowser sessionId).

Definition tool_electron_close (sessionId : string) (now : Z) : M string :=
  callTool "electron_close" sessionId now (closeElectron sessionId).

End Lifecycle.

(** ** Shutdown ([cleanup] in [setupProcessHandlers])

    [cleanup] is an [async] function: it runs without interruption up to
    [await Promise.all(...)] and resumes only when every close promise has
    settled. Each [map(async (session) => { try { await close() } ... })]
    calls [close()] at once, so all close calls are started in the first,
    uninterrupted part. A close call may here also never settle. *)

Inductive Settlement :=
  | Settled (r : Completion unit)
  | Pending.

(** A started close call: [session.browser.close()] or
    [session.app.close()]. *)
Inductive CloseCall :=
  | OfBrowser (b : Handle)
  | OfApp (a : Handle).

Section Shutdown.

Variable browser_close_settles : Handle -> Settlement.
Variable app_close_settles : Handle -> Settlement.

Definition settlement (c : CloseCall) : Settlement :=
  match c with
  | OfBrowser b => browser_close_settles b
  | OfApp a => app_close_settles a
  end.

Definition close_event (c : CloseCall) : Event :=
  match c with
  | OfBrowser b => BrowserClose b
  | OfApp a => AppClose a
  end.

Definition start_close (c : CloseCall) : M unit := emit (close_event c).

(** The part of [cleanup] before [await Promise.all]: [None] when it
    returned at the [isShuttingDown] guard, otherwise the close calls it
    started ([browserClosePromises] followed by [electronClosePromises]). *)
Definition cleanup_begin : M (option (list CloseCall)) :=
  st <- get_server ;;
  if isShuttingDown st then ret None
  else
    modify (with_isShuttingDown true) ;;
    console_error "Shutting down Playwright MCP server..." ;;
    (if cleanupTimer st then emit ClearInterval else ret tt) ;;
    let browserClosePromises :=
      map (fun session => OfBrowser (browser session)) (JsMap.values (sessions st)) in
    for_each browserClosePromises start_close ;;
    let electronClosePromises :=
      map (fun session => OfApp (app session)) (JsMap.values (electronSessions st)) in
    for_each electronClosePromises start_close ;;
    ret (Some (browserClosePromises ++ electronClosePromises)).

(** What the [catch] block of a close promise prints: it runs when the call
    rejects. The blocks of different promises run in the order in which the
    calls settle; they are listed here in promise order. *)
Definition rejection_log (c : CloseCall) : list Event :=
  match c, settlement c with
  | OfBrowser _, Settled (Thrown e) =>
      [ConsoleError ("Error closing browser: " ++ e)%string]
  | OfApp _, Settled (Thrown e) =>
      [ConsoleError ("Error closing electron app: " ++ e)%string]
  | _, _ => []
  end.

Definition close_settled (c : CloseCall) : M unit :=
  for_each (rejection_log c) emit.

Definition has_settled (c : CloseCall) : bool :=
  match settlement c with
  | Settled _ => true
  | Pending => false
  end.

(** [Promise.all] over the close promises resolves when each has. *)
Definition all_settled (promises : list CloseCall) : bool :=
  forallb has_settled promises.

(** The part of [cleanup] after [await Promise.all]. *)
Definition cleanup_end (pkill : ExecResult) : M unit :=
  try_catch (emit PkillAll ;; _ <- exec pkill ;; ret tt) (fun _ => ret tt) ;;
  console_error "Cleanup complete" ;;
  emit (ProcessExit 0).

(** One invocation of [cleanup]; the result tells whether it reached
    [process.exit(0)]. *)
Definition cleanup (pkill : ExecResult) : M bool :=
  started <- cleanup_begin ;;
  match started with
  | None => ret false
  | Some promises =>
      for_each promises close_settled ;;
      if all_settled promises then cleanup_end pkill ;; ret true
      else ret false
  end.


(** The close call rejects. *)
Definition rejects (c : CloseCall) : bool :=
  match settlement c with
  | Settled (Thrown _) => true
  | _ => false
  end.

End Shutdown.

(** What the [catch] block of a close promise prints for the error [e]. *)
Definition rejection_message (c : CloseCall) (e : string) : string :=
  match c with
  | OfBrowser _ => ("Error closing browser: " ++ e)%string
  | OfApp _ => ("Error closing electron app: " ++ e)%string
  end.

(** The texts printed with [console.error], oldest first. *)
Fixpoint console_errors (tr : list Event) : list string :=
  match tr with
  | [] => []
  | ConsoleError msg :: rest => msg :: console_errors rest
  | _ :: rest => console_errors rest
  end.

(** The close calls a shutdown starts: the browsers, then the
    applications, each in registry order. *)
Definition close_calls (st : Server) : list CloseCall :=
  map (fun session => OfBrowser (browser session)) (JsMap.values (sessions st)) ++
  map (fun session => OfApp (app session)) (JsMap.values (electronSessions st)).

(** Handles of the sessions of a server, in registry order. *)
Definition browser_handles (st : Server) : list Handle :=
  map browser (JsMap.values (sessions st)).

Definition app_handles (st : Server) : list Handle :=
  map app (JsMap.values (electronSessions st)).

(** The candidate test of the idle-timeout policy, for a timeout and a
    clock value. *)
Definition idle_browser (TIMEOUT now : Z) (e : string * BrowserSession) : bool :=
  (now - lastActivity (snd e) >? TIMEOUT)%Z.

Definition idle_electron (TIMEOUT now : Z) (e : string * ElectronSession) : bool :=
  (now - e_lastActivity (snd e) >? TIMEOUT)%Z.

(** The browsers on which [close()] was called, in call order. *)
Fixpoint browser_closes (tr : list Event) : list Handle :=
  match tr with
  | [] => []
  | BrowserClose b :: rest => b :: browser_closes rest
  | _ :: rest => browser_closes rest
  end.

(** The applications on which [close()] was called, in call order. *)
Fixpoint app_closes (tr : list Event) : list Handle :=
  match tr with
  | [] => []
  | AppClose a :: rest => a :: app_closes rest
  | _ :: rest => app_closes rest
  end.

(** [a] is not younger than [b]. *)
Definition older_eq (a b : Entry) : Prop :=
  (createdAt (snd a) <= createdAt (snd b))%Z.

(** No selected element of [l] has the key of entry [e]. *)
Definition key_not_in {A V} (key : A -> string) (sel : A -> bool) (l : list A)
    (e : string * V) : bool :=
  negb (existsb (fun x => sel x && String.eqb (key x) (fst e)) l).

(** The streams on which [end()] was called, in call order. *)
Fixpoint stream_ends (tr : list Event) : list StreamId :=
  match tr with
  | [] => []
  | StreamEnd s :: rest => s :: stream_ends rest
  | _ :: rest => stream_ends rest
  end.

(** The registries after [updateSessionActivity]. *)
Definition touchSessions (sessionId : string) (now : Z)
    (m : JsMap.t BrowserSession) : JsMap.t BrowserSession :=
  match JsMap.get sessionId m with
  | Some session => JsMap.set sessionId (set_lastActivity now session) m
  | None => m
  end.

Definition touchElectronSessions (sessionId : string) (now : Z)
    (m : JsMap.t ElectronSession) : JsMap.t ElectronSession :=
  match JsMap.get sessionId m with
  | Some session => JsMap.set sessionId (set_e_lastActivity now session) m
  | None => m
  end.

(** Two session records agree on everything but [lastActivity]. *)
Definition same_but_activity (s s' : BrowserSession) : Prop :=
  browser s' = browser s /\ context s' = context s /\ pages s' = pages s /\
  createdAt s' = createdAt s /\ logStreams s' = logStreams s.

(** ** [browser_launch] requests in flight

    The request handler and [launchBrowser] are [async] functions: a
    request runs without interruption up to an [await] and goes on when the
    awaited driver call has settled; in between, other requests run. *)

(** One [browser_launch] request: the [headless] argument, the clock at
    dispatch and the answers of the outside world. *)
Definition LaunchCall : Type := bool * Z * LaunchWorld.

Definition call_headless (call : LaunchCall) : bool := fst (fst call).
Definition call_now (call : LaunchCall) : Z := snd (fst call).
Definition call_world (call : LaunchCall) : LaunchWorld := snd call.

(** Where a request stands: suspended at one of the three [await]s of
    [launchBrowser], or answered. *)
Inductive LaunchTask :=
  | AwaitLaunch                               (* await chromium.launch(...) *)
  | AwaitNewContext (browser : Handle)        (* await browser.newContext(...) *)
  | AwaitNewPage (browser context : Handle)   (* await context.newPage() *)
  | Answered (text : string).

(** The [catch] block of the handler, for a driver call that rejects. *)
Definition launch_failed (error : string) : M LaunchTask :=
  console_error ("Tool browser_launch error: " ++ error)%string ;;
  ret (Answered ("Error: " ++ error)%string).

(** A request arrives: the handler refreshes the activity of the named
    session and [launchBrowser] runs up to its first [await]. *)
Definition launch_receive (sessionId : string) (call : LaunchCall) : M LaunchTask :=
  (if Str.truthy sessionId
   then updateSessionActivity sessionId (call_now call)
   else ret tt) ;;
  st <- get_server ;;
  if JsMap.has sessionId (sessions st) then
    ret (Answered ("Session " ++ sessionId ++ " already exists")%string)
  else
    emit ChromiumLaunch ;;
    ret AwaitLaunch.

(** The awaited call of a request settles: [launchBrowser] goes on from the
    [await] up to its next [await], or to its end. *)
Definition launch_continue (sessionId : string) (call : LaunchCall)
    (task : LaunchTask) : M LaunchTask :=
  let w := call_world call in
  match task with
  | AwaitLaunch =>
      browser <- await (chromium_launch w) ;;
      emit (NewContext browser) ;;
      ret (AwaitNewContext browser)
  | AwaitNewContext browser =>
      context <- await (browser_newContext w) ;;
      emit (NewPage context) ;;
      ret (AwaitNewPage browser context)
  | AwaitNewPage browser context =>
      page <- await (context_newPage w) ;;
      let now := launch_now w in
      let session :=
        {| browser := browser; context := context;
           pages := [("main"%string, page)];
           lastActivity := now; createdAt := now;
           logStreams := JsMap.empty |} in
      modify (fun st => with_sessions (JsMap.set sessionId session (sessions st)) st) ;;
      setupPageLogging sessionId "main" page (createWriteStream w) ;;
      ret (Answered
             ("Browser launched with session ID: " ++ sessionId ++
              " (headless: " ++ show_bool (call_headless call) ++ ")")%string)
  | Answered text => ret (Answered text)
  end.

(** The same inside the [try] of the handler: a rejection of the awaited
    call, or anything thrown after it, becomes the error answer. *)
Definition launch_resume (sessionId : string) (call : LaunchCall)
    (task : LaunchTask) : M LaunchTask :=
  try_catch (launch_continue sessionId call task) launch_failed.

(** What happens next: a new request arrives, or the awaited call of the
    [i]-th request received so far settles. *)
Inductive Turn :=
  | Receive (call : LaunchCall)
  | Settle (i : nat).

(** The requests received so far, in order of arrival, each with where it
    stands. *)
Definition Pool : Type := list (LaunchCall * LaunchTask).

Fixpoint set_nth {A} (i : nat) (x : A) (l : list A) : list A :=
  match l, i with
  | [], _ => []
  | _ :: rest, O => x :: rest
  | y :: rest, S j => y :: set_nth j x rest
  end.

Definition turn (sessionId : string) (t : Turn) (pool : Pool) : M Pool :=
  match t with
  | Receive call =>
      task <- launch_receive sessionId call ;;
      ret (pool ++ [(call, task)])
  | Settle i =>
      match nth_error pool i with
      | Some (call, task) =>
          task' <- launch_resume sessionId call task ;;
          ret (set_nth i (call, task') pool)
      | None => ret pool
      end
  end.

(** [browser_launch] requests for one [sessionId], interleaved as [turns]
    says. *)
Fixpoint run_turns (sessionId : string) (turns : list Turn) (pool : Pool) : M Pool :=
  match turns with
  | [] => ret pool
  | t :: rest =>
      pool' <- turn sessionId t pool ;;
      run_turns sessionId rest pool'
  end.

(** The requests that arrive during [turns], in order. *)
Fixpoint received (turns : list Turn) : list LaunchCall :=
  match turns with
  | [] => []
  | Receive call :: rest => call :: received rest
  | Settle _ :: rest => received rest
  end.

(** The turns of a request that is received as the [i]-th and answered
    before anything else happens: its three awaited calls settle at
    once. *)
Definition alone (i : nat) (call : LaunchCall) : list Turn :=
  [Receive call; Settle i; Settle i; Settle i].

(** Result and final state of running server code. *)
Definition result_of {A} (c : M A) (st : Server) : Completion A := fst (c st).
Definition state_after {A} (c : M A) (st : Server) : Server := snd (c st).

(** ** Example worlds and registries *)

Module Examples.

Definition mkSession (h : Handle) (created last : Z) (streams : JsMap.t StreamId)
    : BrowserSession :=
  {| browser := h; context := h + 100; pages := [("main"%string, h + 200)];
     lastActivity := last; createdAt := created; logStreams := streams |}.

Definition mkElectron (h : Handle) (created last : Z) : ElectronSession :=
  {| app := h; mainWindow := None; executablePath := "/opt/app/electron"%string;
     e_lastActivity := last; e_createdAt := created |}.

Definition server_of (bs : JsMap.t BrowserSession) (es : JsMap.t ElectronSession)
    : Server :=
  {| sessions := bs; electronSessions := es; cleanupTimer := true;
     isShuttingDown := false; trace := [] |}.

(** A driver whose [close()] always rejects. *)
Definition close_rejects (h : Handle) : Completion unit :=
  Thrown "Target closed"%string.

Definition close_ok (h : Handle) : Completion unit := Normal tt.

(** Eight browser sessions, some of the same age, and an older electron
    session. *)
Definition eight_sessions : Server :=
  server_of
    [("a", mkSession 1 30 30 []); ("b", mkSession 2 10 90 []);
     ("c", mkSession 3 20 20 []); ("d", mkSession 4 10 10 []);
     ("e", mkSession 5 10 95 []); ("f", mkSession 6 5 99 []);
     ("g", mkSession 7 50 50 []); ("h", mkSession 8 20 20 [])]%string
    [("app", mkElectron 9 1 1)]%string.

(** Two browser sessions and two electron sessions; [s1] and [e1] were last
    used at time 0, [s2] and [e2] at time 1000. *)
Definition idle_and_busy : Server :=
  server_of
    [("s1", mkSession 1 0 0 [("main", 7)]); ("s2", mkSession 2 0 1000 [("main", 8)])]%string
    [("e1", mkElectron 3 0 0); ("e2", mkElectron 4 0 1000)]%string.

(** A launch in which every driver call succeeds. *)
Definition launch_world (h : Handle) (stream : StreamId) (t : Z) : LaunchWorld :=
  {| chromium_launch := Normal h;
     browser_newContext := Normal (h + 100);
     context_newPage := Normal (h + 200);
     createWriteStream := stream;
     launch_now := t |}.

(** The server after [browser_launch] of session [s1] at time 0: browser 1,
    console log stream 7. *)
Definition launched : Server :=
  state_after (tool_browser_launch "s1" true 0 (launch_world 1 7 0)) initial.

Definition settles_ok (h : Handle) : Settlement := Settled (Normal tt).

(** Browser 1 never answers [close()]; every other call is rejected. *)
Definition first_hangs (h : Handle) : Settlement :=
  if h =? 1 then Pending else Settled (Thrown "Target closed"%string).

Definition settles_rejected (h : Handle) : Settlement :=
  Settled (Thrown "Target closed"%string).

(** One browser session and three electron sessions. *)
Definition one_browser_three_electron : Server :=
  server_of
    [("s1", mkSession 1 0 0 [])]%string
    [("e1", mkElectron 2 0 0); ("e2", mkElectron 3 0 0); ("e3", mkElectron 4 0 0)]%string.

(** Output of [pgrep] listing three processes. *)
Definition three_pids : string :=
  ("101" ++ nl ++ "102" ++ nl ++ "103" ++ nl)%string.

End Examples.

(** ** Page lookup *)

(** [getPage]: the two failures carry different messages. *)
Definition getPage (sessionId pageId : string) : M Handle :=
  st <- get_server ;;
  match JsMap.get sessionId (sessions st) with
  | None => throw ("Session " ++ sessionId ++ " not found")%string
  | Some session =>
      match JsMap.get pageId (pages session) with
      | None =>
          throw ("Page " ++ pageId ++ " not found in session " ++ sessionId)%string
      | Some page => ret page
      end
  end.

(** ** Tools that use recordings, the test directory and further driver calls

    The state of these tools is the server together with the recordings map
    and the files that exist; calls that leave the process and are not
    among [Event] are kept in [calls], oldest first. *)

Inductive HostCall :=
  | PkillBrowsers                               (* pkill -f headless_shell|chromium *)
  | ElectronLaunch (executablePath : string)    (* electron.launch(...) *)
  | FirstWindow (a : Handle)                    (* app.firstWindow() *)
  | WindowEvaluate (w : Handle) (expression : string)  (* mainWindow.evaluate(...) *)
  | AppEvaluate (a : Handle) (expression : string)     (* app.evaluate(...) *)
  | PageUserAgent (p : Handle)                  (* page.evaluate('navigator.userAgent') *)
  | PageTitle (p : Handle)                      (* page.title() *)
  | PageQuery (p : Handle) (selector : string)  (* page.$(selector) *)
  | ElementIsVisible (p : Handle) (selector : string)  (* element.isVisible() *)
  | WriteFile (path content : string).          (* writeFileSync(path, content) *)

Record Host := {
  server : Server;
  recordings : JsMap.t TestRecording;
  files : JsMap.t string;
  calls : list HostCall
}.

Definition host_of (st : Server) : Host :=
  {| server := st; recordings := JsMap.empty; files := JsMap.empty; calls := [] |}.

Definition with_server (st : Server) (h : Host) : Host :=
  {| server := st; recordings := recordings h; files := files h; calls := calls h |}.

Definition with_recordings (m : JsMap.t TestRecording) (h : Host) : Host :=
  {| server := server h; recordings := m; files := files h; calls := calls h |}.

Definition with_files (m : JsMap.t string) (h : Host) : Host :=
  {| server := server h; recordings := recordings h; files := m; calls := calls h |}.

Definition with_calls (l : list HostCall) (h : Host) : Host :=
  {| server := server h; recordings := recordings h; files := files h; calls := l |}.

Definition H (A : Type) : Type := Host -> Completion A * Host.

Definition hret {A} (a : A) : H A := fun h => (Normal a, h).

Definition hbind {A B} (c : H A) (k : A -> H B) : H B :=
  fun h =>
    match c h with
    | (Normal a, h') => k a h'
    | (Thrown e, h') => (Thrown e, h')
    end.

Definition hthrow {A} (e : string) : H A := fun h => (Thrown e, h).

Definition htry_catch {A} (c : H A) (handler : string -> H A) : H A :=
  fun h =>
    match c h with
    | (Normal a, h') => (Normal a, h')
    | (Thrown e, h') => handler e h'
    end.

Definition hget : H Host := fun h => (Normal h, h).

Definition hmodify (f : Host -> Host) : H unit := fun h => (Normal tt, f h).

(** Server code run inside a tool. *)
Definition lift {A} (c : M A) : H A :=
  fun h => let (r, st) := c (server h) in (r, with_server st h).

Definition hcall (c : HostCall) : H unit :=
  hmodify (fun h => with_calls (calls h ++ [c]) h).

Definition hawait {A} (r : Completion A) : H A := fun h => (r, h).

(** [writeFileSync(path, content)]: the file system creates or replaces
    the file, or it refuses (a directory that does not exist, a denied
    access) and the call throws; [answer] is what it does. *)
Definition writeFileSync (answer : Completion unit) (path content : string) : H unit :=
  hbind (hcall (WriteFile path content)) (fun _ =>
  hbind (hawait answer) (fun _ =>
  hmodify (fun h => with_files (JsMap.set path content (files h)) h))).

Declare Scope h_scope.
Delimit Scope h_scope with h.
Notation "x <- c ;; k" := (hbind c (fun x => k))
  (at level 61, c at next level, right associativity) : h_scope.
Notation "c ;; k" := (hbind c (fun _ => k))
  (at level 61, right associativity) : h_scope.

Fixpoint hfor_each {A} (l : list A) (body : A -> H unit) : H unit :=
  match l with
  | [] => hret tt
  | x :: rest => hbind (body x) (fun _ => hfor_each rest body)
  end.

(** The double quote character, for messages that quote a name. *)
Definition dq : string := String (ascii_of_nat 34) EmptyString.

(** What the page of a session answers when a recording starts. *)
Record PageWorld := {
  page_url : string;
  page_viewportSize : option Viewport;
  page_userAgent : Completion string
}.

(** Answer of the probe of one selector in [generateRegressionTest]:
    [page.$(selector)] rejects, finds nothing, or finds an element whose
    [isVisible()] answers or rejects. *)
Inductive Probe :=
  | ProbeRejects (e : string)
  | ProbeNull
  | ProbeElement (isVisible : Completion bool).

(** A custom assertion of the [test_generate_regression] arguments. *)
Record CustomAssertion := {
  ca_type : AssertionType;
  ca_selector : option string;
  ca_expected : string
}.

Record RegressionWorld := {
  rw_url : string;
  rw_title : Completion string;
  rw_probe : string -> Probe;
  rw_viewportSize : option Viewport;
  rw_userAgent : Completion string
}.

Record ElectronWorld := {
  electron_launch : Completion Handle;
  app_firstWindow : Completion Handle;
  electron_now : Z
}.

Definition commonSelectors : list string :=
  ["h1"; "h2"; "h3"; "button"; "input"; "form"; ".main"; ".content"; "#app"]%string.

Definition defaultViewport : Viewport := {| width := 1920; height := 1080 |}.

Section HostTools.

Local Open Scope h_scope.

Variable driver_browser_close : Handle -> Completion unit.
Variable driver_app_close : Handle -> Completion unit.

(** What the file system answers to [writeFileSync(path, content)]. *)
Variable fs_write : string -> string -> Completion unit.

(** [path.join], left abstract, and the directory of generated tests. *)
Variable join : string -> string -> string.
Variable testDir : string.

(** One round of the first loop of [closeAllBrowsers]: the identifier is
    looked up again when its turn comes. *)
Definition closeListedBrowser (sessionId : string) : M unit :=
  (st <- get_server ;;
   match JsMap.get sessionId (sessions st) with
   | Some session =>
       try_catch (await_browser_close driver_browser_close (browser session))
         (fun error =>
            console_error
              ("Error closing browser " ++ sessionId ++ ": " ++ error)%string)
   | None => ret tt
   end)%m.

Definition closeListedElectron (sessionId : string) : M unit :=
  (st <- get_server ;;
   match JsMap.get sessionId (electronSessions st) with
   | Some session =>
       try_catch (await_app_close driver_app_close (app session))
         (fun error =>
            console_error
              ("Error closing electron " ++ sessionId ++ ": " ++ error)%string)
   | None => ret tt
   end)%m.

(** The loops run over the identifiers present at the start. *)
Definition closeAllBrowserSessions (sessionIds : list string) : M unit :=
  for_each sessionIds closeListedBrowser.

Definition closeAllElectronSessions (electronSessionIds : list string) : M unit :=
  for_each electronSessionIds closeListedElectron.

Definition closeAllBrowsers (pkill : ExecResult) : H string :=
  h <- hget ;;
  let sessionIds := JsMap.keys (sessions (server h)) in
  let electronSessionIds := JsMap.keys (electronSessions (server h)) in
  lift (closeAllBrowserSessions sessionIds ;;
        modify (with_sessions JsMap.empty))%m ;;
  lift (closeAllElectronSessions electronSessionIds ;;
        modify (with_electronSessions JsMap.empty))%m ;;
  htry_catch
    (hcall PkillBrowsers ;;
     _ <- hawait (match pkill with
                  | ExecOk out => Normal out
                  | ExecError e => Thrown e
                  end) ;;
     hret tt)
    (fun _ => hret tt) ;;
  hret ("Closed " ++ show_nat (List.length sessionIds) ++ " browser sessions and " ++
        show_nat (List.length electronSessionIds) ++
        " electron sessions. Cleaned up zombie processes.")%string.

(** The environment prepared for a headless launch only reaches
    [electron.launch] and is left out. A rejected [app.firstWindow()] is
    turned into a missing window. *)
Definition launchElectron (sessionId executablePath : string) (w : ElectronWorld)
    : H string :=
  h <- hget ;;
  if JsMap.has sessionId (electronSessions (server h)) then
    hret ("Electron session " ++ sessionId ++ " already exists")%string
  else
    hcall (ElectronLaunch executablePath) ;;
    app <- hawait (electron_launch w) ;;
    hcall (FirstWindow app) ;;
    mainWindow <- htry_catch
                    (win <- hawait (app_firstWindow w) ;; hret (Some win))
                    (fun _ => hret None) ;;
    let now := electron_now w in
    lift (modify (fun st =>
      with_electronSessions
        (JsMap.set sessionId
           {| app := app; mainWindow := mainWindow;
              executablePath := executablePath;
              e_lastActivity := now; e_createdAt := now |}
           (electronSessions st))
        st)) ;;
    hret ("Electron app launched with session " ++ sessionId)%string.

(** [evaluateInRenderer]; the result is the text the tool answers. *)
Definition evaluateInRenderer (sessionId expression : string)
    (evaluate : Completion string) : H string :=
  h <- hget ;;
  match JsMap.get sessionId (electronSessions (server h)) with
  | None => hthrow ("Electron session " ++ sessionId ++ " not found")%string
  | Some session =>
      match mainWindow session with
      | None => hthrow ("No window available in session " ++ sessionId)%string
      | Some win =>
          hcall (WindowEvaluate win expression) ;;
          hawait evaluate
      end
  end.

(** [evaluateInMain] *)
Definition evaluateInMain (sessionId expression : string)
    (evaluate : Completion string) : H string :=
  h <- hget ;;
  match JsMap.get sessionId (electronSessions (server h)) with
  | None => hthrow ("Electron session " ++ sessionId ++ " not found")%string
  | Some session =>
      hcall (AppEvaluate (app session) expression) ;;
      hawait evaluate
  end.

Definition startTestRecording (sessionId testName : string) (now : Z)
    (w : PageWorld) : H string :=
  h <- hget ;;
  match JsMap.get sessionId (sessions (server h)) with
  | None => hthrow ("Session " ++ sessionId ++ " not found")%string
  | Some session =>
      match JsMap.get "main" (pages session) with
      | None => hthrow ("Main page not found in session " ++ sessionId)%string
      | Some page =>
          let viewport :=
            match page_viewportSize w with
            | Some v => v
            | None => defaultViewport
            end in
          hcall (PageUserAgent page) ;;
          userAgent <- hawait (page_userAgent w) ;;
          let recording :=
            {| r_sessionId := sessionId;
               actions := [];
               startTime := now;
               metadata := {| m_url := page_url w;
                              viewport := viewport;
                              userAgent := userAgent |} |} in
          hmodify (fun h =>
            with_recordings (JsMap.set testName recording (recordings h)) h) ;;
          hret ("Started recording test " ++ dq ++ testName ++ dq ++
                " for session " ++ sessionId)%string
      end
  end.

(** [Array.from(entries).find(...)]: the first entry, in insertion order,
    whose recording is bound to the session. *)
Definition find_recording (sessionId : string) (m : JsMap.t TestRecording)
    : option (string * TestRecording) :=
  find (fun e => String.eqb (r_sessionId (snd e)) sessionId) (JsMap.entries m).

(** The recording is found by its session and its name by looking the
    found object up again; a name that is the empty string counts as not
    found. *)
Definition stopTestRecording (sessionId format : string) : H string :=
  h <- hget ;;
  match find_recording sessionId (recordings h) with
  | None => hthrow ("No active recording found for session " ++ sessionId)%string
  | Some (testName, recording) =>
      if Str.truthy testName then
        let testScript := Render.generateTestScript recording testName format in
        let filename := (testName ++ "-" ++ format ++ ".spec.js")%string in
        let filepath := join testDir filename in
        writeFileSync (fs_write filepath testScript) filepath testScript ;;
        hmodify (fun h =>
          with_recordings (JsMap.delete testName (recordings h)) h) ;;
        hret ("Test recording stopped. Generated test script: " ++ filepath)%string
      else hthrow "Recording name not found"
  end.

Definition customAction (now : Z) (a : CustomAssertion) : TestAction :=
  {| type := assert; timestamp := now; selector := ca_selector a;
     value := None; url := None;
     assertion := Some {| a_type := ca_type a; expected := ca_expected a |} |}.

Definition visibleAction (now : Z) (selector : string) : TestAction :=
  {| type := assert; timestamp := now; selector := Some selector;
     value := None; url := None;
     assertion := Some {| a_type := a_visible; expected := "true" |} |}.

(** One round of the loop over [commonSelectors]: the assertions gathered so
    far, extended when the element exists and is visible; a rejection of
    either call skips the selector. *)
Definition probeSelector (page : Handle) (now : Z) (w : RegressionWorld)
    (elementAssertions : list TestAction) (selector : string)
    : H (list TestAction) :=
  htry_catch
    (hcall (PageQuery page selector) ;;
     match rw_probe w selector with
     | ProbeRejects e => hthrow e
     | ProbeNull => hret elementAssertions
     | ProbeElement visible =>
         hcall (ElementIsVisible page selector) ;;
         isVisible <- hawait visible ;;
         if isVisible
         then hret (elementAssertions ++ [visibleAction now selector])
         else hret elementAssertions
     end)
    (fun _ => hret elementAssertions).

Fixpoint probeSelectors (page : Handle) (now : Z) (w : RegressionWorld)
    (elementAssertions : list TestAction) (selectors : list string)
    : H (list TestAction) :=
  match selectors with
  | [] => hret elementAssertions
  | selector :: rest =>
      found <- probeSelector page now w elementAssertions selector ;;
      probeSelectors page now w found rest
  end.

Definition generateRegressionTest (sessionId pageId testName : string)
    (assertions : list CustomAssertion) (now : Z) (w : RegressionWorld)
    : H string :=
  page <- lift (getPage sessionId pageId) ;;
  let url := rw_url w in
  hcall (PageTitle page) ;;
  title <- hawait (rw_title w) ;;
  let autoAssertions :=
    [ {| type := assert; timestamp := now; selector := None; value := None;
         url := None;
         assertion := Some {| a_type := a_url; expected := url |} |};
      {| type := assert; timestamp := now; selector := None; value := None;
         url := None;
         assertion := Some {| a_type := a_title; expected := title |} |} ] in
  let customAssertions := map (customAction now) assertions in
  elementAssertions <- probeSelectors page now w [] commonSelectors ;;
  let viewport :=
    match rw_viewportSize w with
    | Some v => v
    | None => defaultViewport
    end in
  hcall (PageUserAgent page) ;;
  userAgent <- hawait (rw_userAgent w) ;;
  let recording :=
    {| r_sessionId := sessionId;
       actions :=
         {| type := navigate; timestamp := now; selector := None; value := None;
            url := Some url; assertion := None |}
         :: autoAssertions ++ customAssertions ++ elementAssertions;
       startTime := now;
       metadata := {| m_url := url; viewport := viewport; userAgent := userAgent |} |} in
  let testScript := Render.generateTestScript recording testName "playwright" in
  let filename := (testName ++ "-regression.spec.js")%string in
  let filepath := join testDir filename in
  writeFileSync (fs_write filepath testScript) filepath testScript ;;
  hret ("Regression test generated: " ++ filepath ++ nl ++ "Included " ++
        show_nat (List.length (actions recording)) ++ " assertions")%string.

(** The request handler around a tool of this kind, as [callTool]. *)
Definition hcallTool (name sessionId : string) (now : Z) (tool : H string) : H string :=
  htry_catch
    ((if Str.truthy sessionId
      then lift (updateSessionActivity sessionId now)
      else hret tt) ;;
     tool)
    (fun error =>
       lift (console_error ("Tool " ++ name ++ " error: " ++ error)%string) ;;
       hret ("Error: " ++ error)%string).

End HostTools.

(** ** Outcomes of a launch *)

(** The first rejection among the three driver calls of [launchBrowser]. *)
Definition launch_error (w : LaunchWorld) : option string :=
  match chromium_launch w with
  | Thrown e => Some e
  | Normal _ =>
      match browser_newContext w with
      | Thrown e => Some e
      | Normal _ =>
          match context_newPage w with
          | Thrown e => Some e
          | Normal _ => None
          end
      end
  end.

(** The entry [launchBrowser] leaves in the registry when the driver
    answered with browser [b], context [c] and page [p]. *)
Definition launched_session (b c p : Handle) (w : LaunchWorld) : BrowserSession :=
  {| browser := b; context := c; pages := [("main"%string, p)];
     lastActivity := launch_now w; createdAt := launch_now w;
     logStreams := [("main"%string, createWriteStream w)] |}.

(** ** The output of [pgrep] *)

(** A line that names a process: not empty and free of white space. *)
Fixpoint no_space (s : string) : bool :=
  match s with
  | EmptyString => true
  | String c rest => negb (Str.is_space c) && no_space rest
  end.

Definition pid_line (s : string) : bool := Str.truthy s && no_space s.

(** What [pgrep] prints for a list of processes: one line each, every line
    ended by a newline. *)
Fixpoint pgrep_output (pids : list string) : string :=
  match pids with
  | [] => EmptyString
  | pid :: rest => (pid ++ nl ++ pgrep_output rest)%string
  end.

(** ** Tools behind the request handler *)

Definition tool_electron_launch (sessionId executablePath : string) (now : Z)
    (w : ElectronWorld) : H string :=
  hcallTool "electron_launch" sessionId now (launchElectron sessionId executablePath w).

Definition tool_electron_evaluate_renderer (sessionId expression : string)
    (now : Z) (evaluate : Completion string) : H string :=
  hcallTool "electron_evaluate_renderer" sessionId now
    (evaluateInRenderer sessionId expression evaluate).

Definition tool_electron_evaluate_main (sessionId expression : string)
    (now : Z) (evaluate : Completion string) : H string :=
  hcallTool "electron_evaluate_main" sessionId now
    (evaluateInMain sessionId expression evaluate).

(** The driver calls of one round of the loop over [commonSelectors]. *)
Definition probe_calls (page : Handle) (w : RegressionWorld) (selector : string)
    : list HostCall :=
  PageQuery page selector ::
  match rw_probe w selector with
  | ProbeElement _ => [ElementIsVisible page selector]
  | _ => []
  end.

(** The selectors of [commonSelectors] for which an assertion is made. *)
Definition probe_visible (w : RegressionWorld) (selector : string) : bool :=
  match rw_probe w selector with
  | ProbeElement (Normal true) => true
  | _ => false
  end.

Module Scenarios.

(** A host whose server is the example with two browser and two electron
    sessions, without recordings or files. *)
Definition two_and_two : Host := host_of Examples.idle_and_busy.

(** A host with the one launched session [s1]. *)
Definition one_launched : Host := host_of Examples.launched.

(** [path.join] for a directory and a file name without dots. *)
Definition join (dir file : string) : string := (dir ++ "/" ++ file)%string.

Definition testDir : string := "/srv/playwright/test".

(** A file system that takes every write, and one that has no directory
    for a file whose path it is given. *)
Definition fs_ok (path content : string) : Completion unit := Normal tt.

Definition fs_no_directory (path content : string) : Completion unit :=
  Thrown ("ENOENT: no such file or directory, open '" ++ path ++ "'")%string.

Definition page_world : PageWorld :=
  {| page_url := "https://example.com/";
     page_viewportSize := None;
     page_userAgent := Normal "Mozilla/5.0"%string |}.

(** An application that starts but never shows a window. *)
Definition windowless : ElectronWorld :=
  {| electron_launch := Normal 40;
     app_firstWindow := Thrown "Timeout 30000ms exceeded"%string;
     electron_now := 500 |}.

(** A page on which [h1] and [form] are visible, [button] is hidden, the
    probe of [input] rejects and nothing else is found. *)
Definition regression_world : RegressionWorld :=
  {| rw_url := "https://example.com/";
     rw_title := Normal "Example Domain"%string;
     rw_probe := fun selector =>
       if String.eqb selector "h1" then ProbeElement (Normal true)
       else if String.eqb selector "form" then ProbeElement (Normal true)
       else if String.eqb selector "button" then ProbeElement (Normal false)
       else if String.eqb selector "input" then ProbeRejects "Execution context was destroyed"
       else ProbeNull;
     rw_viewportSize := Some {| width := 1280; height := 720 |};
     rw_userAgent := Normal "Mozilla/5.0"%string |}.

End Scenarios.

(** ** Recordings *)

(** The recording [startTestRecording] stores. *)
Definition started_recording (sessionId : string) (now : Z) (w : PageWorld)
    (userAgent : string) : TestRecording :=
  {| r_sessionId := sessionId;
     actions := [];
     startTime := now;
     metadata := {| m_url := page_url w;
                    viewport := match page_viewportSize w with
                                | Some v => v
                                | None => defaultViewport
                                end;
                    userAgent := userAgent |} |}.

(** The name of the file [stopTestRecording] writes. *)
Definition script_name (testName format : string) : string :=
  (testName ++ "-" ++ format ++ ".spec.js")%string.


(** No stored recording holds an action. *)
Definition no_actions (m : JsMap.t TestRecording) : Prop :=
  Forall (fun e => actions (snd e) = []) m.
(** * Properties *)

(** ** Script rendering *)

Module RenderFacts.
Import Render.
Local Open Scope string_scope.

Lemma append_assoc (a b c : string) : (a ++ b) ++ c = a ++ (b ++ c).
Proof.
  induction a as [|ch a IH]; simpl.
  - reflexivity.
  - now rewrite IH.
Qed.

Lemma Contains_append_l (needle a b : string) :
  Contains needle a -> Contains needle (a ++ b).
Proof.
  intros (pre & post & ->).
  exists pre, (post ++ b).
  now rewrite !append_assoc.
Qed.

Lemma Contains_append_r (needle a b : string) :
  Contains needle b -> Contains needle (a ++ b).
Proof.
  intros (pre & post & ->).
  exists (a ++ pre), post.
  now rewrite !append_assoc.
Qed.

Lemma Contains_playwrightBody (needle : string) (l : list TestAction) :
  forall body, Contains needle body -> Contains needle (playwrightBody body l).
Proof.
  induction l as [|a l IH]; intros body H; simpl.
  - exact H.
  - apply IH. now apply Contains_append_l.
Qed.

Lemma playwrightStep_navigate (X : string) (t : Z) :
  playwrightStep (navigateAction t X) =
  ("  // Navigate to page" ++ nl ++ "  ") ++
  ("await page.goto('" ++ X ++ "');") ++ (nl ++ nl).
Proof.
  unfold playwrightStep; cbn. rewrite ?append_assoc. reflexivity.
Qed.

Lemma playwrightStep_assertUrl (X : string) (t : Z) :
  playwrightStep (assertUrlAction t X) =
  ("  // Assert URL" ++ nl ++ "  ") ++
  ("await expect(page).toHaveURL('" ++ X ++ "');") ++ (nl ++ nl).
Proof.
  unfold playwrightStep; cbn. rewrite ?append_assoc. reflexivity.
Qed.

Lemma playwrightBody_two (body : string) (a1 a2 : TestAction) :
  playwrightBody body [a1; a2] = (body ++ playwrightStep a1) ++ playwrightStep a2.
Proof. reflexivity. Qed.

(** The Playwright renderer emits both statements of the round-trip
    sequence, for every URL. *)
Lemma playwright_round_trip (X testName : string) (t1 t2 : Z) (md : Metadata) :
  let script :=
    generatePlaywrightScript testName [navigateAction t1 X; assertUrlAction t2 X] md in
  Contains ("await page.goto('" ++ X ++ "');") script /\
  Contains ("await expect(page).toHaveURL('" ++ X ++ "');") script.
Proof.
  cbv zeta. unfold generatePlaywrightScript. cbv zeta.
  rewrite playwrightBody_two.
  split.
  - apply Contains_append_r, Contains_append_r, Contains_append_l.
    apply Contains_append_l, Contains_append_r.
    rewrite playwrightStep_navigate. now eexists _, _.
  - apply Contains_append_r, Contains_append_r, Contains_append_l.
    apply Contains_append_r.
    rewrite playwrightStep_assertUrl. now eexists _, _.
Qed.

(** [generateActionSteps] renders the round-trip sequence as the
    navigation line alone, for every URL, indentation and format. *)
Lemma generateActionSteps_round_trip (X indent format : string) (t1 t2 : Z) :
  generateActionSteps [navigateAction t1 X; assertUrlAction t2 X] indent format =
  actionStep indent format (navigateAction t1 X).
Proof.
  unfold generateActionSteps; simpl.
  unfold actionStep at 2; simpl.
  generalize (actionStep indent format (navigateAction t1 X)) as s.
  induction s as [|c s IH]; simpl; [reflexivity | now rewrite IH].
Qed.

Lemma actionStep_navigate_jest (X indent : string) (t : Z) :
  actionStep indent "jest" (navigateAction t X) =
  indent ++ ("await page.goto('" ++ X ++ "');") ++ nl.
Proof.
  unfold actionStep; cbn. rewrite ?append_assoc. reflexivity.
Qed.

Lemma actionStep_navigate_mocha (X indent : string) (t : Z) :
  actionStep indent "mocha" (navigateAction t X) =
  indent ++ ("await driver.get('" ++ X ++ "');") ++ nl.
Proof.
  unfold actionStep; cbn. rewrite ?append_assoc. reflexivity.
Qed.

(** C1 (amended). For every URL X, test name and metadata, the script of a
    recording whose actions are [navigate(url = X), assert(url, X)]
    contains, in the playwright format, the navigation statement and the
    URL assertion statement, both with X; in the jest and mocha formats it
    contains the navigation statement with X. *)
Theorem C1_round_trip_navigation_and_playwright_assertion :
  forall (X testName sessionId : string) (t1 t2 start : Z) (md : Metadata),
    let r :=
      {| r_sessionId := sessionId;
         actions := [navigateAction t1 X; assertUrlAction t2 X];
         startTime := start;
         metadata := md |} in
    (Contains ("await page.goto('" ++ X ++ "');")
       (generateTestScript r testName "playwright") /\
     Contains ("await expect(page).toHaveURL('" ++ X ++ "');")
       (generateTestScript r testName "playwright")) /\
    Contains ("await page.goto('" ++ X ++ "');") (generateTestScript r testName "jest") /\
    Contains ("await driver.get('" ++ X ++ "');") (generateTestScript r testName "mocha").
Proof.
  intros X testName sessionId t1 t2 start md r. split; [|split].
  - apply (playwright_round_trip X testName t1 t2 md).
  - change (generateTestScript r testName "jest")
      with (generateJestScript testName [navigateAction t1 X; assertUrlAction t2 X] md).
    unfold generateJestScript. rewrite generateActionSteps_round_trip.
    repeat match goal with
           | |- Contains _ (actionStep _ _ _ ++ _) => apply Contains_append_l
           | |- Contains _ (_ ++ _) => apply Contains_append_r
           end.
    rewrite actionStep_navigate_jest. now eexists _, _.
  - change (generateTestScript r testName "mocha")
      with (generateMochaScript testName [navigateAction t1 X; assertUrlAction t2 X] md).
    unfold generateMochaScript. rewrite generateActionSteps_round_trip.
    repeat match goal with
           | |- Contains _ (actionStep _ _ _ ++ _) => apply Contains_append_l
           | |- Contains _ (_ ++ _) => apply Contains_append_r
           end.
    rewrite actionStep_navigate_mocha. now eexists _, _.
Qed.

(** C1 as stated fails for jest and mocha. For the recording with the
    actions [navigate(url = X), assert(url, X)] and X = https://example.com,
    the jest and mocha scripts have their navigation statement, but X occurs
    in them once only, inside that statement, and the rendered steps are the
    navigation line and nothing else: no assertion statement refers to X. *)
Lemma C1_counterexample :
  let X := "https://example.com" in
  let r := roundTripRecording X in
  let jest := generateTestScript r "t" "jest" in
  let mocha := generateTestScript r "t" "mocha" in
  (includes "await page.goto('https://example.com');" jest = true /\
   occurrences X jest = 1 /\
   includes "expect" jest = false /\
   generateActionSteps (actions r) "    " "jest" =
     "    await page.goto('https://example.com');" ++ nl) /\
  (includes "await driver.get('https://example.com');" mocha = true /\
   occurrences X mocha = 1 /\
   includes "assert(" mocha = false /\
   generateActionSteps (actions r) "    " "mocha" =
     "    await driver.get('https://example.com');" ++ nl).
Proof.
  vm_compute. repeat split; reflexivity.
Qed.

End RenderFacts.

(** ** Maps *)

Module JsMapFacts.
Import JsMap.

Section Facts.
Context {V : Type}.
Implicit Types (m : JsMap.t V) (k : string) (v : V).

Lemma get_delete_same k m : get k (delete k m) = None.
Proof.
  induction m as [|[k' v'] m IH]; simpl; [reflexivity|].
  destruct (String.eqb k k') eqn:E; simpl; [exact IH|].
  now rewrite E.
Qed.

Lemma get_delete_other k k' m :
  k <> k' -> get k' (delete k m) = get k' m.
Proof.
  intros Hne.
  induction m as [|[k0 v0] m IH]; simpl; [reflexivity|].
  destruct (String.eqb k k0) eqn:E; simpl.
  - apply String.eqb_eq in E; subst k0.
    destruct (String.eqb k' k) eqn:E'; [|exact IH].
    apply String.eqb_eq in E'; congruence.
  - now rewrite IH.
Qed.

Lemma get_delete k k' m :
  get k' (delete k m) = if String.eqb k k' then None else get k' m.
Proof.
  destruct (String.eqb k k') eqn:E.
  - apply String.eqb_eq in E; subst. apply get_delete_same.
  - apply String.eqb_neq in E. now apply get_delete_other.
Qed.

Lemma get_In k v m : get k m = Some v -> In (k, v) m.
Proof.
  induction m as [|[k' v'] m IH]; simpl; [discriminate|].
  destruct (String.eqb k k') eqn:E.
  - apply String.eqb_eq in E; subst. intros [= ->]. now left.
  - intros H. right. now apply IH.
Qed.

Lemma In_keys k v m : In (k, v) m -> In k (keys m).
Proof. intros H. apply (in_map fst) in H. exact H. Qed.

Lemma In_get k v m : wf m -> In (k, v) m -> get k m = Some v.
Proof.
  unfold wf.
  induction m as [|[k' v'] m IH]; simpl; intros Hwf Hin; [contradiction|].
  inversion Hwf as [|? ? Hnotin Hnd]; subst.
  destruct Hin as [[= -> ->]|Hin].
  - now rewrite String.eqb_refl.
  - destruct (String.eqb k k') eqn:E.
    + apply String.eqb_eq in E; subst. exfalso. apply Hnotin.
      now apply In_keys with v.
    + now apply IH.
Qed.

Lemma get_None_not_In k m : get k m = None -> ~ In k (keys m).
Proof.
  induction m as [|[k' v'] m IH]; simpl; intros H; [tauto|].
  destruct (String.eqb k k') eqn:E; [discriminate|].
  apply String.eqb_neq in E. intros [Heq|Hin]; [congruence|now apply IH].
Qed.

Lemma keys_delete_incl k m : incl (keys (delete k m)) (keys m).
Proof.
  intros x Hx. unfold keys, delete in *.
  apply in_map_iff in Hx as ((k0 & v0) & <- & Hin).
  apply filter_In in Hin as [Hin _].
  now apply (in_map fst) in Hin.
Qed.

Lemma wf_delete k m : wf m -> wf (delete k m).
Proof.
  unfold wf, keys, delete.
  induction m as [|[k' v'] m IH]; simpl; intros Hwf; [constructor|].
  inversion Hwf as [|? ? Hnotin Hnd]; subst.
  destruct (String.eqb k k'); simpl; [now apply IH|].
  constructor; [|now apply IH].
  intros Hin. apply Hnotin.
  now apply (keys_delete_incl k m).
Qed.

Lemma get_set_same k v m : get k (set k v m) = Some v.
Proof.
  induction m as [|[k' v'] m IH]; simpl.
  - now rewrite String.eqb_refl.
  - destruct (String.eqb k k') eqn:E; simpl; now rewrite E.
Qed.

Lemma get_set_other k k' v m : k <> k' -> get k' (set k v m) = get k' m.
Proof.
  intros Hne.
  induction m as [|[k0 v0] m IH]; simpl.
  - destruct (String.eqb k' k) eqn:E; [|reflexivity].
    apply String.eqb_eq in E; congruence.
  - destruct (String.eqb k k0) eqn:E; simpl.
    + apply String.eqb_eq in E; subst k0.
      destruct (String.eqb k' k) eqn:E'; [|reflexivity].
      apply String.eqb_eq in E'; congruence.
    + now rewrite IH.
Qed.

Lemma keys_set_present k v v' m :
  get k m = Some v' -> keys (set k v m) = keys m.
Proof.
  induction m as [|[k0 v0] m IH]; simpl; [discriminate|].
  destruct (String.eqb k k0) eqn:E; simpl; [reflexivity|].
  intros H. f_equal. now apply IH.
Qed.

Lemma has_true k m : has k m = true <-> exists v, get k m = Some v.
Proof.
  unfold has. destruct (get k m) as [v|]; split; try discriminate; eauto.
  intros (v & [=]).
Qed.

Lemma has_false k m : has k m = false <-> get k m = None.
Proof.
  unfold has. destruct (get k m) as [v|]; split; congruence.
Qed.
End Facts.

End JsMapFacts.

(** ** Running server code *)

(** Unfolds the state updates and reduces the projections of a state. *)
Ltac proj_simpl :=
  unfold with_trace, with_sessions, with_electronSessions, with_isShuttingDown in *;
  cbn [sessions electronSessions cleanupTimer isShuttingDown trace fst snd] in *.

(** Uniqueness of the keys of a registry given by its entries. *)
Ltac solve_wf :=
  unfold JsMap.wf; simpl;
  repeat (constructor; [simpl; intuition discriminate|]); constructor.

(** Unfolds the operations of the monad. *)
Ltac run_m :=
  unfold console_error, emit, modify, await, get_server, ret, throw,
    bind, try_catch;
  cbn beta iota zeta delta [fst snd].

Lemma for_each_fold {A} (body : A -> M unit) (l : list A) :
  (forall x st, fst (body x st) = Normal tt) ->
  forall st,
    for_each l body st = (Normal tt, fold_left (fun s x => snd (body x s)) l st).
Proof.
  intros Hbody.
  induction l as [|x l IH]; intros st; simpl.
  - reflexivity.
  - unfold bind. specialize (Hbody x st).
    destruct (body x st) as [r st1]; simpl in *; subst r.
    apply IH.
Qed.

Lemma fold_left_preserves {A S P} (f : S -> A -> S) (proj : S -> P) (l : list A) :
  (forall s x, proj (f s x) = proj s) ->
  forall s, proj (fold_left f l s) = proj s.
Proof.
  intros Hf. induction l as [|x l IH]; intros s; simpl; [reflexivity|].
  now rewrite IH.
Qed.

(** A loop that deletes the keys of the selected elements of [l] from a
    registry: what a lookup finds afterwards. *)
Lemma get_fold_delete {A V} (proj : Server -> JsMap.t V)
    (f : Server -> A -> Server) (key : A -> string) (sel : A -> bool) :
  (forall s x,
     proj (f s x) = if sel x then JsMap.delete (key x) (proj s) else proj s) ->
  forall l s k,
    JsMap.get k (proj (fold_left f l s)) =
    if existsb (fun x => sel x && String.eqb (key x) k) l then None
    else JsMap.get k (proj s).
Proof.
  intros Hf.
  induction l as [|x l IH]; intros s k; simpl; [reflexivity|].
  rewrite IH, Hf.
  destruct (existsb _ l); [now rewrite orb_true_r|].
  rewrite orb_false_r.
  destruct (sel x); simpl; [|reflexivity].
  apply JsMapFacts.get_delete.
Qed.

Lemma existsb_selected_key {V} (sel : string * V -> bool) (m : JsMap.t V) k v :
  JsMap.wf m -> JsMap.get k m = Some v ->
  existsb (fun e => sel e && String.eqb (fst e) k) m = sel (k, v).
Proof.
  unfold JsMap.wf.
  induction m as [|[k' v'] m IH]; simpl; intros Hwf Hget; [discriminate|].
  inversion Hwf as [|? ? Hnotin Hnd]; subst.
  destruct (String.eqb k k') eqn:E.
  - apply String.eqb_eq in E; subst k'. injection Hget as ->.
    rewrite String.eqb_refl, andb_true_r.
    destruct (sel (k, v)); [reflexivity|]. simpl.
    apply not_true_is_false. intros Hex.
    apply existsb_exists in Hex as ((k1 & v1) & Hin & Hc).
    apply andb_true_iff in Hc as [_ Hk]. apply String.eqb_eq in Hk. simpl in Hk; subst.
    apply Hnotin. now apply JsMapFacts.In_keys with v1.
  - rewrite String.eqb_sym, E, andb_false_r. simpl. now apply IH.
Qed.

(** ** Idle-timeout eviction *)

Section IdleTimeout.

Variable driver_browser_close : Handle -> Completion unit.
Variable driver_app_close : Handle -> Completion unit.
Variables TIMEOUT now : Z.

Local Abbreviation stepB := (cleanupInactiveBrowser driver_browser_close TIMEOUT now).
Local Abbreviation stepE := (cleanupInactiveElectron driver_app_close TIMEOUT now).

Lemma cleanupInactiveBrowser_normal e st : fst (stepB e st) = Normal tt.
Proof.
  destruct e as [id s]. unfold cleanupInactiveBrowser.
  destruct (_ >? _)%Z; [|reflexivity].
  unfold await_browser_close, sessions_delete. run_m.
  destruct (driver_browser_close (browser s)); reflexivity.
Qed.

Lemma cleanupInactiveBrowser_sessions e st :
  sessions (snd (stepB e st)) =
  if idle_browser TIMEOUT now e then JsMap.delete (fst e) (sessions st) else sessions st.
Proof.
  destruct e as [id s]. unfold cleanupInactiveBrowser, idle_browser.
  simpl snd at 2. simpl fst.
  destruct (_ >? _)%Z; [|reflexivity].
  unfold await_browser_close, sessions_delete. run_m.
  destruct (driver_browser_close (browser s)); reflexivity.
Qed.

Lemma cleanupInactiveBrowser_electron e st :
  electronSessions (snd (stepB e st)) = electronSessions st.
Proof.
  destruct e as [id s]. unfold cleanupInactiveBrowser.
  destruct (_ >? _)%Z; [|reflexivity].
  unfold await_browser_close, sessions_delete. run_m.
  destruct (driver_browser_close (browser s)); reflexivity.
Qed.

Lemma cleanupInactiveElectron_normal e st : fst (stepE e st) = Normal tt.
Proof.
  destruct e as [id s]. unfold cleanupInactiveElectron.
  destruct (_ >? _)%Z; [|reflexivity].
  unfold await_app_close, electronSessions_delete. run_m.
  destruct (driver_app_close (app s)); reflexivity.
Qed.

Lemma cleanupInactiveElectron_electron e st :
  electronSessions (snd (stepE e st)) =
  if idle_electron TIMEOUT now e then JsMap.delete (fst e) (electronSessions st)
  else electronSessions st.
Proof.
  destruct e as [id s]. unfold cleanupInactiveElectron, idle_electron.
  simpl snd at 2. simpl fst.
  destruct (_ >? _)%Z; [|reflexivity].
  unfold await_app_close, electronSessions_delete. run_m.
  destruct (driver_app_close (app s)); reflexivity.
Qed.

Lemma cleanupInactiveElectron_sessions e st :
  sessions (snd (stepE e st)) = sessions st.
Proof.
  destruct e as [id s]. unfold cleanupInactiveElectron.
  destruct (_ >? _)%Z; [|reflexivity].
  unfold await_app_close, electronSessions_delete. run_m.
  destruct (driver_app_close (app s)); reflexivity.
Qed.

(** The pass as two folds. *)
Lemma cleanupInactiveSessions_with_run st :
  cleanupInactiveSessions_with driver_browser_close driver_app_close TIMEOUT now st =
  (Normal tt,
   let st1 := fold_left (fun s e => snd (stepB e s)) (sessions st) st in
   fold_left (fun s e => snd (stepE e s)) (electronSessions st1) st1).
Proof.
  unfold cleanupInactiveSessions_with, JsMap.entries. run_m.
  rewrite (for_each_fold stepB) by apply cleanupInactiveBrowser_normal.
  cbn [fst snd].
  rewrite (for_each_fold stepE) by apply cleanupInactiveElectron_normal.
  reflexivity.
Qed.

Lemma cleanupInactiveSessions_with_browser st id s :
  JsMap.wf (sessions st) ->
  JsMap.get id (sessions st) = Some s ->
  JsMap.get id
    (sessions (state_after
       (cleanupInactiveSessions_with driver_browser_close driver_app_close TIMEOUT now) st)) =
  if (now - lastActivity s >? TIMEOUT)%Z then None else Some s.
Proof.
  intros Hwf Hget. unfold state_after.
  rewrite cleanupInactiveSessions_with_run. cbn [snd]. cbv zeta.
  rewrite (fold_left_preserves _ sessions) by (intros; apply cleanupInactiveElectron_sessions).
  rewrite (get_fold_delete sessions _ fst (idle_browser TIMEOUT now))
    by (intros; apply cleanupInactiveBrowser_sessions).
  rewrite (existsb_selected_key (idle_browser TIMEOUT now) _ id s Hwf Hget).
  unfold idle_browser; simpl. now rewrite Hget.
Qed.

Lemma cleanupInactiveSessions_with_electron st id s :
  JsMap.wf (electronSessions st) ->
  JsMap.get id (electronSessions st) = Some s ->
  JsMap.get id
    (electronSessions (state_after
       (cleanupInactiveSessions_with driver_browser_close driver_app_close TIMEOUT now) st)) =
  if (now - e_lastActivity s >? TIMEOUT)%Z then None else Some s.
Proof.
  intros Hwf Hget. unfold state_after.
  rewrite cleanupInactiveSessions_with_run. cbn [snd]. cbv zeta.
  assert (Hel : electronSessions
            (fold_left (fun s0 e => snd (stepB e s0)) (sessions st) st) =
          electronSessions st)
    by (apply (fold_left_preserves _ electronSessions);
        intros; apply cleanupInactiveBrowser_electron).
  rewrite (get_fold_delete electronSessions _ fst (idle_electron TIMEOUT now))
    by (intros; apply cleanupInactiveElectron_electron).
  rewrite Hel.
  rewrite (existsb_selected_key (idle_electron TIMEOUT now) _ id s Hwf Hget).
  unfold idle_electron; simpl. now rewrite Hget.
Qed.

End IdleTimeout.

(** ** The stable sort on [createdAt] *)

Module SortFacts.

Lemma In_insert (x r : Entry) (l : list Entry) :
  In r (insert_by_createdAt x l) <-> r = x \/ In r l.
Proof.
  induction l as [|y l IH]; simpl.
  - intuition.
  - destruct (_ <=? _)%Z; simpl; [intuition|].
    rewrite IH. intuition.
Qed.

Lemma Permutation_insert (x : Entry) (l : list Entry) :
  Permutation (insert_by_createdAt x l) (x :: l).
Proof.
  induction l as [|y l IH]; simpl; [reflexivity|].
  destruct (_ <=? _)%Z; [reflexivity|].
  rewrite IH. apply perm_swap.
Qed.

Lemma Permutation_sort (l : list Entry) :
  Permutation (sort_by_createdAt l) l.
Proof.
  induction l as [|x l IH]; simpl; [reflexivity|].
  rewrite Permutation_insert. now constructor.
Qed.

Lemma length_sort (l : list Entry) :
  List.length (sort_by_createdAt l) = List.length l.
Proof. apply Permutation_length, Permutation_sort. Qed.

Lemma StronglySorted_insert (x : Entry) (l : list Entry) :
  StronglySorted older_eq l -> StronglySorted older_eq (insert_by_createdAt x l).
Proof.
  induction 1 as [|y l Hs IH Hall]; simpl.
  - repeat constructor.
  - destruct (_ <=? _)%Z eqn:E.
    + apply Z.leb_le in E.
      constructor; [now constructor|].
      constructor; [exact E|].
      eapply Forall_impl; [|exact Hall].
      unfold older_eq in *. intros; lia.
    + apply Z.leb_gt in E.
      constructor; [exact IH|].
      apply Forall_forall. intros r Hr.
      apply In_insert in Hr as [->|Hr].
      * unfold older_eq; lia.
      * rewrite Forall_forall in Hall. now apply Hall.
Qed.

Lemma StronglySorted_sort (l : list Entry) :
  StronglySorted older_eq (sort_by_createdAt l).
Proof.
  induction l as [|x l IH]; simpl; [constructor|].
  now apply StronglySorted_insert.
Qed.

Lemma StronglySorted_split (l1 l2 : list Entry) :
  StronglySorted older_eq (l1 ++ l2) ->
  forall c r, In c l1 -> In r l2 -> older_eq c r.
Proof.
  induction l1 as [|y l1 IH]; simpl; intros Hs c r Hc Hr; [contradiction|].
  apply StronglySorted_inv in Hs as [Hs Hall].
  destruct Hc as [->|Hc].
  - rewrite Forall_forall in Hall. apply Hall, in_or_app. now right.
  - now apply IH.
Qed.

Lemma before_app (c r : Entry) (l1 l2 : list Entry) :
  In c l1 -> In r l2 -> JsMap.before c r (l1 ++ l2).
Proof.
  induction l1 as [|y l1 IH]; simpl; intros Hc Hr; [contradiction|].
  destruct Hc as [->|Hc].
  - left. split; [reflexivity|]. apply in_or_app. now right.
  - right. now apply IH.
Qed.

(** Insertion never puts the new element behind one of the same age. *)
Lemma before_insert (x c r : Entry) (l : list Entry) :
  createdAt (snd c) = createdAt (snd r) ->
  JsMap.before c r (insert_by_createdAt x l) ->
  (c = x /\ In r l) \/ JsMap.before c r l.
Proof.
  intros Heq.
  induction l as [|y l IH]; simpl.
  - intros [[_ []]|[]].
  - destruct (_ <=? _)%Z eqn:E; simpl.
    + intros [[-> Hin]|H]; [left; auto|right; exact H].
    + apply Z.leb_gt in E.
      intros [[-> Hin]|H].
      * apply In_insert in Hin as [->|Hin]; [lia|].
        right. left. auto.
      * apply IH in H as [[-> Hin]|H]; [left; auto|right; right; exact H].
Qed.

(** Stability: two entries of the same age keep their relative order. *)
Lemma before_sort (c r : Entry) (l : list Entry) :
  createdAt (snd c) = createdAt (snd r) ->
  JsMap.before c r (sort_by_createdAt l) ->
  JsMap.before c r l.
Proof.
  intros Heq.
  induction l as [|x l IH]; simpl; [tauto|].
  intros H. apply before_insert in H as [[-> Hin]|H]; [|right; auto|exact Heq].
  left. split; [reflexivity|].
  eapply Permutation_in; [apply Permutation_sort|exact Hin].
Qed.

End SortFacts.

(** ** Lists filtered by key *)

Lemma Permutation_filter {A} (p : A -> bool) (l l' : list A) :
  Permutation l l' -> Permutation (filter p l) (filter p l').
Proof.
  induction 1 as [|x l l' _ IH|x y l|l l' l'' _ IH1 _ IH2]; simpl.
  - constructor.
  - destruct (p x); [now constructor|exact IH].
  - destruct (p x), (p y); try reflexivity. apply perm_swap.
  - now transitivity (filter p l').
Qed.

Lemma filter_all {A} (p : A -> bool) (l : list A) :
  (forall x, In x l -> p x = true) -> filter p l = l.
Proof.
  induction l as [|x l IH]; simpl; intros H; [reflexivity|].
  rewrite (H x) by now left.
  f_equal. apply IH. intros; apply H. now right.
Qed.

Lemma filter_none {A} (p : A -> bool) (l : list A) :
  (forall x, In x l -> p x = false) -> filter p l = [].
Proof.
  induction l as [|x l IH]; simpl; intros H; [reflexivity|].
  rewrite (H x) by now left.
  apply IH. intros; apply H. now right.
Qed.

Lemma proj_fold_delete {A V} (proj : Server -> JsMap.t V)
    (f : Server -> A -> Server) (key : A -> string) (sel : A -> bool) :
  (forall s x,
     proj (f s x) = if sel x then JsMap.delete (key x) (proj s) else proj s) ->
  forall l s,
    proj (fold_left f l s) = filter (key_not_in key sel l) (proj s).
Proof.
  intros Hf.
  induction l as [|x l IH]; intros s; simpl.
  - symmetry. now apply filter_all.
  - rewrite IH, Hf. unfold key_not_in; simpl.
    destruct (sel x); simpl.
    + unfold JsMap.delete.
      induction (proj s) as [|e m IHm]; simpl; [reflexivity|].
      destruct (String.eqb (key x) (fst e)); simpl; [exact IHm|].
      destruct (negb _); [f_equal|]; exact IHm.
    + reflexivity.
Qed.

Lemma browser_closes_app (a b : list Event) :
  browser_closes (a ++ b) = browser_closes a ++ browser_closes b.
Proof.
  induction a as [|e a IH]; simpl; [reflexivity|].
  destruct e; simpl; now rewrite ?IH.
Qed.

Lemma console_errors_app (a b : list Event) :
  console_errors (a ++ b) = console_errors a ++ console_errors b.
Proof.
  induction a as [|e a IH]; simpl; [reflexivity|].
  destruct e; simpl; now rewrite ?IH.
Qed.

Lemma app_closes_app (a b : list Event) :
  app_closes (a ++ b) = app_closes a ++ app_closes b.
Proof.
  induction a as [|e a IH]; simpl; [reflexivity|].
  destruct e; simpl; now rewrite ?IH.
Qed.

Lemma NoDup_keys_app_r {V} (l1 l2 : list (string * V)) (e : string * V) :
  NoDup (map fst (l1 ++ l2)) -> In e l2 -> ~ In (fst e) (map fst l1).
Proof.
  induction l1 as [|x l1 IH]; simpl; intros Hnd He; [tauto|].
  inversion Hnd as [|? ? Hnotin Hnd']; subst.
  intros [Hx|Hin].
  - apply Hnotin. rewrite Hx. apply in_map, in_or_app. now right.
  - now apply IH.
Qed.

(** ** Memory-pressure eviction *)

Section MemoryPressure.

Variable driver_browser_close : Handle -> Completion unit.

Local Abbreviation stepO := (closeOldSession driver_browser_close).

Lemma closeOldSession_normal e st : fst (stepO e st) = Normal tt.
Proof.
  destruct e as [id s]. unfold closeOldSession, await_browser_close, sessions_delete.
  run_m. destruct (driver_browser_close (browser s)); reflexivity.
Qed.

Lemma closeOldSession_sessions st e :
  sessions (snd (stepO e st)) = JsMap.delete (fst e) (sessions st).
Proof.
  destruct e as [id s]. unfold closeOldSession, await_browser_close, sessions_delete.
  run_m. destruct (driver_browser_close (browser s)); reflexivity.
Qed.

Lemma closeOldSession_electron st e :
  electronSessions (snd (stepO e st)) = electronSessions st.
Proof.
  destruct e as [id s]. unfold closeOldSession, await_browser_close, sessions_delete.
  run_m. destruct (driver_browser_close (browser s)); reflexivity.
Qed.

Lemma closeOldSession_closes st e :
  browser_closes (trace (snd (stepO e st))) =
  browser_closes (trace st) ++ [browser (snd e)].
Proof.
  destruct e as [id s]. unfold closeOldSession, await_browser_close, sessions_delete.
  run_m. destruct (driver_browser_close (browser s)); simpl;
    rewrite !browser_closes_app; simpl; now rewrite ?app_nil_r.
Qed.

Lemma fold_closeOldSession_closes l st :
  browser_closes (trace (fold_left (fun s e => snd (stepO e s)) l st)) =
  browser_closes (trace st) ++ map (fun e => browser (snd e)) l.
Proof.
  revert st. induction l as [|e l IH]; intros st; simpl.
  - now rewrite app_nil_r.
  - rewrite IH, closeOldSession_closes, <- app_assoc. reflexivity.
Qed.

(** The sessions [cleanupOldestSessions] visits. *)
Lemma cleanupOldestSessions_run st :
  cleanupOldestSessions driver_browser_close st =
  (Normal tt,
   fold_left (fun s e => snd (stepO e s))
     (firstn (toClose (List.length (sort_by_createdAt (sessions st))))
        (sort_by_createdAt (sessions st)))
     st).
Proof.
  unfold cleanupOldestSessions, JsMap.entries. run_m.
  now rewrite (for_each_fold stepO) by apply closeOldSession_normal.
Qed.

Lemma cleanupOldestSessions_electron st :
  electronSessions (state_after (cleanupOldestSessions driver_browser_close) st) =
  electronSessions st.
Proof.
  unfold state_after. rewrite cleanupOldestSessions_run. cbn [snd].
  apply (fold_left_preserves _ electronSessions).
  intros; apply closeOldSession_electron.
Qed.

Lemma toClose_le (n : nat) : 0 < n -> toClose n <= n.
Proof.
  intros Hn. unfold toClose.
  pose proof (Nat.Div0.div_le_upper_bound n 4 n) as H.
  apply Nat.max_lub; [lia|]. apply H. lia.
Qed.

(** What a memory-pressure pass does to the browser registry. *)
Lemma cleanupOldestSessions_spec st :
  JsMap.wf (sessions st) ->
  0 < JsMap.size (sessions st) ->
  let st' := state_after (cleanupOldestSessions driver_browser_close) st in
  exists evicted : list Entry,
    List.length evicted = Nat.max 1 (JsMap.size (sessions st) / 4) /\
    Permutation (sessions st) (evicted ++ sessions st') /\
    browser_closes (trace st') =
      browser_closes (trace st) ++ map (fun e => browser (snd e)) evicted /\
    (forall c r, In c evicted -> In r (sessions st') ->
       (createdAt (snd c) <= createdAt (snd r))%Z /\
       (createdAt (snd c) = createdAt (snd r) -> JsMap.before c r (sessions st))).
Proof.
  intros Hwf Hpos st'.
  set (sorted := sort_by_createdAt (sessions st)).
  set (k := toClose (List.length sorted)).
  assert (Hlen : List.length sorted = JsMap.size (sessions st))
    by apply SortFacts.length_sort.
  assert (Hperm : Permutation sorted (sessions st))
    by apply SortFacts.Permutation_sort.
  assert (Hsplit : firstn k sorted ++ skipn k sorted = sorted)
    by apply firstn_skipn.
  assert (Hnd : NoDup (map fst (firstn k sorted ++ skipn k sorted))).
  { rewrite Hsplit. eapply Permutation_NoDup; [|exact Hwf].
    apply Permutation_map. now symmetry. }
  assert (Hst' : sessions st' =
                 filter (key_not_in fst (fun _ => true) (firstn k sorted)) (sessions st)).
  { subst st'. unfold state_after. rewrite cleanupOldestSessions_run. cbn [snd].
    fold sorted. fold k.
    apply (proj_fold_delete sessions _ fst (fun _ => true)).
    intros; apply closeOldSession_sessions. }
  assert (Hrest : Permutation (sessions st') (skipn k sorted)).
  { rewrite Hst'.
    transitivity (filter (key_not_in fst (fun _ => true) (firstn k sorted)) sorted);
      [apply Permutation_filter; now symmetry|].
    enough (Hf : filter (key_not_in fst (fun _ => true) (firstn k sorted))
                   (firstn k sorted ++ skipn k sorted) = skipn k sorted)
      by (rewrite Hsplit in Hf; now rewrite Hf).
    rewrite filter_app, filter_none, filter_all; [reflexivity| |].
    - intros e He. unfold key_not_in. apply negb_true_iff, not_true_is_false.
      intros Hex. apply existsb_exists in Hex as (x & Hx & Hk).
      simpl in Hk. apply String.eqb_eq in Hk.
      apply (NoDup_keys_app_r _ _ e Hnd He).
      rewrite <- Hk. now apply in_map.
    - intros e He. unfold key_not_in. apply negb_false_iff, existsb_exists.
      exists e. split; [exact He|]. simpl. apply String.eqb_refl. }
  exists (firstn k sorted). repeat split.
  - rewrite length_firstn. subst k. rewrite Hlen.
    pose proof (toClose_le _ Hpos). unfold toClose in *. lia.
  - rewrite Hrest, Hsplit. now symmetry.
  - subst st'. unfold state_after. rewrite cleanupOldestSessions_run. cbn [snd].
    apply fold_closeOldSession_closes.
  - apply (SortFacts.StronglySorted_split (firstn k sorted) (skipn k sorted));
      [rewrite Hsplit; apply SortFacts.StronglySorted_sort|assumption|].
    eapply Permutation_in; [exact Hrest|assumption].
  - intros Heq. apply SortFacts.before_sort; [exact Heq|].
    fold sorted. rewrite <- Hsplit.
    apply SortFacts.before_app; [assumption|].
    eapply Permutation_in; [exact Hrest|assumption].
Qed.

Lemma memory_high_spec (rss : Z) :
  memory_high rss = true <-> (inject_Z MAX_MEMORY_MB < memoryMB rss)%Q.
Proof.
  unfold memory_high. rewrite negb_true_iff. split.
  - intros H. apply Qnot_le_lt. intros Hle.
    apply Qle_bool_iff in Hle. congruence.
  - intros H. apply not_true_is_false. intros Hle.
    apply Qle_bool_iff in Hle. now apply (Qlt_not_le _ _ H).
Qed.

(** [checkMemoryUsage] by cases on the probe. *)
Lemma checkMemoryUsage_run ps st :
  checkMemoryUsage driver_browser_close ps st =
  match ps with
  | PsError e =>
      (Normal tt,
       with_trace (trace st ++ [Ps] ++
                   [ConsoleError ("Error checking memory usage: " ++ e)%string]) st)
  | PsRss None => (Normal tt, with_trace (trace st ++ [Ps]) st)
  | PsRss (Some kb) =>
      if memory_high kb then
        cleanupOldestSessions driver_browser_close
          (with_trace
             (trace st ++ [Ps] ++
              [ConsoleError "High memory usage detected. Cleaning up old sessions..."])
             st)
      else (Normal tt, with_trace (trace st ++ [Ps]) st)
  end.
Proof.
  unfold checkMemoryUsage. run_m.
  destruct ps as [[kb|]|e]; simpl; try reflexivity.
  - destruct (memory_high kb); [|reflexivity].
    unfold with_trace; simpl. rewrite <- app_assoc. simpl.
    rewrite cleanupOldestSessions_run. reflexivity.
  - unfold with_trace; simpl. now rewrite <- app_assoc.
Qed.

Lemma checkMemoryUsage_electron ps st :
  electronSessions (state_after (checkMemoryUsage driver_browser_close ps) st) =
  electronSessions st.
Proof.
  unfold state_after. rewrite checkMemoryUsage_run.
  destruct ps as [[kb|]|e]; try reflexivity.
  destruct (memory_high kb); [|reflexivity].
  apply (cleanupOldestSessions_electron (with_trace _ st)).
Qed.

Lemma closeOldSession_app_closes st e :
  app_closes (trace (snd (stepO e st))) = app_closes (trace st).
Proof.
  destruct e as [id s]. unfold closeOldSession, await_browser_close, sessions_delete.
  run_m. destruct (driver_browser_close (browser s)); simpl;
    rewrite !app_closes_app; simpl; now rewrite ?app_nil_r.
Qed.

Lemma cleanupOldestSessions_app_closes st :
  app_closes (trace (state_after (cleanupOldestSessions driver_browser_close) st)) =
  app_closes (trace st).
Proof.
  unfold state_after. rewrite cleanupOldestSessions_run. cbn [snd].
  apply (fold_left_preserves _ (fun s => app_closes (trace s))).
  intros; apply closeOldSession_app_closes.
Qed.

(** The sessions a pass closes are entries of the browser registry. *)
Lemma cleanupOldestSessions_closes_entries st :
  exists closed : list Entry,
    incl closed (sessions st) /\
    browser_closes (trace (state_after (cleanupOldestSessions driver_browser_close) st)) =
      browser_closes (trace st) ++ map (fun e => browser (snd e)) closed.
Proof.
  unfold state_after. rewrite cleanupOldestSessions_run. cbn [snd].
  eexists. split; [|apply fold_closeOldSession_closes].
  intros e He.
  eapply Permutation_in; [apply SortFacts.Permutation_sort|].
  rewrite <- (firstn_skipn (toClose (List.length (sort_by_createdAt (sessions st))))
                (sort_by_createdAt (sessions st))).
  apply in_or_app. now left.
Qed.

Lemma checkMemoryUsage_app_closes ps st :
  app_closes (trace (state_after (checkMemoryUsage driver_browser_close ps) st)) =
  app_closes (trace st).
Proof.
  unfold state_after. rewrite checkMemoryUsage_run.
  destruct ps as [[kb|]|e]; cbn [snd trace with_trace];
    try (rewrite !app_closes_app; simpl; now rewrite app_nil_r).
  destruct (memory_high kb).
  - match goal with |- context [cleanupOldestSessions _ ?s0] =>
      pose proof (cleanupOldestSessions_app_closes s0) as H
    end.
    unfold state_after in H. rewrite H. cbn [trace with_trace]. rewrite !app_closes_app. simpl. now rewrite app_nil_r.
  - cbn [snd trace with_trace]. rewrite !app_closes_app. simpl. now rewrite app_nil_r.
Qed.

Lemma checkMemoryUsage_closes_entries ps st :
  exists closed : list Entry,
    incl closed (sessions st) /\
    browser_closes (trace (state_after (checkMemoryUsage driver_browser_close ps) st)) =
      browser_closes (trace st) ++ map (fun e => browser (snd e)) closed.
Proof.
  unfold state_after. rewrite checkMemoryUsage_run.
  assert (Hnone : forall tr,
            browser_closes tr = [] ->
            exists closed : list Entry,
              incl closed (sessions st) /\
              browser_closes (trace st ++ tr) =
                browser_closes (trace st) ++ map (fun e => browser (snd e)) closed).
  { intros tr Htr. exists []. split; [intros e []|].
    now rewrite browser_closes_app, Htr. }
  destruct ps as [[kb|]|e]; cbn [snd trace with_trace]; try (apply Hnone; reflexivity).
  destruct (memory_high kb); [|apply Hnone; reflexivity].
  destruct (cleanupOldestSessions_closes_entries
              (with_trace
                 (trace st ++ [Ps] ++
                  [ConsoleError "High memory usage detected. Cleaning up old sessions..."])
                 st)) as (closed & Hincl & Hcl).
  exists closed. split; [exact Hincl|].
  unfold state_after in Hcl. rewrite Hcl. cbn [trace with_trace].
  rewrite browser_closes_app. simpl. now rewrite app_nil_r.
Qed.

End MemoryPressure.

(** C6. For every timeout and clock value, the idle-timeout pass removes a
    browser or electron session from its registry exactly when
    [now - lastActivity > TIMEOUT]; a session with
    [now - lastActivity <= TIMEOUT] stays in the registry, unchanged. *)
Theorem C6_idle_timeout_selects_iff_idle :
  forall (driver_browser_close driver_app_close : Handle -> Completion unit)
         (TIMEOUT now : Z) (st : Server),
    JsMap.wf (sessions st) ->
    JsMap.wf (electronSessions st) ->
    let st' :=
      state_after
        (cleanupInactiveSessions_with driver_browser_close driver_app_close TIMEOUT now)
        st in
    (forall id s,
       JsMap.get id (sessions st) = Some s ->
       ((now - lastActivity s > TIMEOUT)%Z -> JsMap.get id (sessions st') = None) /\
       ((now - lastActivity s <= TIMEOUT)%Z -> JsMap.get id (sessions st') = Some s)) /\
    (forall id s,
       JsMap.get id (electronSessions st) = Some s ->
       ((now - e_lastActivity s > TIMEOUT)%Z ->
        JsMap.get id (electronSessions st') = None) /\
       ((now - e_lastActivity s <= TIMEOUT)%Z ->
        JsMap.get id (electronSessions st') = Some s)).
Proof.
  intros bc ac TIMEOUT now st Hwf Hwfe st'. split; intros id s Hget.
  - pose proof (cleanupInactiveSessions_with_browser bc ac TIMEOUT now st id s Hwf Hget) as H.
    fold st' in H. rewrite H.
    destruct (Z.gtb_spec (now - lastActivity s) TIMEOUT); split; intros; (reflexivity || lia).
  - pose proof (cleanupInactiveSessions_with_electron bc ac TIMEOUT now st id s Hwfe Hget) as H.
    fold st' in H. rewrite H.
    destruct (Z.gtb_spec (now - e_lastActivity s) TIMEOUT); split; intros; (reflexivity || lia).
Qed.

Lemma C6_idle_timeout_witness :
  let st' :=
    state_after
      (cleanupInactiveSessions_with Examples.close_rejects Examples.close_ok 500 1200)
      Examples.idle_and_busy in
  JsMap.get "s1" (sessions st') = None /\
  JsMap.get "s2" (sessions st') = Some (Examples.mkSession 2 0 1000 [("main"%string, 8)]) /\
  JsMap.get "e1" (electronSessions st') = None /\
  JsMap.get "e2" (electronSessions st') = Some (Examples.mkElectron 4 0 1000).
Proof.
  destruct (C6_idle_timeout_selects_iff_idle
              Examples.close_rejects Examples.close_ok 500 1200 Examples.idle_and_busy)
    as [Hb He]; [solve_wf|solve_wf|].
  split; [|split; [|split]].
  - apply (Hb "s1"%string (Examples.mkSession 1 0 0 [("main"%string, 7)]));
      [reflexivity|simpl; lia].
  - apply (Hb "s2"%string (Examples.mkSession 2 0 1000 [("main"%string, 8)]));
      [reflexivity|simpl; lia].
  - apply (He "e1"%string (Examples.mkElectron 3 0 0)); [reflexivity|simpl; lia].
  - apply (He "e2"%string (Examples.mkElectron 4 0 1000)); [reflexivity|simpl; lia].
Defined.

(** C10. A memory-pressure pass, whatever the probe reports, whatever the
    driver answers and whatever the registries hold, examines and closes
    browser sessions only: it leaves the electron session map as it was,
    calls [close()] on no electron application, and every [close()] it
    makes is on the browser of an entry of the browser registry. This
    holds for the whole check and for the eviction itself. *)
Theorem C10_memory_pressure_keeps_electron_sessions :
  forall (driver_browser_close : Handle -> Completion unit) (ps : PsResult) (st : Server),
    let checked := state_after (checkMemoryUsage driver_browser_close ps) st in
    let evicted := state_after (cleanupOldestSessions driver_browser_close) st in
    (electronSessions checked = electronSessions st /\
     app_closes (trace checked) = app_closes (trace st) /\
     exists closed : list Entry,
       incl closed (sessions st) /\
       browser_closes (trace checked) =
         browser_closes (trace st) ++ map (fun e => browser (snd e)) closed) /\
    (electronSessions evicted = electronSessions st /\
     app_closes (trace evicted) = app_closes (trace st) /\
     exists closed : list Entry,
       incl closed (sessions st) /\
       browser_closes (trace evicted) =
         browser_closes (trace st) ++ map (fun e => browser (snd e)) closed).
Proof.
  intros bc ps st checked evicted. split; (split; [|split]).
  - apply checkMemoryUsage_electron.
  - apply checkMemoryUsage_app_closes.
  - apply checkMemoryUsage_closes_entries.
  - apply cleanupOldestSessions_electron.
  - apply cleanupOldestSessions_app_closes.
  - apply cleanupOldestSessions_closes_entries.
Qed.

(** C5. When the memory probe reads above [MAX_MEMORY_MB] and the browser
    registry holds N > 0 sessions, the pass calls [close()] on, and removes,
    exactly [max(1, floor(N / 4))] sessions and keeps every other one; each
    removed session was created no later than each kept one, and where a
    removed and a kept session have the same [createdAt] the removed one
    comes first in the registry's iteration order. *)
Theorem C5_memory_pressure_evicts_oldest_quarter :
  forall (driver_browser_close : Handle -> Completion unit) (rss : Z) (st : Server),
    JsMap.wf (sessions st) ->
    0 < JsMap.size (sessions st) ->
    (inject_Z MAX_MEMORY_MB < memoryMB rss)%Q ->
    let st' :=
      state_after (checkMemoryUsage driver_browser_close (PsRss (Some rss))) st in
    exists evicted : list Entry,
      List.length evicted = Nat.max 1 (JsMap.size (sessions st) / 4) /\
      Permutation (sessions st) (evicted ++ sessions st') /\
      browser_closes (trace st') =
        browser_closes (trace st) ++ map (fun e => browser (snd e)) evicted /\
      (forall c r, In c evicted -> In r (sessions st') ->
         (createdAt (snd c) <= createdAt (snd r))%Z /\
         (createdAt (snd c) = createdAt (snd r) -> JsMap.before c r (sessions st))).
Proof.
  intros bc rss st Hwf Hpos Hmem st'.
  subst st'. unfold state_after. rewrite checkMemoryUsage_run.
  apply memory_high_spec in Hmem. rewrite Hmem.
  set (st1 := with_trace _ st).
  pose proof (cleanupOldestSessions_spec bc st1 Hwf Hpos) as Hspec.
  cbv zeta in Hspec. unfold state_after in Hspec.
  destruct Hspec as (evicted & Hlen & Hperm & Hcl & Hold).
  exists evicted. split; [exact Hlen|]. split; [exact Hperm|]. split; [|exact Hold].
  rewrite Hcl. subst st1. simpl. rewrite browser_closes_app. simpl.
  now rewrite app_nil_r.
Qed.

Lemma C5_memory_pressure_witness :
  let st' :=
    state_after (checkMemoryUsage Examples.close_rejects (PsRss (Some 3000000%Z)))
      Examples.eight_sessions in
  exists evicted : list Entry,
    List.length evicted = 2 /\
    Permutation (sessions Examples.eight_sessions) (evicted ++ sessions st') /\
    browser_closes (trace st') = map (fun e => browser (snd e)) evicted /\
    (forall c r, In c evicted -> In r (sessions st') ->
       (createdAt (snd c) <= createdAt (snd r))%Z /\
       (createdAt (snd c) = createdAt (snd r) ->
        JsMap.before c r (sessions Examples.eight_sessions))).
Proof.
  apply (C5_memory_pressure_evicts_oldest_quarter
           Examples.close_rejects 3000000%Z Examples.eight_sessions).
  - solve_wf.
  - simpl; lia.
  - reflexivity.
Defined.

(** The memory-pressure pass on the example registry: the two sessions
    evicted are [f] (the oldest) and [b] (the first of the three created at
    time 10). *)
Example memory_pressure_example :
  let st' :=
    state_after (checkMemoryUsage Examples.close_rejects (PsRss (Some 3000000%Z)))
      Examples.eight_sessions in
  JsMap.keys (sessions st') = ["a"; "c"; "d"; "e"; "g"; "h"]%string /\
  browser_closes (trace st') = [6; 2] /\
  JsMap.keys (electronSessions st') = ["app"%string].
Proof. vm_compute. auto. Qed.

(** ** Explicit close *)

Lemma delete_set_same {V} k (v : V) (m : JsMap.t V) :
  JsMap.delete k (JsMap.set k v m) = JsMap.delete k m.
Proof.
  unfold JsMap.delete.
  induction m as [|[k' v'] m IH]; simpl.
  - now rewrite String.eqb_refl.
  - destruct (String.eqb k k') eqn:E; simpl; rewrite E; simpl; [reflexivity|].
    now rewrite IH.
Qed.

Lemma for_each_emit {A} (evs : A -> list Event) (body : A -> M unit) (l : list A) :
  (forall x st, body x st = (Normal tt, with_trace (trace st ++ evs x) st)) ->
  forall ss es tm sd tr,
    for_each l body
      {| sessions := ss; electronSessions := es; cleanupTimer := tm;
         isShuttingDown := sd; trace := tr |} =
    (Normal tt,
     {| sessions := ss; electronSessions := es; cleanupTimer := tm;
        isShuttingDown := sd; trace := tr ++ flat_map evs l |}).
Proof.
  intros Hbody. induction l as [|x l IH]; intros ss es tm sd tr; simpl.
  - now rewrite app_nil_r.
  - unfold bind. rewrite Hbody. proj_simpl.
    rewrite IH, <- app_assoc. reflexivity.
Qed.

Lemma updateSessionActivity_run id now st :
  updateSessionActivity id now st =
  (Normal tt,
   {| sessions := touchSessions id now (sessions st);
      electronSessions := touchElectronSessions id now (electronSessions st);
      cleanupTimer := cleanupTimer st;
      isShuttingDown := isShuttingDown st;
      trace := trace st |}).
Proof.
  destruct st as [ss es tm sd tr].
  unfold updateSessionActivity, touchSessions, touchElectronSessions.
  run_m. proj_simpl.
  destruct (JsMap.get id ss); proj_simpl; destruct (JsMap.get id es); reflexivity.
Qed.

Lemma get_touchSessions id now m s :
  JsMap.get id m = Some s ->
  JsMap.get id (touchSessions id now m) = Some (set_lastActivity now s).
Proof.
  intros H. unfold touchSessions. rewrite H. apply JsMapFacts.get_set_same.
Qed.

Lemma get_touchElectronSessions id now m s :
  JsMap.get id m = Some s ->
  JsMap.get id (touchElectronSessions id now m) = Some (set_e_lastActivity now s).
Proof.
  intros H. unfold touchElectronSessions. rewrite H. apply JsMapFacts.get_set_same.
Qed.

Lemma delete_touchSessions id now m :
  JsMap.delete id (touchSessions id now m) = JsMap.delete id m.
Proof.
  unfold touchSessions. destruct (JsMap.get id m); [apply delete_set_same|reflexivity].
Qed.

Lemma delete_touchElectronSessions id now m :
  JsMap.delete id (touchElectronSessions id now m) = JsMap.delete id m.
Proof.
  unfold touchElectronSessions.
  destruct (JsMap.get id m); [apply delete_set_same|reflexivity].
Qed.

Section ExplicitClose.

Variable driver_browser_close : Handle -> Completion unit.
Variable driver_app_close : Handle -> Completion unit.

Lemma closeLogStreams_run id st s :
  JsMap.get id (sessions st) = Some s ->
  closeLogStreams id st =
  (Normal tt,
   {| sessions := JsMap.set id (set_logStreams JsMap.empty s) (sessions st);
      electronSessions := electronSessions st;
      cleanupTimer := cleanupTimer st;
      isShuttingDown := isShuttingDown st;
      trace := trace st ++
               flat_map (fun e => [StreamWrite (snd e); StreamEnd (snd e)])
                 (logStreams s) |}).
Proof.
  intros Hget. destruct st as [ss es tm sd tr]. proj_simpl.
  unfold closeLogStreams. run_m. proj_simpl. rewrite Hget. unfold JsMap.entries.
  rewrite (for_each_emit (fun e => [StreamWrite (snd e); StreamEnd (snd e)])).
  - reflexivity.
  - intros x st. destruct st. proj_simpl. now rewrite <- app_assoc.
Qed.

(** [closeBrowser] on a session that exists. *)
Lemma closeBrowser_run id st s :
  JsMap.get id (sessions st) = Some s ->
  closeBrowser driver_browser_close id st =
  (Normal ("Browser session " ++ id ++ " closed")%string,
   {| sessions := JsMap.delete id (sessions st);
      electronSessions := electronSessions st;
      cleanupTimer := cleanupTimer st;
      isShuttingDown := isShuttingDown st;
      trace := trace st ++
               flat_map (fun e => [StreamWrite (snd e); StreamEnd (snd e)])
                 (logStreams s) ++
               BrowserClose (browser s) ::
               match driver_browser_close (browser s) with
               | Normal _ => []
               | Thrown error =>
                   [ConsoleError ("Error closing browser " ++ id ++ ": " ++ error)%string]
               end |}).
Proof.
  intros Hget.
  unfold closeBrowser, await_browser_close, sessions_delete.
  unfold bind at 1. unfold get_server at 1. rewrite Hget.
  unfold bind at 1. unfold bind at 1. unfold try_catch. unfold bind at 1.
  rewrite (closeLogStreams_run id st s Hget).
  run_m. proj_simpl.
  destruct (driver_browser_close (browser s)); proj_simpl;
    rewrite delete_set_same, <- ?app_assoc; reflexivity.
Qed.

(** [closeElectron] on a session that exists. *)
Lemma closeElectron_run id st s :
  JsMap.get id (electronSessions st) = Some s ->
  closeElectron driver_app_close id st =
  (Normal ("Electron session " ++ id ++ " closed")%string,
   {| sessions := sessions st;
      electronSessions := JsMap.delete id (electronSessions st);
      cleanupTimer := cleanupTimer st;
      isShuttingDown := isShuttingDown st;
      trace := trace st ++
               AppClose (app s) ::
               match driver_app_close (app s) with
               | Normal _ => []
               | Thrown error =>
                   [ConsoleError ("Error closing electron " ++ id ++ ": " ++ error)%string]
               end |}).
Proof.
  intros Hget.
  unfold closeElectron, await_app_close, electronSessions_delete.
  unfold bind at 1. unfold get_server at 1. rewrite Hget.
  run_m. proj_simpl.
  destruct (driver_app_close (app s)); proj_simpl; rewrite <- ?app_assoc; reflexivity.
Qed.

(** The [browser_close] tool on a session that exists. *)
Lemma tool_browser_close_run id now st s :
  JsMap.get id (sessions st) = Some s ->
  tool_browser_close driver_browser_close id now st =
  (Normal ("Browser session " ++ id ++ " closed")%string,
   {| sessions := JsMap.delete id (sessions st);
      electronSessions :=
        if Str.truthy id then touchElectronSessions id now (electronSessions st)
        else electronSessions st;
      cleanupTimer := cleanupTimer st;
      isShuttingDown := isShuttingDown st;
      trace := trace st ++
               flat_map (fun e => [StreamWrite (snd e); StreamEnd (snd e)])
                 (logStreams s) ++
               BrowserClose (browser s) ::
               match driver_browser_close (browser s) with
               | Normal _ => []
               | Thrown error =>
                   [ConsoleError ("Error closing browser " ++ id ++ ": " ++ error)%string]
               end |}).
Proof.
  intros Hget. unfold tool_browser_close, callTool, try_catch.
  unfold bind at 1.
  destruct (Str.truthy id).
  - rewrite updateSessionActivity_run.
    rewrite (closeBrowser_run id _ (set_lastActivity now s))
      by (proj_simpl; now apply get_touchSessions).
    proj_simpl. now rewrite delete_touchSessions.
  - unfold ret at 1. rewrite (closeBrowser_run id st s Hget). reflexivity.
Qed.

(** The [electron_close] tool on a session that exists. *)
Lemma tool_electron_close_run id now st s :
  JsMap.get id (electronSessions st) = Some s ->
  tool_electron_close driver_app_close id now st =
  (Normal ("Electron session " ++ id ++ " closed")%string,
   {| sessions :=
        if Str.truthy id then touchSessions id now (sessions st) else sessions st;
      electronSessions := JsMap.delete id (electronSessions st);
      cleanupTimer := cleanupTimer st;
      isShuttingDown := isShuttingDown st;
      trace := trace st ++
               AppClose (app s) ::
               match driver_app_close (app s) with
               | Normal _ => []
               | Thrown error =>
                   [ConsoleError ("Error closing electron " ++ id ++ ": " ++ error)%string]
               end |}).
Proof.
  intros Hget. unfold tool_electron_close, callTool, try_catch.
  unfold bind at 1.
  destruct (Str.truthy id).
  - rewrite updateSessionActivity_run.
    rewrite (closeElectron_run id _ (set_e_lastActivity now s))
      by (proj_simpl; now apply get_touchElectronSessions).
    proj_simpl. now rewrite delete_touchElectronSessions.
  - unfold ret at 1. rewrite (closeElectron_run id st s Hget). reflexivity.
Qed.

End ExplicitClose.

(** ** A failing close never leaves the entry behind *)

Lemma idle_browser_removed bc ac TIMEOUT now st id s :
  JsMap.get id (sessions st) = Some s ->
  (now - lastActivity s > TIMEOUT)%Z ->
  JsMap.get id
    (sessions (state_after (cleanupInactiveSessions_with bc ac TIMEOUT now) st)) = None.
Proof.
  intros Hget Hidle. unfold state_after.
  rewrite cleanupInactiveSessions_with_run. cbn [snd]. cbv zeta.
  rewrite (fold_left_preserves _ sessions) by (intros; apply cleanupInactiveElectron_sessions).
  rewrite (get_fold_delete sessions _ fst (idle_browser TIMEOUT now))
    by (intros; apply cleanupInactiveBrowser_sessions).
  replace (existsb _ (sessions st)) with true; [reflexivity|].
  symmetry. apply existsb_exists. exists (id, s). split.
  - now apply JsMapFacts.get_In.
  - unfold idle_browser. simpl. rewrite String.eqb_refl, andb_true_r.
    apply Z.gtb_lt. lia.
Qed.

Lemma idle_electron_removed bc ac TIMEOUT now st id s :
  JsMap.get id (electronSessions st) = Some s ->
  (now - e_lastActivity s > TIMEOUT)%Z ->
  JsMap.get id
    (electronSessions
       (state_after (cleanupInactiveSessions_with bc ac TIMEOUT now) st)) = None.
Proof.
  intros Hget Hidle. unfold state_after.
  rewrite cleanupInactiveSessions_with_run. cbn [snd]. cbv zeta.
  rewrite (get_fold_delete electronSessions _ fst (idle_electron TIMEOUT now))
    by (intros; apply cleanupInactiveElectron_electron).
  rewrite (fold_left_preserves _ electronSessions)
    by (intros; apply cleanupInactiveBrowser_electron).
  replace (existsb _ (electronSessions st)) with true; [reflexivity|].
  symmetry. apply existsb_exists. exists (id, s). split.
  - now apply JsMapFacts.get_In.
  - unfold idle_electron. simpl. rewrite String.eqb_refl, andb_true_r.
    apply Z.gtb_lt. lia.
Qed.

Lemma oldest_removed bc st e :
  In e (firstn (toClose (JsMap.size (sessions st))) (sort_by_createdAt (sessions st))) ->
  JsMap.get (fst e) (sessions (state_after (cleanupOldestSessions bc) st)) = None.
Proof.
  intros Hin. unfold state_after. rewrite cleanupOldestSessions_run. cbn [snd].
  rewrite SortFacts.length_sort.
  rewrite (get_fold_delete (A := Entry) sessions _ fst (fun _ => true))
    by (intros; apply closeOldSession_sessions).
  replace (existsb _ _) with true; [reflexivity|].
  symmetry. apply existsb_exists. exists e. split; [exact Hin|].
  simpl. apply String.eqb_refl.
Qed.

(** C8. Whatever the external [close()] does, and in particular when it
    rejects: the [browser_close] and [electron_close] tools on an existing
    session answer normally and the entry is gone from the registry; the
    idle-timeout pass returns normally and every idle session is gone; the
    memory-pressure pass returns normally and every session it selected is
    gone. *)
Theorem C8_failed_close_still_removes_entry :
  forall (driver_browser_close driver_app_close : Handle -> Completion unit),
    (forall st id now s,
       JsMap.get id (sessions st) = Some s ->
       let r := tool_browser_close driver_browser_close id now st in
       fst r = Normal ("Browser session " ++ id ++ " closed")%string /\
       JsMap.get id (sessions (snd r)) = None /\
       In (browser s) (browser_closes (trace (snd r)))) /\
    (forall st id now s,
       JsMap.get id (electronSessions st) = Some s ->
       let r := tool_electron_close driver_app_close id now st in
       fst r = Normal ("Electron session " ++ id ++ " closed")%string /\
       JsMap.get id (electronSessions (snd r)) = None /\
       In (app s) (app_closes (trace (snd r)))) /\
    (forall TIMEOUT now st,
       let c := cleanupInactiveSessions_with driver_browser_close driver_app_close
                  TIMEOUT now in
       result_of c st = Normal tt /\
       (forall id s,
          JsMap.get id (sessions st) = Some s ->
          (now - lastActivity s > TIMEOUT)%Z ->
          JsMap.get id (sessions (state_after c st)) = None) /\
       (forall id s,
          JsMap.get id (electronSessions st) = Some s ->
          (now - e_lastActivity s > TIMEOUT)%Z ->
          JsMap.get id (electronSessions (state_after c st)) = None)) /\
    (forall st,
       let c := cleanupOldestSessions driver_browser_close in
       result_of c st = Normal tt /\
       (forall e,
          In e (firstn (toClose (JsMap.size (sessions st)))
                  (sort_by_createdAt (sessions st))) ->
          JsMap.get (fst e) (sessions (state_after c st)) = None)).
Proof.
  intros bc ac. split; [|split; [|split]].
  - intros st id now s Hget r. subst r.
    rewrite (tool_browser_close_run bc id now st s Hget). cbn [fst snd sessions trace].
    split; [reflexivity|]. split; [apply JsMapFacts.get_delete_same|].
    rewrite !browser_closes_app. apply in_or_app; right. apply in_or_app; right.
    simpl. now left.
  - intros st id now s Hget r. subst r.
    rewrite (tool_electron_close_run ac id now st s Hget).
    cbn [fst snd electronSessions trace].
    split; [reflexivity|]. split; [apply JsMapFacts.get_delete_same|].
    rewrite !app_closes_app. apply in_or_app; right. simpl. now left.
  - intros TIMEOUT now st c. subst c. split; [|split].
    + unfold result_of. now rewrite cleanupInactiveSessions_with_run.
    + intros id s. apply idle_browser_removed.
    + intros id s. apply idle_electron_removed.
  - intros st c. subst c. split.
    + unfold result_of. now rewrite cleanupOldestSessions_run.
    + intros e. apply oldest_removed.
Qed.

Lemma C8_failed_close_witness :
  (let r := tool_browser_close Examples.close_rejects "s1" 5 Examples.idle_and_busy in
   fst r = Normal "Browser session s1 closed"%string /\
   JsMap.get "s1" (sessions (snd r)) = None /\
   In 1 (browser_closes (trace (snd r)))) /\
  (let r := tool_electron_close Examples.close_rejects "e1" 5 Examples.idle_and_busy in
   fst r = Normal "Electron session e1 closed"%string /\
   JsMap.get "e1" (electronSessions (snd r)) = None /\
   In 3 (app_closes (trace (snd r)))) /\
  (let c := cleanupInactiveSessions_with Examples.close_rejects Examples.close_rejects
              500 1200 in
   JsMap.get "s1" (sessions (state_after c Examples.idle_and_busy)) = None /\
   JsMap.get "e1" (electronSessions (state_after c Examples.idle_and_busy)) = None) /\
  JsMap.get "f"
    (sessions (state_after (cleanupOldestSessions Examples.close_rejects)
                 Examples.eight_sessions)) = None.
Proof.
  destruct (C8_failed_close_still_removes_entry
              Examples.close_rejects Examples.close_rejects)
    as (Hb & He & Hi & Hm).
  split; [|split; [|split]].
  - apply (Hb Examples.idle_and_busy "s1"%string 5%Z
             (Examples.mkSession 1 0 0 [("main"%string, 7)])).
    reflexivity.
  - apply (He Examples.idle_and_busy "e1"%string 5%Z (Examples.mkElectron 3 0 0)).
    reflexivity.
  - destruct (Hi 500%Z 1200%Z Examples.idle_and_busy) as (_ & Hib & Hie).
    split.
    + apply (Hib "s1"%string (Examples.mkSession 1 0 0 [("main"%string, 7)]));
        [reflexivity|simpl; lia].
    + apply (Hie "e1"%string (Examples.mkElectron 3 0 0)); [reflexivity|simpl; lia].
  - destruct (Hm Examples.eight_sessions) as (_ & Hsel).
    apply (Hsel ("f"%string, Examples.mkSession 6 5 99 [])).
    vm_compute. left. reflexivity.
Defined.

(** ** Log streams *)

Lemma stream_ends_app (a b : list Event) :
  stream_ends (a ++ b) = stream_ends a ++ stream_ends b.
Proof.
  induction a as [|e a IH]; simpl; [reflexivity|].
  destruct e; simpl; now rewrite ?IH.
Qed.

Lemma stream_ends_close_events (l : JsMap.t StreamId) :
  stream_ends (flat_map (fun e => [StreamWrite (snd e); StreamEnd (snd e)]) l) =
  JsMap.values l.
Proof.
  induction l as [|e l IH]; simpl; [reflexivity|]. now rewrite IH.
Qed.

(** The explicit close path ends every log stream of the session, each
    once, and empties nothing else. *)
Lemma closeBrowser_ends_streams bc id st s :
  JsMap.get id (sessions st) = Some s ->
  stream_ends (trace (state_after (closeBrowser bc id) st)) =
  stream_ends (trace st) ++ JsMap.values (logStreams s).
Proof.
  intros Hget. unfold state_after. rewrite (closeBrowser_run bc id st s Hget).
  cbn [snd trace]. rewrite !stream_ends_app, stream_ends_close_events.
  simpl. destruct (bc (browser s)); simpl; now rewrite app_nil_r.
Qed.

(** The idle-timeout pass ends no log stream. *)
Lemma cleanupInactiveSessions_with_ends_no_stream bc ac TIMEOUT now st :
  stream_ends (trace (state_after (cleanupInactiveSessions_with bc ac TIMEOUT now) st)) =
  stream_ends (trace st).
Proof.
  unfold state_after. rewrite cleanupInactiveSessions_with_run. cbn [snd]. cbv zeta.
  rewrite (fold_left_preserves _ (fun s => stream_ends (trace s))).
  - apply (fold_left_preserves _ (fun s => stream_ends (trace s))).
    intros s [id b]. unfold cleanupInactiveBrowser.
    destruct (_ >? _)%Z; [|reflexivity].
    unfold await_browser_close, sessions_delete. run_m.
    destruct (bc (browser b)); proj_simpl; rewrite !stream_ends_app; simpl;
      now rewrite ?app_nil_r.
  - intros s [id e]. unfold cleanupInactiveElectron.
    destruct (_ >? _)%Z; [|reflexivity].
    unfold await_app_close, electronSessions_delete. run_m.
    destruct (ac (app e)); proj_simpl; rewrite !stream_ends_app; simpl;
      now rewrite ?app_nil_r.
Qed.

(** The memory-pressure pass ends no log stream. *)
Lemma cleanupOldestSessions_ends_no_stream bc st :
  stream_ends (trace (state_after (cleanupOldestSessions bc) st)) =
  stream_ends (trace st).
Proof.
  unfold state_after. rewrite cleanupOldestSessions_run. cbn [snd].
  apply (fold_left_preserves _ (fun s => stream_ends (trace s))).
  intros s [id b]. unfold closeOldSession, await_browser_close, sessions_delete.
  run_m. destruct (bc (browser b)); proj_simpl; rewrite !stream_ends_app; simpl;
    now rewrite ?app_nil_r.
Qed.

(** C2, on a concrete session. Session [s1] is launched and
    owns log stream 7. Closing it with the [browser_close] tool ends the
    stream once. The idle-timeout pass, the memory-pressure pass and the
    shutdown handler each call [close()] on the browser, and the two passes
    remove the session, but none of them ends the stream. *)
Theorem C2_only_explicit_close_ends_log_streams :
  let st := Examples.launched in
  (option_map logStreams (JsMap.get "s1" (sessions st)) = Some [("main"%string, 7)] /\
   stream_ends (trace st) = []) /\
  (let st' := state_after (tool_browser_close Examples.close_ok "s1" 10) st in
   JsMap.get "s1" (sessions st') = None /\
   browser_closes (trace st') = [1] /\
   stream_ends (trace st') = [7]) /\
  (let st' :=
     state_after
       (cleanupInactiveSessions Examples.close_ok Examples.close_ok (SESSION_TIMEOUT + 1))
       st in
   JsMap.get "s1" (sessions st') = None /\
   browser_closes (trace st') = [1] /\
   stream_ends (trace st') = []) /\
  (let st' :=
     state_after (checkMemoryUsage Examples.close_ok (PsRss (Some 3000000%Z))) st in
   JsMap.get "s1" (sessions st') = None /\
   browser_closes (trace st') = [1] /\
   stream_ends (trace st') = []) /\
  (let r := cleanup Examples.settles_ok Examples.settles_ok (ExecOk EmptyString) st in
   fst r = Normal true /\
   browser_closes (trace (snd r)) = [1] /\
   count (ProcessExit 0) (trace (snd r)) = 1 /\
   stream_ends (trace (snd r)) = []).
Proof.
  vm_compute. repeat split.
Qed.

(** ** Zombie processes *)

Lemma count_app (e : Event) (a b : list Event) :
  count e (a ++ b) = count e a + count e b.
Proof.
  unfold count. now rewrite filter_app, length_app.
Qed.

(** [cleanupZombieProcesses] by cases on what [pgrep] answers. *)
Lemma cleanupZombieProcesses_run pgrep pkill st :
  cleanupZombieProcesses pgrep pkill st =
  (Normal tt,
   with_trace
     (trace st ++
      Pgrep ::
      match pgrep with
      | ExecOk stdout =>
          if JsMap.size (sessions st) * 2 <? List.length (parsePids stdout) then
            [ConsoleError
               ("Found " ++ show_nat (List.length (parsePids stdout)) ++
                " browser processes but only " ++
                show_nat (JsMap.size (sessions st)) ++
                " active sessions. Cleaning zombies...")%string;
             PkillOldest]
          else []
      | ExecError _ => []
      end)
     st).
Proof.
  destruct st as [ss es tm sd tr].
  unfold cleanupZombieProcesses, exec. run_m. proj_simpl.
  destruct pgrep as [out|e]; proj_simpl; [|reflexivity].
  destruct (_ <? _); proj_simpl; [|reflexivity].
  destruct pkill; proj_simpl; rewrite <- !app_assoc; reflexivity.
Qed.

(** C9 (amended). The zombie check returns normally and leaves both
    registries as they were. It issues the [pkill] exactly when [pgrep]
    answered and listed more processes than twice the number of browser
    sessions; electron sessions are not counted. When [pgrep] fails, the
    check does nothing further. *)
Theorem C9_zombie_check_counts_browser_sessions_only :
  forall (pgrep pkill : ExecResult) (st : Server),
    let c := cleanupZombieProcesses pgrep pkill in
    let st' := state_after c st in
    result_of c st = Normal tt /\
    sessions st' = sessions st /\
    electronSessions st' = electronSessions st /\
    count PkillOldest (trace st') =
      count PkillOldest (trace st) +
      match pgrep with
      | ExecOk stdout =>
          if 2 * JsMap.size (sessions st) <? List.length (parsePids stdout)
          then 1 else 0
      | ExecError _ => 0
      end /\
    (forall e, pgrep = ExecError e -> trace st' = trace st ++ [Pgrep]).
Proof.
  intros pgrep pkill st c st'. subst c st'. unfold result_of, state_after.
  rewrite cleanupZombieProcesses_run. destruct st as [ss es tm sd tr]. proj_simpl.
  split; [reflexivity|]. split; [reflexivity|]. split; [reflexivity|]. split.
  - rewrite count_app. f_equal.
    destruct pgrep as [out|e]; [|reflexivity].
    rewrite (Nat.mul_comm 2). destruct (_ <? _); reflexivity.
  - intros e ->. reflexivity.
Qed.

(** C9 as stated fails: with one browser session, three electron sessions
    and three listed processes the [pkill] is issued, although three does
    not exceed twice the size of the two registries together. *)
Lemma C9_counterexample :
  let st := Examples.one_browser_three_electron in
  let st' :=
    state_after
      (cleanupZombieProcesses (ExecOk Examples.three_pids) (ExecOk EmptyString)) st in
  ~ (count PkillOldest (trace st') > count PkillOldest (trace st) ->
     List.length (parsePids Examples.three_pids) >
     2 * (JsMap.size (sessions st) + JsMap.size (electronSessions st))).
Proof.
  vm_compute. intros H.
  specialize (H (le_n 1)). lia.
Qed.

(** ** Launching twice *)

Lemma set_set_same {V} k (v v' : V) (m : JsMap.t V) :
  JsMap.set k v (JsMap.set k v' m) = JsMap.set k v m.
Proof.
  induction m as [|[k0 v0] m IH]; simpl.
  - now rewrite String.eqb_refl.
  - destruct (String.eqb k k0) eqn:E; simpl; rewrite E; [reflexivity|].
    now rewrite IH.
Qed.

Lemma launchBrowser_existing id headless w st :
  JsMap.has id (sessions st) = true ->
  launchBrowser id headless w st =
  (Normal ("Session " ++ id ++ " already exists")%string, st).
Proof.
  intros Hhas. unfold launchBrowser. unfold bind at 1. unfold get_server at 1.
  now rewrite Hhas.
Qed.

Lemma last_cons {A} (l : list A) : forall a d : A, last (a :: l) d = last l a.
Proof.
  induction l as [|b l IH]; intros a d; [reflexivity|].
  change (last (a :: b :: l) d) with (last (b :: l) d).
  now rewrite (IH b d), (IH b a).
Qed.

Lemma same_but_activity_refl s : same_but_activity s s.
Proof. repeat split. Qed.

Lemma same_but_activity_trans s1 s2 s3 :
  same_but_activity s1 s2 -> same_but_activity s2 s3 -> same_but_activity s1 s3.
Proof.
  unfold same_but_activity. intros (?&?&?&?&?) (?&?&?&?&?).
  repeat split; congruence.
Qed.

(** The request handler around a tool. *)
Lemma callTool_run name id now (tool : M string) st :
  callTool name id now tool st =
  let st0 :=
    if Str.truthy id then
      {| sessions := touchSessions id now (sessions st);
         electronSessions := touchElectronSessions id now (electronSessions st);
         cleanupTimer := cleanupTimer st;
         isShuttingDown := isShuttingDown st;
         trace := trace st |}
    else st in
  match tool st0 with
  | (Normal a, st1) => (Normal a, st1)
  | (Thrown e, st1) =>
      (Normal ("Error: " ++ e)%string,
       with_trace
         (trace st1 ++ [ConsoleError ("Tool " ++ name ++ " error: " ++ e)%string]) st1)
  end.
Proof.
  unfold callTool, try_catch. unfold bind at 1.
  destruct (Str.truthy id).
  - rewrite updateSessionActivity_run. cbv zeta.
    destruct (tool _) as [[a|e] st1]; reflexivity.
  - unfold ret at 1. cbv zeta. destruct (tool st) as [[a|e] st1]; reflexivity.
Qed.

(** [launchBrowser] for an absent session, with a driver that answers. *)
Lemma launchBrowser_creates id headless w st b c p :
  JsMap.get id (sessions st) = None ->
  chromium_launch w = Normal b ->
  browser_newContext w = Normal c ->
  context_newPage w = Normal p ->
  exists st',
    launchBrowser id headless w st =
      (Normal ("Browser launched with session ID: " ++ id ++
               " (headless: " ++ show_bool headless ++ ")")%string, st') /\
    JsMap.get id (sessions st') =
      Some {| browser := b; context := c; pages := [("main"%string, p)];
              lastActivity := launch_now w; createdAt := launch_now w;
              logStreams := [("main"%string, createWriteStream w)] |} /\
    count ChromiumLaunch (trace st') = count ChromiumLaunch (trace st) + 1.
Proof.
  intros Hnone Hb Hc Hp. destruct st as [ss es tm sd tr]. proj_simpl.
  unfold launchBrowser, setupPageLogging. run_m. proj_simpl.
  apply JsMapFacts.has_false in Hnone as Hhas. rewrite Hhas.
  rewrite Hb, Hc, Hp. proj_simpl.
  rewrite JsMapFacts.get_set_same. proj_simpl.
  eexists. split; [reflexivity|]. proj_simpl. split.
  - rewrite set_set_same. apply JsMapFacts.get_set_same.
  - rewrite !count_app. generalize (count ChromiumLaunch tr) as n. intros n.
    unfold count. cbn. lia.
Qed.

(** The first request for an absent session, with a driver that answers:
    the session is created. *)
Lemma tool_browser_launch_creates id headless now w st b c p :
  JsMap.get id (sessions st) = None ->
  chromium_launch w = Normal b ->
  browser_newContext w = Normal c ->
  context_newPage w = Normal p ->
  exists st',
    tool_browser_launch id headless now w st =
      (Normal ("Browser launched with session ID: " ++ id ++
               " (headless: " ++ show_bool headless ++ ")")%string, st') /\
    JsMap.get id (sessions st') =
      Some {| browser := b; context := c; pages := [("main"%string, p)];
              lastActivity := launch_now w; createdAt := launch_now w;
              logStreams := [("main"%string, createWriteStream w)] |} /\
    count ChromiumLaunch (trace st') = count ChromiumLaunch (trace st) + 1.
Proof.
  intros Hnone Hb Hc Hp. unfold tool_browser_launch. rewrite callTool_run. cbv zeta.
  match goal with |- context [launchBrowser id headless w ?s0] =>
    destruct (launchBrowser_creates id headless w s0 b c p) as (st' & Hrun & Hs & Hcount);
      [|exact Hb|exact Hc|exact Hp|]
  end.
  - destruct (Str.truthy id); [|exact Hnone].
    proj_simpl. unfold touchSessions. now rewrite Hnone.
  - rewrite Hrun. exists st'. split; [reflexivity|]. split; [exact Hs|].
    rewrite Hcount. now destruct (Str.truthy id).
Qed.

Lemma nth_error_last {A} (l : list A) (x : A) :
  nth_error (l ++ [x]) (List.length l) = Some x.
Proof.
  induction l as [|a l IH]; simpl; auto.
Qed.

Lemma set_nth_last {A} (l : list A) (x y : A) :
  set_nth (List.length l) y (l ++ [x]) = l ++ [y].
Proof.
  induction l as [|a l IH]; simpl; [reflexivity|now rewrite IH].
Qed.

Lemma set_nth_same {A} (l : list A) :
  forall i x, nth_error l i = Some x -> set_nth i x l = l.
Proof.
  induction l as [|a l IH]; intros [|i] x H; simpl in *; try discriminate.
  - now inversion H.
  - now rewrite IH.
Qed.

Lemma run_turns_app id (a b : list Turn) :
  forall pool st,
    run_turns id (a ++ b) pool st =
    match run_turns id a pool st with
    | (Normal pool', st') => run_turns id b pool' st'
    | (Thrown e, st') => (Thrown e, st')
    end.
Proof.
  induction a as [|t a IH]; intros pool st; simpl.
  - reflexivity.
  - unfold bind. destruct (turn id t pool st) as [[pool'|e] st']; [apply IH|reflexivity].
Qed.

(** The arrival of a request. *)
Lemma launch_receive_run id call st :
  launch_receive id call st =
  let st0 :=
    if Str.truthy id then
      {| sessions := touchSessions id (call_now call) (sessions st);
         electronSessions := touchElectronSessions id (call_now call) (electronSessions st);
         cleanupTimer := cleanupTimer st;
         isShuttingDown := isShuttingDown st;
         trace := trace st |}
    else st in
  if JsMap.has id (sessions st0)
  then (Normal (Answered ("Session " ++ id ++ " already exists")%string), st0)
  else (Normal AwaitLaunch, with_trace (trace st0 ++ [ChromiumLaunch]) st0).
Proof.
  unfold launch_receive. unfold bind at 1.
  destruct (Str.truthy id).
  - rewrite updateSessionActivity_run. cbv zeta. run_m.
    destruct (JsMap.has id _); reflexivity.
  - run_m. destruct (JsMap.has id _); reflexivity.
Qed.

Lemma run_turns_cons id t rest pool st :
  run_turns id (t :: rest) pool st =
  match turn id t pool st with
  | (Normal pool', st') => run_turns id rest pool' st'
  | (Thrown e, st') => (Thrown e, st')
  end.
Proof. reflexivity. Qed.

Lemma turn_receive id call (pool : Pool) st :
  turn id (Receive call) pool st =
  match launch_receive id call st with
  | (Normal task, st') => (Normal (pool ++ [(call, task)]), st')
  | (Thrown e, st') => (Thrown e, st')
  end.
Proof. reflexivity. Qed.

Lemma turn_settle_last id call task (pool : Pool) st :
  turn id (Settle (List.length pool)) (pool ++ [(call, task)]) st =
  match launch_resume id call task st with
  | (Normal task', st') => (Normal (pool ++ [(call, task')]), st')
  | (Thrown e, st') => (Thrown e, st')
  end.
Proof.
  unfold turn. rewrite nth_error_last. unfold bind, ret.
  destruct (launch_resume id call task st) as [[task'|e] st'];
    rewrite ?set_nth_last; reflexivity.
Qed.

(** Nothing is awaited by a request that has its answer. *)
Lemma launch_resume_answered id call text st :
  launch_resume id call (Answered text) st = (Normal (Answered text), st).
Proof. reflexivity. Qed.

(** A request alone, from its arrival to its answer, does what
    [tool_browser_launch] does. *)
Lemma launch_alone id call (pool : Pool) st :
  run_turns id (alone (List.length pool) call) pool st =
  match tool_browser_launch id (call_headless call) (call_now call) (call_world call) st
  with
  | (Normal text, st') => (Normal (pool ++ [(call, Answered text)]), st')
  | (Thrown e, st') => (Thrown e, st')
  end.
Proof.
  destruct call as [[headless now] [cl nc np stream t]].
  unfold call_headless, call_now, call_world. cbn [fst snd].
  unfold tool_browser_launch. rewrite callTool_run. cbv zeta.
  unfold alone. rewrite run_turns_cons, turn_receive, launch_receive_run. cbv zeta.
  unfold call_now. cbn [fst snd].
  set (st0 := if Str.truthy id then _ else st).
  destruct (JsMap.has id (sessions st0)) eqn:Hhas.
  - rewrite launchBrowser_existing by exact Hhas.
    do 3 (rewrite run_turns_cons, turn_settle_last, launch_resume_answered;
          cbv beta iota).
    reflexivity.
  - unfold launchBrowser. unfold bind at 1. unfold get_server at 1. rewrite Hhas.
    clearbody st0.
    destruct cl as [b|e], nc as [c|e'], np as [p|e''];
      repeat (cbn [run_turns]; unfold launch_resume, launch_continue, launch_failed,
                call_world, call_headless;
              cbn [chromium_launch browser_newContext context_newPage
                   createWriteStream launch_now fst snd];
              run_m; rewrite ?turn_settle_last);
      try match goal with
          | |- context [setupPageLogging ?a ?b ?c ?d ?s] =>
              destruct (setupPageLogging a b c d s) as [[[]|?] ?]
          end;
      reflexivity.
Qed.

(** The arrival of a request for a session that exists: it is answered at
    once, and only the activity of the session is refreshed. *)
Lemma launch_receive_existing id call st s :
  JsMap.get id (sessions st) = Some s ->
  launch_receive id call st =
  (Normal (Answered ("Session " ++ id ++ " already exists")%string),
   if Str.truthy id then
     {| sessions := JsMap.set id (set_lastActivity (call_now call) s) (sessions st);
        electronSessions := touchElectronSessions id (call_now call) (electronSessions st);
        cleanupTimer := cleanupTimer st;
        isShuttingDown := isShuttingDown st;
        trace := trace st |}
   else st).
Proof.
  intros Hget. rewrite launch_receive_run. cbv zeta.
  destruct (Str.truthy id).
  - cbn [sessions]. unfold touchSessions. rewrite Hget.
    assert (Hhas : JsMap.has id
                     (JsMap.set id (set_lastActivity (call_now call) s) (sessions st)) =
                   true)
      by (apply JsMapFacts.has_true; eexists; apply JsMapFacts.get_set_same).
    now rewrite Hhas.
  - assert (Hhas : JsMap.has id (sessions st) = true)
      by (apply JsMapFacts.has_true; eauto).
    now rewrite Hhas.
Qed.

(** Once the session exists and no request is suspended, whatever arrives
    and whatever settles, every new request is answered that the session
    exists, nothing is called outside, and the entry changes in
    [lastActivity] only. *)
Lemma run_turns_existing id (turns : list Turn) :
  forall (pool : Pool) st s,
    JsMap.get id (sessions st) = Some s ->
    Forall (fun e => exists text, snd e = Answered text) pool ->
    exists (later : Pool) st' s',
      run_turns id turns pool st = (Normal (pool ++ later), st') /\
      map fst later = received turns /\
      Forall (fun e => snd e = Answered ("Session " ++ id ++ " already exists")%string)
        later /\
      trace st' = trace st /\
      JsMap.keys (sessions st') = JsMap.keys (sessions st) /\
      JsMap.get id (sessions st') = Some s' /\
      same_but_activity s s' /\
      lastActivity s' =
        if Str.truthy id
        then last (map call_now (received turns)) (lastActivity s)
        else lastActivity s.
Proof.
  induction turns as [|[call|i] turns IH]; intros pool st s Hget Hpool.
  - exists [], st, s. rewrite app_nil_r. simpl.
    repeat split; try constructor; auto. now destruct (Str.truthy id).
  - rewrite run_turns_cons, turn_receive, (launch_receive_existing id call st s Hget).
    set (text := ("Session " ++ id ++ " already exists")%string).
    assert (Hpool' : Forall (fun e : LaunchCall * LaunchTask =>
                               exists t, snd e = Answered t)
                       (pool ++ [(call, Answered text)])).
    { apply Forall_app. split; [exact Hpool|]. constructor; [|constructor].
      now exists text. }
    destruct (Str.truthy id) eqn:Htruthy.
    + set (st1 := {| sessions := _ |}).
      assert (Hget1 : JsMap.get id (sessions st1) =
                      Some (set_lastActivity (call_now call) s))
        by apply JsMapFacts.get_set_same.
      destruct (IH _ st1 _ Hget1 Hpool')
        as (later & st' & s' & Hrun & Hrecv & Hall & Htr & Hkeys & Hs' & Hsame & Hla).
      exists ((call, Answered text) :: later), st', s'.
      rewrite Hrun, <- app_assoc. simpl.
      split; [reflexivity|]. split; [now rewrite Hrecv|].
      split; [now constructor|]. split; [exact Htr|]. split.
      { rewrite Hkeys. subst st1. cbn [sessions].
        now apply JsMapFacts.keys_set_present with s. }
      split; [exact Hs'|]. split.
      { eapply same_but_activity_trans; [|exact Hsame]. repeat split. }
      rewrite Hla. cbn [lastActivity set_lastActivity].
      symmetry. apply (last_cons _ (call_now call) (lastActivity s)).
    + destruct (IH _ st s Hget Hpool')
        as (later & st' & s' & Hrun & Hrecv & Hall & Htr & Hkeys & Hs' & Hsame & Hla).
      exists ((call, Answered text) :: later), st', s'.
      rewrite Hrun, <- app_assoc. simpl.
      split; [reflexivity|]. split; [now rewrite Hrecv|].
      split; [now constructor|]. auto.
  - rewrite run_turns_cons.
    assert (Hturn : turn id (Settle i) pool st = (Normal pool, st)).
    { unfold turn. destruct (nth_error pool i) as [[call task]|] eqn:Hnth; [|reflexivity].
      assert (Htask : exists text, task = Answered text).
      { rewrite Forall_forall in Hpool.
        destruct (Hpool _ (nth_error_In _ _ Hnth)) as (text & Ht). now exists text. }
      destruct Htask as (text & ->).
      unfold bind. rewrite launch_resume_answered. unfold ret.
      now rewrite (set_nth_same pool i _ Hnth). }
    rewrite Hturn. simpl received. now apply IH.
Qed.

(** C7 (amended). When a [browser_launch] request for a new identifier has
    been answered after a successful launch, every request for the same
    identifier that is received later answers that the session already
    exists and makes no external call, so no browser is launched, however
    the later requests are interleaved; the entry keeps its handle,
    context, pages, [createdAt] and log streams, and only its
    [lastActivity] is refreshed by the request handler (to the clock of the
    latest request, when the identifier is not empty). *)
Theorem C7_repeated_launch_keeps_session :
  forall (sessionId : string) (first : LaunchCall) (turns : list Turn)
         (st : Server) (b c p : Handle),
    JsMap.get sessionId (sessions st) = None ->
    chromium_launch (call_world first) = Normal b ->
    browser_newContext (call_world first) = Normal c ->
    context_newPage (call_world first) = Normal p ->
    let st1 := state_after (run_turns sessionId (alone 0 first) []) st in
    let r := run_turns sessionId (alone 0 first ++ turns) [] st in
    exists (s : BrowserSession) (later : Pool),
      JsMap.get sessionId (sessions st1) = Some s /\
      browser s = b /\ createdAt s = launch_now (call_world first) /\
      fst r =
        Normal ((first,
                 Answered ("Browser launched with session ID: " ++ sessionId ++
                           " (headless: " ++ show_bool (call_headless first) ++
                           ")")%string) :: later) /\
      map fst later = received turns /\
      Forall (fun e => snd e = Answered ("Session " ++ sessionId ++ " already exists")%string)
        later /\
      trace (snd r) = trace st1 /\
      count ChromiumLaunch (trace (snd r)) = count ChromiumLaunch (trace st) + 1 /\
      exists s',
        JsMap.get sessionId (sessions (snd r)) = Some s' /\
        same_but_activity s s' /\
        lastActivity s' =
          if Str.truthy sessionId
          then last (map call_now (received turns)) (lastActivity s)
          else lastActivity s.
Proof.
  intros id first turns st b c p Hnone Hb Hc Hp st1 r.
  destruct (tool_browser_launch_creates id (call_headless first) (call_now first)
              (call_world first) st b c p Hnone Hb Hc Hp)
    as (st1' & Hrun & Hs & Hcount).
  pose proof (launch_alone id first [] st) as Halone.
  rewrite Hrun in Halone. cbn [List.length app] in Halone.
  assert (Hst1 : st1 = st1') by (subst st1; unfold state_after; now rewrite Halone).
  set (text := ("Browser launched with session ID: " ++ id ++
                " (headless: " ++ show_bool (call_headless first) ++ ")")%string) in *.
  assert (Hpool : Forall (fun e : LaunchCall * LaunchTask =>
                            exists t, snd e = Answered t) [(first, Answered text)])
    by (constructor; [now exists text|constructor]).
  destruct (run_turns_existing id turns _ st1' _ Hs Hpool)
    as (later & st' & s' & Hlater & Hrecv & Hall & Htr & _ & Hs' & Hsame & Hla).
  assert (Hr : r = (Normal ((first, Answered text) :: later), st'))
    by (subst r; rewrite run_turns_app, Halone; cbv beta iota; exact Hlater).
  rewrite Hr, Hst1. cbn [fst snd].
  eexists _, later. split; [exact Hs|]. split; [reflexivity|]. split; [reflexivity|].
  split; [reflexivity|]. split; [exact Hrecv|]. split; [exact Hall|].
  split; [exact Htr|]. split; [now rewrite Htr|].
  exists s'. auto.
Qed.

Lemma C7_repeated_launch_witness :
  let first := (true, 0%Z, Examples.launch_world 1 7 0) in
  let second := (true, 50%Z, Examples.launch_world 2 8 50) in
  let third := (false, 60%Z, Examples.launch_world 3 9 60) in
  let turns := [Receive second; Receive third; Settle 2; Settle 1] in
  let st1 := state_after (run_turns "s1" (alone 0 first) []) initial in
  let r := run_turns "s1" (alone 0 first ++ turns) [] initial in
  exists (s : BrowserSession) (later : Pool),
    JsMap.get "s1" (sessions st1) = Some s /\
    browser s = 1 /\ createdAt s = 0%Z /\
    fst r =
      Normal ((first, Answered "Browser launched with session ID: s1 (headless: true)")
              :: later) /\
    map fst later = [second; third] /\
    Forall (fun e => snd e = Answered "Session s1 already exists"%string) later /\
    trace (snd r) = trace st1 /\
    count ChromiumLaunch (trace (snd r)) = 1 /\
    exists s',
      JsMap.get "s1" (sessions (snd r)) = Some s' /\
      same_but_activity s s' /\
      lastActivity s' = 60%Z.
Proof.
  apply (C7_repeated_launch_keeps_session "s1" (true, 0%Z, Examples.launch_world 1 7 0)
           [Receive (true, 50%Z, Examples.launch_world 2 8 50);
            Receive (false, 60%Z, Examples.launch_world 3 9 60); Settle 2; Settle 1]
           initial 1 101 201); reflexivity.
Defined.

(** C7 as stated fails in two ways. A second [browser_launch] for [s1]
    that is received after the first was answered says that the session
    already exists, yet the entry of [s1] is not what it was. A second
    request that is received while the first still awaits the driver
    passes the [has] guard as well: both requests launch a browser, both
    are answered that the browser was launched, the entry of the second
    replaces that of the first, and the first browser is never closed. *)
Lemma C7_counterexample :
  (let first := (true, 0%Z, Examples.launch_world 1 7 0) in
   let second := (true, 5000%Z, Examples.launch_world 2 8 5000) in
   let st1 := state_after (run_turns "s1" (alone 0 first) []) initial in
   let r := run_turns "s1" (alone 0 first ++ alone 1 second) [] initial in
   map snd (match fst r with Normal pool => pool | Thrown _ => [] end) =
     [Answered "Browser launched with session ID: s1 (headless: true)";
      Answered "Session s1 already exists"] /\
   ~ (JsMap.get "s1" (sessions (snd r)) = JsMap.get "s1" (sessions st1))) /\
  (let first := (true, 0%Z, Examples.launch_world 1 7 0) in
   let second := (true, 1%Z, Examples.launch_world 2 8 1) in
   let r :=
     run_turns "s1"
       [Receive first; Receive second;
        Settle 0; Settle 0; Settle 0; Settle 1; Settle 1; Settle 1] [] initial in
   map snd (match fst r with Normal pool => pool | Thrown _ => [] end) =
     [Answered "Browser launched with session ID: s1 (headless: true)";
      Answered "Browser launched with session ID: s1 (headless: true)"] /\
   count ChromiumLaunch (trace (snd r)) = 2 /\
   option_map browser (JsMap.get "s1" (sessions (snd r))) = Some 2 /\
   browser_closes (trace (snd r)) = []).
Proof.
  split.
  - split; [reflexivity|]. vm_compute. discriminate.
  - vm_compute. repeat split.
Qed.

(** ** Shutdown *)

Lemma browser_closes_calls (bs : list Handle) (aps : list Handle) :
  browser_closes (map close_event (map OfBrowser bs ++ map OfApp aps)) = bs.
Proof.
  induction bs as [|b bs IH]; simpl.
  - induction aps as [|a aps IHa]; simpl; auto.
  - now rewrite IH.
Qed.

Lemma app_closes_calls (bs : list Handle) (aps : list Handle) :
  app_closes (map close_event (map OfBrowser bs ++ map OfApp aps)) = aps.
Proof.
  induction bs as [|b bs IH]; simpl.
  - induction aps as [|a aps IHa]; simpl; [reflexivity|now rewrite IHa].
  - exact IH.
Qed.

Lemma close_calls_handles st :
  close_calls st = map OfBrowser (browser_handles st) ++ map OfApp (app_handles st).
Proof.
  unfold close_calls, browser_handles, app_handles. now rewrite !map_map.
Qed.

Lemma flat_map_singleton {A B} (f : A -> B) (l : list A) :
  flat_map (fun x => [f x]) l = map f l.
Proof.
  induction l as [|x l IH]; simpl; [reflexivity|now rewrite IH].
Qed.

(** The first part of [cleanup] on a server that is not shutting down. *)
Lemma cleanup_begin_run st :
  isShuttingDown st = false ->
  cleanup_begin st =
  (Normal (Some (close_calls st)),
   {| sessions := sessions st;
      electronSessions := electronSessions st;
      cleanupTimer := cleanupTimer st;
      isShuttingDown := true;
      trace := trace st ++
               ConsoleError "Shutting down Playwright MCP server..." ::
               (if cleanupTimer st then [ClearInterval] else []) ++
               map close_event (close_calls st) |}).
Proof.
  intros Hflag. destruct st as [ss es tm sd tr]. proj_simpl. subst sd.
  unfold cleanup_begin, close_calls, start_close. unfold bind at 1.
  unfold get_server at 1. proj_simpl.
  unfold bind at 1. unfold modify at 1. proj_simpl.
  unfold bind at 1. unfold console_error, emit at 1, modify at 1. proj_simpl.
  unfold bind at 1.
  assert (Hemit : forall x st, emit (close_event x) st =
                    (Normal tt, with_trace (trace st ++ [close_event x]) st))
    by reflexivity.
  destruct tm; unfold emit at 1, modify at 1, ret at 1; proj_simpl;
    unfold bind at 1;
    rewrite (for_each_emit (fun c => [close_event c]) _ _ Hemit);
    unfold bind at 1;
    rewrite (for_each_emit (fun c => [close_event c]) _ _ Hemit);
    unfold ret; rewrite !flat_map_singleton, map_app, <- !app_assoc; reflexivity.
Qed.


Section ShutdownFacts.

Variable browser_close_settles : Handle -> Settlement.
Variable app_close_settles : Handle -> Settlement.
Variable pkill : ExecResult.

Local Abbreviation settled_all :=
  (all_settled browser_close_settles app_close_settles).
Local Abbreviation rejections :=
  (flat_map (rejection_log browser_close_settles app_close_settles)).


(** A whole invocation on a server that is not shutting down. *)
Lemma cleanup_run st :
  isShuttingDown st = false ->
  cleanup browser_close_settles app_close_settles pkill st =
  (Normal (settled_all (close_calls st)),
   {| sessions := sessions st;
      electronSessions := electronSessions st;
      cleanupTimer := cleanupTimer st;
      isShuttingDown := true;
      trace := (trace st ++
                ConsoleError "Shutting down Playwright MCP server..." ::
                (if cleanupTimer st then [ClearInterval] else []) ++
                map close_event (close_calls st)) ++
               rejections (close_calls st) ++
               (if settled_all (close_calls st)
                then [PkillAll; ConsoleError "Cleanup complete"; ProcessExit 0]
                else []) |}).
Proof.
  intros Hflag. unfold cleanup. unfold bind at 1.
  rewrite (cleanup_begin_run st Hflag).
  unfold bind at 1.
  rewrite (for_each_emit (rejection_log browser_close_settles app_close_settles)).
  - destruct (settled_all (close_calls st)).
    + unfold cleanup_end, exec. run_m. proj_simpl.
      destruct pkill; proj_simpl; rewrite <- !app_assoc; reflexivity.
    + unfold ret. now rewrite app_nil_r.
  - intros c st0. unfold close_settled.
    destruct st0 as [ss es tm sd tr].
    rewrite (for_each_emit (fun e => [e])) by reflexivity.
    proj_simpl. rewrite flat_map_singleton, map_id. reflexivity.
Qed.

Lemma browser_closes_rejections l : browser_closes (rejections l) = [].
Proof.
  induction l as [|c l IH]; simpl; [reflexivity|].
  rewrite browser_closes_app, IH, app_nil_r.
  unfold rejection_log.
  destruct c; destruct (settlement _ _ _) as [[|]|]; reflexivity.
Qed.

Lemma app_closes_rejections l : app_closes (rejections l) = [].
Proof.
  induction l as [|c l IH]; simpl; [reflexivity|].
  rewrite app_closes_app, IH, app_nil_r.
  unfold rejection_log.
  destruct c; destruct (settlement _ _ _) as [[|]|]; reflexivity.
Qed.

Lemma count_exit_rejections l : count (ProcessExit 0) (rejections l) = 0.
Proof.
  induction l as [|c l IH]; simpl; [reflexivity|].
  rewrite count_app, IH, Nat.add_0_r.
  unfold rejection_log.
  destruct c; destruct (settlement _ _ _) as [[|]|]; reflexivity.
Qed.

Lemma count_exit_close_events l : count (ProcessExit 0) (map close_event l) = 0.
Proof.
  induction l as [|c l IH]; [reflexivity|].
  destruct c; exact IH.
Qed.

Lemma console_errors_close_events l : console_errors (map close_event l) = [].
Proof.
  induction l as [|c l IH]; [reflexivity|].
  destruct c; exact IH.
Qed.

(** One line is printed for each close call that rejects. *)
Lemma console_errors_rejections l :
  List.length (console_errors (rejections l)) =
  List.length (filter (rejects browser_close_settles app_close_settles) l).
Proof.
  induction l as [|c l IH]; simpl; [reflexivity|].
  rewrite console_errors_app, length_app, IH.
  unfold rejection_log, rejects.
  destruct c; destruct (settlement _ _ _) as [[|]|]; reflexivity.
Qed.

Lemma rejection_logged l c e :
  In c l ->
  settlement browser_close_settles app_close_settles c = Settled (Thrown e) ->
  In (ConsoleError (rejection_message c e)) (rejections l).
Proof.
  intros Hin Hs. apply in_flat_map. exists c. split; [exact Hin|].
  unfold rejection_log. destruct c; rewrite Hs; left; reflexivity.
Qed.

(** The close calls and the exit of a whole invocation. *)
Lemma cleanup_closes st :
  isShuttingDown st = false ->
  let st' := state_after (cleanup browser_close_settles app_close_settles pkill) st in
  browser_closes (trace st') = browser_closes (trace st) ++ browser_handles st /\
  app_closes (trace st') = app_closes (trace st) ++ app_handles st /\
  isShuttingDown st' = true /\
  count (ProcessExit 0) (trace st') =
    count (ProcessExit 0) (trace st) +
    (if settled_all (close_calls st) then 1 else 0).
Proof.
  intros Hflag st'. subst st'. unfold state_after.
  rewrite (cleanup_run st Hflag). cbn [snd trace isShuttingDown].
  assert (Hb : browser_closes (map close_event (close_calls st)) = browser_handles st)
    by (rewrite close_calls_handles; apply browser_closes_calls).
  assert (Ha : app_closes (map close_event (close_calls st)) = app_handles st)
    by (rewrite close_calls_handles; apply app_closes_calls).
  split; [|split; [|split]].
  - rewrite !browser_closes_app, browser_closes_rejections. simpl.
    rewrite browser_closes_app, Hb.
    destruct (cleanupTimer st), (settled_all (close_calls st)); simpl;
      now rewrite ?app_nil_r.
  - rewrite !app_closes_app, app_closes_rejections. simpl.
    rewrite app_closes_app, Ha.
    destruct (cleanupTimer st), (settled_all (close_calls st)); simpl;
      now rewrite ?app_nil_r.
  - reflexivity.
  - rewrite !count_app, count_exit_rejections.
    change (ConsoleError "Shutting down Playwright MCP server..." ::
            (if cleanupTimer st then [ClearInterval] else []) ++
            map close_event (close_calls st))
      with ([ConsoleError "Shutting down Playwright MCP server..."] ++
            (if cleanupTimer st then [ClearInterval] else []) ++
            map close_event (close_calls st)).
    rewrite !count_app, count_exit_close_events.
    generalize (count (ProcessExit 0) (trace st)) as n. intros n.
    destruct (cleanupTimer st), (settled_all (close_calls st));
      unfold count; simpl; lia.
Qed.

End ShutdownFacts.

Lemma all_settled_true_iff bs aps l :
  all_settled bs aps l = true <->
  forall c, In c l -> settlement bs aps c <> Pending.
Proof.
  unfold all_settled. rewrite forallb_forall. unfold has_settled.
  split; intros H c Hc; specialize (H c Hc); destruct (settlement bs aps c);
    congruence.
Qed.

(** The first part of a shutdown starts one close call per session. *)
Lemma cleanup_begin_starts_all st :
  isShuttingDown st = false ->
  browser_closes (trace (state_after cleanup_begin st)) =
    browser_closes (trace st) ++ browser_handles st /\
  app_closes (trace (state_after cleanup_begin st)) =
    app_closes (trace st) ++ app_handles st.
Proof.
  intros Hflag. unfold state_after. rewrite (cleanup_begin_run st Hflag).
  cbn [snd trace]. rewrite browser_closes_app, app_closes_app. simpl.
  rewrite browser_closes_app, app_closes_app, close_calls_handles.
  rewrite browser_closes_calls, app_closes_calls.
  now destruct (cleanupTimer st).
Qed.

(** C3 (amended). A shutdown on a server that is not yet shutting down
    starts the close call of every browser and electron session in its
    first, uninterrupted part, whatever those calls will do, and starts no
    other close later. It then waits for all of them: it reaches
    [process.exit(0)] exactly when every close call settles, a rejected
    call counting as settled; when some close call never settles, it never
    gets there. No bound on the wait exists. A rejection is caught and
    logged: the invocation does not throw, each close call that rejects
    with [e] leaves its line with [e] on the console, and the lines printed
    are the opening line, one line per rejected call and, when the end is
    reached, the closing line. *)
Theorem C3_shutdown_starts_all_closes_then_waits_for_all :
  forall (browser_close_settles app_close_settles : Handle -> Settlement)
         (pkill : ExecResult) (st : Server),
    isShuttingDown st = false ->
    let begun := state_after cleanup_begin st in
    let r := cleanup browser_close_settles app_close_settles pkill st in
    let settled := all_settled browser_close_settles app_close_settles (close_calls st) in
    (browser_closes (trace begun) = browser_closes (trace st) ++ browser_handles st /\
     app_closes (trace begun) = app_closes (trace st) ++ app_handles st) /\
    (browser_closes (trace (snd r)) = browser_closes (trace begun) /\
     app_closes (trace (snd r)) = app_closes (trace begun)) /\
    fst r = Normal settled /\
    count (ProcessExit 0) (trace (snd r)) =
      count (ProcessExit 0) (trace st) + (if settled then 1 else 0) /\
    (settled = true <->
     forall c, In c (close_calls st) ->
       settlement browser_close_settles app_close_settles c <> Pending) /\
    (forall c e,
       In c (close_calls st) ->
       settlement browser_close_settles app_close_settles c = Settled (Thrown e) ->
       In (ConsoleError (rejection_message c e)) (trace (snd r))) /\
    List.length (console_errors (trace (snd r))) =
      List.length (console_errors (trace st)) + 1 +
      List.length (filter (rejects browser_close_settles app_close_settles)
                     (close_calls st)) +
      (if settled then 1 else 0).
Proof.
  intros bs aps pkill st Hflag begun r settled.
  destruct (cleanup_begin_starts_all st Hflag) as (Hb0 & Ha0).
  destruct (cleanup_closes bs aps pkill st Hflag) as (Hb1 & Ha1 & _ & Hexit).
  fold begun in Hb0, Ha0. unfold state_after in Hb1, Ha1, Hexit.
  fold r in Hb1, Ha1, Hexit. fold settled in Hexit.
  assert (Hr : fst r = Normal settled /\
               trace (snd r) =
                 (trace st ++
                  ConsoleError "Shutting down Playwright MCP server..." ::
                  (if cleanupTimer st then [ClearInterval] else []) ++
                  map close_event (close_calls st)) ++
                 flat_map (rejection_log bs aps) (close_calls st) ++
                 (if settled
                  then [PkillAll; ConsoleError "Cleanup complete"; ProcessExit 0]
                  else []))
    by (subst r settled; rewrite (cleanup_run bs aps pkill st Hflag); split; reflexivity).
  destruct Hr as (Hfst & Htr).
  split; [split; assumption|].
  split; [split; congruence|].
  split; [exact Hfst|]. split; [exact Hexit|].
  split; [apply all_settled_true_iff|]. split.
  - intros c e Hin Hs. rewrite Htr.
    apply in_or_app; right. apply in_or_app; left.
    now apply rejection_logged.
  - rewrite Htr, !console_errors_app, !length_app, console_errors_rejections.
    simpl. rewrite console_errors_app, console_errors_close_events, app_nil_r.
    destruct (cleanupTimer st), settled; simpl; lia.
Qed.

Lemma C3_shutdown_witness :
  let st := Examples.eight_sessions in
  let begun := state_after cleanup_begin st in
  let r := cleanup Examples.settles_rejected Examples.settles_rejected
             (ExecOk EmptyString) st in
  let settled :=
    all_settled Examples.settles_rejected Examples.settles_rejected (close_calls st) in
  (browser_closes (trace begun) = browser_closes (trace st) ++ browser_handles st /\
   app_closes (trace begun) = app_closes (trace st) ++ app_handles st) /\
  (browser_closes (trace (snd r)) = browser_closes (trace begun) /\
   app_closes (trace (snd r)) = app_closes (trace begun)) /\
  fst r = Normal settled /\
  count (ProcessExit 0) (trace (snd r)) =
    count (ProcessExit 0) (trace st) + (if settled then 1 else 0) /\
  (settled = true <->
   forall c, In c (close_calls st) ->
     settlement Examples.settles_rejected Examples.settles_rejected c <> Pending) /\
  (forall c e,
     In c (close_calls st) ->
     settlement Examples.settles_rejected Examples.settles_rejected c =
       Settled (Thrown e) ->
     In (ConsoleError (rejection_message c e)) (trace (snd r))) /\
  List.length (console_errors (trace (snd r))) =
    List.length (console_errors (trace st)) + 1 +
    List.length (filter (rejects Examples.settles_rejected Examples.settles_rejected)
                   (close_calls st)) +
    (if settled then 1 else 0).
Proof.
  apply (C3_shutdown_starts_all_closes_then_waits_for_all
           Examples.settles_rejected Examples.settles_rejected (ExecOk EmptyString)
           Examples.eight_sessions).
  reflexivity.
Defined.

(** C3 as stated fails: when the close call of browser 1 never settles, the
    shutdown does not reach [process.exit]; all nine close calls were
    started all the same. *)
Lemma C3_counterexample :
  let st := Examples.eight_sessions in
  let r := cleanup Examples.first_hangs Examples.first_hangs (ExecOk EmptyString) st in
  ~ (fst r = Normal true) /\
  count (ProcessExit 0) (trace (snd r)) = 0 /\
  browser_closes (trace (snd r)) = [1; 2; 3; 4; 5; 6; 7; 8] /\
  app_closes (trace (snd r)) = [9].
Proof.
  vm_compute. repeat split. discriminate.
Qed.



(** * Further properties *)

(** ** The idle sweep as a whole *)

Lemma wf_filter {V} (p : string * V -> bool) (m : JsMap.t V) :
  JsMap.wf m -> JsMap.wf (filter p m).
Proof.
  unfold JsMap.wf, JsMap.keys.
  induction m as [|e m IH]; simpl; intros Hwf; [constructor|].
  inversion Hwf as [|? ? Hnotin Hnd]; subst.
  destruct (p e); simpl; [|now apply IH].
  constructor; [|now apply IH].
  intros Hin. apply Hnotin.
  apply in_map_iff in Hin as (x & Hx & Hin). apply filter_In in Hin as [Hin _].
  rewrite <- Hx. now apply in_map.
Qed.

Lemma filter_key_not_in_self {V} (sel : string * V -> bool) (m : JsMap.t V) :
  JsMap.wf m ->
  filter (key_not_in fst sel m) m = filter (fun e => negb (sel e)) m.
Proof.
  intros Hwf. apply filter_ext_in. intros [k v] Hin.
  unfold key_not_in. f_equal.
  change (fst (k, v)) with k.
  apply existsb_selected_key; [exact Hwf|].
  now apply JsMapFacts.In_get.
Qed.

Lemma cleanupInactiveBrowser_closes bc T now e st :
  browser_closes (trace (snd (cleanupInactiveBrowser bc T now e st))) =
  browser_closes (trace st) ++
  (if idle_browser T now e then [browser (snd e)] else []) /\
  app_closes (trace (snd (cleanupInactiveBrowser bc T now e st))) =
  app_closes (trace st).
Proof.
  destruct e as [id s]. unfold cleanupInactiveBrowser, idle_browser. simpl snd. 
  destruct (_ >? _)%Z; [|now rewrite app_nil_r].
  unfold await_browser_close, sessions_delete. run_m.
  destruct (bc (browser s)); proj_simpl;
    rewrite !browser_closes_app, !app_closes_app; simpl;
    rewrite ?app_nil_r; auto.
Qed.

Lemma cleanupInactiveElectron_closes ac T now e st :
  browser_closes (trace (snd (cleanupInactiveElectron ac T now e st))) =
  browser_closes (trace st) /\
  app_closes (trace (snd (cleanupInactiveElectron ac T now e st))) =
  app_closes (trace st) ++
  (if idle_electron T now e then [app (snd e)] else []).
Proof.
  destruct e as [id s]. unfold cleanupInactiveElectron, idle_electron. simpl snd.
  destruct (_ >? _)%Z; [|now rewrite app_nil_r].
  unfold await_app_close, electronSessions_delete. run_m.
  destruct (ac (app s)); proj_simpl;
    rewrite !browser_closes_app, !app_closes_app; simpl;
    rewrite ?app_nil_r; auto.
Qed.

Lemma fold_cleanupInactiveBrowser_closes bc T now l :
  forall st,
    let st' := fold_left (fun s e => snd (cleanupInactiveBrowser bc T now e s)) l st in
    browser_closes (trace st') =
      browser_closes (trace st) ++
      map (fun e => browser (snd e)) (filter (idle_browser T now) l) /\
    app_closes (trace st') = app_closes (trace st).
Proof.
  induction l as [|e l IH]; intros st; simpl.
  - now rewrite app_nil_r.
  - destruct (IH (snd (cleanupInactiveBrowser bc T now e st))) as [Hb Ha].
    destruct (cleanupInactiveBrowser_closes bc T now e st) as [Hb1 Ha1].
    cbv zeta in *. rewrite Hb, Ha, Hb1, Ha1. split; [|reflexivity].
    destruct (idle_browser T now e); simpl; now rewrite <- ?app_assoc, ?app_nil_r.
Qed.

Lemma fold_cleanupInactiveElectron_closes ac T now l :
  forall st,
    let st' := fold_left (fun s e => snd (cleanupInactiveElectron ac T now e s)) l st in
    browser_closes (trace st') = browser_closes (trace st) /\
    app_closes (trace st') =
      app_closes (trace st) ++
      map (fun e => app (snd e)) (filter (idle_electron T now) l).
Proof.
  induction l as [|e l IH]; intros st; simpl.
  - now rewrite app_nil_r.
  - destruct (IH (snd (cleanupInactiveElectron ac T now e st))) as [Hb Ha].
    destruct (cleanupInactiveElectron_closes ac T now e st) as [Hb1 Ha1].
    cbv zeta in *. rewrite Hb, Ha, Hb1, Ha1. split; [reflexivity|].
    destruct (idle_electron T now e); simpl; now rewrite <- ?app_assoc, ?app_nil_r.
Qed.

(** The registries and the close calls after one idle sweep. *)
Lemma idle_sweep_result bc ac T now st :
  JsMap.wf (sessions st) ->
  JsMap.wf (electronSessions st) ->
  let st' := state_after (cleanupInactiveSessions_with bc ac T now) st in
  sessions st' = filter (fun e => negb (idle_browser T now e)) (sessions st) /\
  electronSessions st' =
    filter (fun e => negb (idle_electron T now e)) (electronSessions st) /\
  browser_closes (trace st') =
    browser_closes (trace st) ++
    map (fun e => browser (snd e)) (filter (idle_browser T now) (sessions st)) /\
  app_closes (trace st') =
    app_closes (trace st) ++
    map (fun e => app (snd e)) (filter (idle_electron T now) (electronSessions st)).
Proof.
  intros Hwf Hwfe st'. subst st'. unfold state_after.
  rewrite cleanupInactiveSessions_with_run. cbn [snd]. cbv zeta.
  set (st1 := fold_left _ (sessions st) st).
  assert (Hs1 : sessions st1 = filter (fun e => negb (idle_browser T now e)) (sessions st)).
  { subst st1.
    rewrite (proj_fold_delete sessions _ fst (idle_browser T now))
      by (intros; apply cleanupInactiveBrowser_sessions).
    now apply filter_key_not_in_self. }
  assert (He1 : electronSessions st1 = electronSessions st).
  { subst st1. apply (fold_left_preserves _ electronSessions).
    intros; apply cleanupInactiveBrowser_electron. }
  destruct (fold_cleanupInactiveBrowser_closes bc T now (sessions st) st) as [Hb1 Ha1].
  cbv zeta in Hb1, Ha1. fold st1 in Hb1, Ha1.
  destruct (fold_cleanupInactiveElectron_closes ac T now (electronSessions st1) st1)
    as [Hb2 Ha2].
  cbv zeta in Hb2, Ha2.
  split; [|split; [|split]].
  - rewrite (fold_left_preserves _ sessions)
      by (intros; apply cleanupInactiveElectron_sessions).
    exact Hs1.
  - rewrite (proj_fold_delete electronSessions _ fst (idle_electron T now))
      by (intros; apply cleanupInactiveElectron_electron).
    rewrite He1. now apply filter_key_not_in_self.
  - now rewrite Hb2, Hb1.
  - now rewrite Ha2, Ha1, He1.
Qed.

(** X1. One idle sweep keeps exactly the sessions that are not idle, in
    their registry order, and calls [close()] once on each idle browser and
    on each idle application, in registry order, and on nothing else. *)
Theorem X1_idle_sweep_filters_and_closes_once :
  forall (driver_browser_close driver_app_close : Handle -> Completion unit)
         (TIMEOUT now : Z) (st : Server),
    JsMap.wf (sessions st) ->
    JsMap.wf (electronSessions st) ->
    let st' :=
      state_after
        (cleanupInactiveSessions_with driver_browser_close driver_app_close TIMEOUT now)
        st in
    sessions st' = filter (fun e => negb (idle_browser TIMEOUT now e)) (sessions st) /\
    electronSessions st' =
      filter (fun e => negb (idle_electron TIMEOUT now e)) (electronSessions st) /\
    browser_closes (trace st') =
      browser_closes (trace st) ++
      map (fun e => browser (snd e)) (filter (idle_browser TIMEOUT now) (sessions st)) /\
    app_closes (trace st') =
      app_closes (trace st) ++
      map (fun e => app (snd e))
        (filter (idle_electron TIMEOUT now) (electronSessions st)).
Proof.
  intros bc ac T now st. apply idle_sweep_result.
Qed.

Lemma X1_idle_sweep_witness :
  let st' :=
    state_after
      (cleanupInactiveSessions_with Examples.close_rejects Examples.close_ok 500 1200)
      Examples.idle_and_busy in
  sessions st' =
    filter (fun e => negb (idle_browser 500 1200 e)) (sessions Examples.idle_and_busy) /\
  electronSessions st' =
    filter (fun e => negb (idle_electron 500 1200 e))
      (electronSessions Examples.idle_and_busy) /\
  browser_closes (trace st') =
    browser_closes (trace Examples.idle_and_busy) ++
    map (fun e => browser (snd e))
      (filter (idle_browser 500 1200) (sessions Examples.idle_and_busy)) /\
  app_closes (trace st') =
    app_closes (trace Examples.idle_and_busy) ++
    map (fun e => app (snd e))
      (filter (idle_electron 500 1200) (electronSessions Examples.idle_and_busy)).
Proof.
  apply (X1_idle_sweep_filters_and_closes_once
           Examples.close_rejects Examples.close_ok 500 1200 Examples.idle_and_busy);
    solve_wf.
Defined.

Lemma filter_filter {A} (p q : A -> bool) (l : list A) :
  (forall x, In x l -> p x = true -> q x = true) ->
  filter q (filter p l) = filter p l.
Proof.
  intros H. apply filter_all. intros x Hx.
  apply filter_In in Hx as [Hin Hp]. now apply H.
Qed.

(** X2. A second idle sweep at a clock value that is not later than the
    first changes neither registry and closes nothing. *)
Theorem X2_second_idle_sweep_does_nothing :
  forall (bc ac bc' ac' : Handle -> Completion unit) (TIMEOUT now now' : Z)
         (st : Server),
    JsMap.wf (sessions st) ->
    JsMap.wf (electronSessions st) ->
    (now' <= now)%Z ->
    let st1 := state_after (cleanupInactiveSessions_with bc ac TIMEOUT now) st in
    let st2 := state_after (cleanupInactiveSessions_with bc' ac' TIMEOUT now') st1 in
    sessions st2 = sessions st1 /\
    electronSessions st2 = electronSessions st1 /\
    browser_closes (trace st2) = browser_closes (trace st1) /\
    app_closes (trace st2) = app_closes (trace st1).
Proof.
  intros bc ac bc' ac' T now now' st Hwf Hwfe Hle st1 st2.
  destruct (idle_sweep_result bc ac T now st Hwf Hwfe) as (Hs1 & He1 & _ & _).
  fold st1 in Hs1, He1.
  assert (Hwf1 : JsMap.wf (sessions st1)) by (rewrite Hs1; now apply wf_filter).
  assert (Hwfe1 : JsMap.wf (electronSessions st1)) by (rewrite He1; now apply wf_filter).
  destruct (idle_sweep_result bc' ac' T now' st1 Hwf1 Hwfe1) as (Hs2 & He2 & Hb2 & Ha2).
  fold st2 in Hs2, He2, Hb2, Ha2.
  assert (Hnb : forall e, In e (sessions st1) -> idle_browser T now' e = false).
  { intros e He. rewrite Hs1 in He. apply filter_In in He as [_ Hn].
    apply negb_true_iff in Hn. unfold idle_browser in *.
    rewrite Z.gtb_ltb. apply Z.ltb_ge.
    rewrite Z.gtb_ltb in Hn. apply Z.ltb_ge in Hn. lia. }
  assert (Hne : forall e, In e (electronSessions st1) -> idle_electron T now' e = false).
  { intros e He. rewrite He1 in He. apply filter_In in He as [_ Hn].
    apply negb_true_iff in Hn. unfold idle_electron in *.
    rewrite Z.gtb_ltb. apply Z.ltb_ge.
    rewrite Z.gtb_ltb in Hn. apply Z.ltb_ge in Hn. lia. }
  split; [|split; [|split]].
  - rewrite Hs2. apply filter_all. intros e He. now rewrite Hnb.
  - rewrite He2. apply filter_all. intros e He. now rewrite Hne.
  - rewrite Hb2, (filter_none _ _ Hnb). simpl. apply app_nil_r.
  - rewrite Ha2, (filter_none _ _ Hne). simpl. apply app_nil_r.
Qed.

Lemma X2_second_idle_sweep_witness :
  let st1 :=
    state_after
      (cleanupInactiveSessions_with Examples.close_rejects Examples.close_ok 500 1200)
      Examples.idle_and_busy in
  let st2 :=
    state_after
      (cleanupInactiveSessions_with Examples.close_ok Examples.close_ok 500 1100) st1 in
  sessions st2 = sessions st1 /\
  electronSessions st2 = electronSessions st1 /\
  browser_closes (trace st2) = browser_closes (trace st1) /\
  app_closes (trace st2) = app_closes (trace st1).
Proof.
  apply (X2_second_idle_sweep_does_nothing
           Examples.close_rejects Examples.close_ok Examples.close_ok Examples.close_ok
           500 1200 1100 Examples.idle_and_busy); [solve_wf|solve_wf|lia].
Defined.

(** ** Activity and the idle sweep *)

Lemma keys_touchSessions id now m :
  JsMap.keys (touchSessions id now m) = JsMap.keys m.
Proof.
  unfold touchSessions. destruct (JsMap.get id m) eqn:E; [|reflexivity].
  now apply JsMapFacts.keys_set_present with b.
Qed.

Lemma keys_touchElectronSessions id now m :
  JsMap.keys (touchElectronSessions id now m) = JsMap.keys m.
Proof.
  unfold touchElectronSessions. destruct (JsMap.get id m) eqn:E; [|reflexivity].
  now apply JsMapFacts.keys_set_present with e.
Qed.

Lemma get_touchSessions_other id id' now m :
  id <> id' -> JsMap.get id' (touchSessions id now m) = JsMap.get id' m.
Proof.
  intros Hne. unfold touchSessions. destruct (JsMap.get id m); [|reflexivity].
  now apply JsMapFacts.get_set_other.
Qed.

Lemma get_touchElectronSessions_other id id' now m :
  id <> id' ->
  JsMap.get id' (touchElectronSessions id now m) = JsMap.get id' m.
Proof.
  intros Hne. unfold touchElectronSessions. destruct (JsMap.get id m); [|reflexivity].
  now apply JsMapFacts.get_set_other.
Qed.

(** X3. A session whose activity was refreshed at time [t] survives every
    idle sweep run at a time [now] with [now - t <= SESSION_TIMEOUT], with
    [lastActivity = t] and nothing else changed; this holds for a browser
    session and for an electron session. *)
Theorem X3_refreshed_session_survives_idle_sweep :
  forall (bc ac : Handle -> Completion unit) (st : Server) (id : string) (t now : Z),
    JsMap.wf (sessions st) ->
    JsMap.wf (electronSessions st) ->
    (now - t <= SESSION_TIMEOUT)%Z ->
    let st1 := state_after (updateSessionActivity id t) st in
    let st2 := state_after (cleanupInactiveSessions bc ac now) st1 in
    (forall s, JsMap.get id (sessions st) = Some s ->
               JsMap.get id (sessions st2) = Some (set_lastActivity t s)) /\
    (forall s, JsMap.get id (electronSessions st) = Some s ->
               JsMap.get id (electronSessions st2) = Some (set_e_lastActivity t s)).
Proof.
  intros bc ac st id t now Hwf Hwfe Hle st1 st2.
  assert (Hst1 : st1 =
            {| sessions := touchSessions id t (sessions st);
               electronSessions := touchElectronSessions id t (electronSessions st);
               cleanupTimer := cleanupTimer st;
               isShuttingDown := isShuttingDown st;
               trace := trace st |})
    by (subst st1; unfold state_after; now rewrite updateSessionActivity_run).
  assert (Hwf1 : JsMap.wf (sessions st1))
    by (rewrite Hst1; unfold JsMap.wf; cbn [sessions]; now rewrite keys_touchSessions).
  assert (Hwfe1 : JsMap.wf (electronSessions st1))
    by (rewrite Hst1; unfold JsMap.wf; cbn [electronSessions];
        now rewrite keys_touchElectronSessions).
  split; intros s Hget.
  - assert (Hget1 : JsMap.get id (sessions st1) = Some (set_lastActivity t s))
      by (rewrite Hst1; cbn [sessions]; now apply get_touchSessions).
    subst st2. unfold cleanupInactiveSessions.
    rewrite (cleanupInactiveSessions_with_browser bc ac SESSION_TIMEOUT now st1 id _
               Hwf1 Hget1).
    cbn [lastActivity set_lastActivity].
    destruct (Z.gtb_spec (now - t) SESSION_TIMEOUT); [lia|reflexivity].
  - assert (Hget1 : JsMap.get id (electronSessions st1) = Some (set_e_lastActivity t s))
      by (rewrite Hst1; cbn [electronSessions]; now apply get_touchElectronSessions).
    subst st2. unfold cleanupInactiveSessions.
    rewrite (cleanupInactiveSessions_with_electron bc ac SESSION_TIMEOUT now st1 id _
               Hwfe1 Hget1).
    cbn [e_lastActivity set_e_lastActivity].
    destruct (Z.gtb_spec (now - t) SESSION_TIMEOUT); [lia|reflexivity].
Qed.

Lemma X3_refreshed_session_witness :
  let st1 := state_after (updateSessionActivity "s1" 2000000) Examples.idle_and_busy in
  let st2 :=
    state_after (cleanupInactiveSessions Examples.close_ok Examples.close_ok 3000000) st1 in
  JsMap.get "s1" (sessions st2) =
    Some (set_lastActivity 2000000 (Examples.mkSession 1 0 0 [("main"%string, 7)])) /\
  JsMap.get "s2" (sessions st2) = None.
Proof.
  destruct (X3_refreshed_session_survives_idle_sweep
              Examples.close_ok Examples.close_ok Examples.idle_and_busy
              "s1" 2000000 3000000) as [Hb _]; [solve_wf|solve_wf|vm_compute; discriminate|].
  split; [|reflexivity].
  apply (Hb (Examples.mkSession 1 0 0 [("main"%string, 7)])). reflexivity.
Defined.

(** ** The memory check when there is nothing to do *)

(** X4. Unless the probe reads above [MAX_MEMORY_MB], the memory check
    returns normally, leaves both registries as they are and closes nothing:
    this covers a reading at or below the limit, an unreadable number and a
    failed [ps]. The same holds for any reading when the browser registry is
    empty. *)
Theorem X4_memory_check_without_pressure_is_a_no_op :
  forall (bc : Handle -> Completion unit) (ps : PsResult) (st : Server),
    (forall rss, ps = PsRss (Some rss) ->
                 (memoryMB rss <= inject_Z MAX_MEMORY_MB)%Q \/ sessions st = []) ->
    let c := checkMemoryUsage bc ps in
    result_of c st = Normal tt /\
    sessions (state_after c st) = sessions st /\
    electronSessions (state_after c st) = electronSessions st /\
    browser_closes (trace (state_after c st)) = browser_closes (trace st) /\
    app_closes (trace (state_after c st)) = app_closes (trace st).
Proof.
  intros bc ps st Hps c. subst c.
  cut (result_of (checkMemoryUsage bc ps) st = Normal tt /\
       sessions (state_after (checkMemoryUsage bc ps) st) = sessions st /\
       electronSessions (state_after (checkMemoryUsage bc ps) st) = electronSessions st /\
       browser_closes (trace (state_after (checkMemoryUsage bc ps) st)) =
         browser_closes (trace st)).
  { intros (H1 & H2 & H3 & H4). repeat split; try assumption.
    apply checkMemoryUsage_app_closes. }
  unfold result_of, state_after.
  rewrite checkMemoryUsage_run.
  destruct ps as [[rss|]|e].
  - destruct (memory_high rss) eqn:Hhigh.
    + destruct (Hps rss eq_refl) as [Hle|Hempty].
      * apply memory_high_spec in Hhigh. exfalso. now apply (Qlt_not_le _ _ Hhigh).
      * rewrite cleanupOldestSessions_run. destruct st as [ss es tm sd tr].
        proj_simpl. subst ss. simpl. rewrite browser_closes_app. simpl.
        now rewrite app_nil_r.
    + destruct st; proj_simpl. rewrite browser_closes_app. simpl.
      now rewrite app_nil_r.
  - destruct st; proj_simpl. rewrite browser_closes_app. simpl.
    now rewrite app_nil_r.
  - destruct st; proj_simpl. rewrite browser_closes_app. simpl.
    now rewrite app_nil_r.
Qed.

Lemma X4_memory_check_witness :
  let c := checkMemoryUsage Examples.close_rejects (PsRss (Some 2097152%Z)) in
  result_of c Examples.eight_sessions = Normal tt /\
  sessions (state_after c Examples.eight_sessions) = sessions Examples.eight_sessions /\
  electronSessions (state_after c Examples.eight_sessions) =
    electronSessions Examples.eight_sessions /\
  browser_closes (trace (state_after c Examples.eight_sessions)) =
    browser_closes (trace Examples.eight_sessions) /\
  app_closes (trace (state_after c Examples.eight_sessions)) =
    app_closes (trace Examples.eight_sessions).
Proof.
  apply (X4_memory_check_without_pressure_is_a_no_op
           Examples.close_rejects (PsRss (Some 2097152%Z)) Examples.eight_sessions).
  intros rss [= <-]. left. vm_compute. discriminate.
Defined.

(** ** One tick of the cleanup routine *)

Lemma checkMemoryUsage_normal bc ps st :
  fst (checkMemoryUsage bc ps st) = Normal tt.
Proof.
  rewrite checkMemoryUsage_run. destruct ps as [[rss|]|e]; try reflexivity.
  destruct (memory_high rss); [|reflexivity].
  now rewrite cleanupOldestSessions_run.
Qed.

Lemma cleanupOldestSessions_get_None bc st id :
  JsMap.get id (sessions st) = None ->
  JsMap.get id (sessions (snd (cleanupOldestSessions bc st))) = None.
Proof.
  intros Hnone. rewrite cleanupOldestSessions_run. cbn [snd].
  rewrite (get_fold_delete (A := Entry) sessions _ fst (fun _ => true))
    by (intros; apply closeOldSession_sessions).
  rewrite Hnone. now destruct (existsb _ _).
Qed.

Lemma checkMemoryUsage_get_None bc ps st id :
  JsMap.get id (sessions st) = None ->
  JsMap.get id (sessions (snd (checkMemoryUsage bc ps st))) = None.
Proof.
  intros Hnone. rewrite checkMemoryUsage_run.
  destruct ps as [[rss|]|e]; try exact Hnone.
  destruct (memory_high rss); [|exact Hnone].
  now apply cleanupOldestSessions_get_None.
Qed.

(** One tick, step by step. *)
Lemma cleanupTick_run bc ac now ps pgrep pkill st :
  cleanupTick bc ac now ps pgrep pkill st =
  (Normal tt,
   snd (cleanupZombieProcesses pgrep pkill
          (snd (checkMemoryUsage bc ps
                  (snd (cleanupInactiveSessions bc ac now st)))))).
Proof.
  unfold cleanupTick. unfold bind at 1.
  unfold cleanupInactiveSessions at 1.
  rewrite cleanupInactiveSessions_with_run.
  unfold bind at 1.
  pose proof (checkMemoryUsage_normal bc ps
                (snd (cleanupInactiveSessions bc ac now st))) as Hn.
  unfold cleanupInactiveSessions in *.
  rewrite cleanupInactiveSessions_with_run in *. cbn [snd] in *.
  destruct (checkMemoryUsage bc ps _) as [r st2]. cbn [fst snd] in *. subst r.
  now rewrite cleanupZombieProcesses_run.
Qed.

(** X5. One tick of the cleanup routine in which every [close()] call
    settles, by resolving or by rejecting, returns normally: no rejected
    [close()] and no failure of [ps], [pgrep] or [pkill] gets out of it.
    After it, no session that was idle at the clock value of the tick is
    left in either registry, and the electron registry is what the idle
    sweep alone makes of it. (A [close()] that never settles is outside
    this statement: the tick then stays at its [await].) *)
Theorem X5_cleanup_tick_never_throws_and_evicts_idle :
  forall (bc ac : Handle -> Completion unit) (now : Z) (ps : PsResult)
         (pgrep pkill : ExecResult) (st : Server),
    let c := cleanupTick bc ac now ps pgrep pkill in
    result_of c st = Normal tt /\
    electronSessions (state_after c st) =
      electronSessions (state_after (cleanupInactiveSessions bc ac now) st) /\
    (forall id s,
       JsMap.get id (sessions st) = Some s ->
       (now - lastActivity s > SESSION_TIMEOUT)%Z ->
       JsMap.get id (sessions (state_after c st)) = None) /\
    (forall id s,
       JsMap.get id (electronSessions st) = Some s ->
       (now - e_lastActivity s > SESSION_TIMEOUT)%Z ->
       JsMap.get id (electronSessions (state_after c st)) = None).
Proof.
  intros bc ac now ps pgrep pkill st c. subst c.
  unfold result_of, state_after. rewrite cleanupTick_run. cbn [fst snd].
  set (st1 := snd (cleanupInactiveSessions bc ac now st)).
  set (st2 := snd (checkMemoryUsage bc ps st1)).
  assert (Hz : forall s0, sessions (snd (cleanupZombieProcesses pgrep pkill s0)) = sessions s0 /\
                          electronSessions (snd (cleanupZombieProcesses pgrep pkill s0)) =
                            electronSessions s0)
    by (intros s0; rewrite cleanupZombieProcesses_run; destruct s0; now proj_simpl).
  assert (He2 : electronSessions st2 = electronSessions st1)
    by (subst st2; apply (checkMemoryUsage_electron bc ps st1)).
  split; [reflexivity|]. split; [|split].
  - destruct (Hz st2) as [_ ->]. exact He2.
  - intros id s Hget Hidle. destruct (Hz st2) as [-> _].
    subst st2. apply checkMemoryUsage_get_None.
    now apply (idle_browser_removed bc ac SESSION_TIMEOUT now st id s).
  - intros id s Hget Hidle. destruct (Hz st2) as [_ ->]. rewrite He2.
    now apply (idle_electron_removed bc ac SESSION_TIMEOUT now st id s).
Qed.

Lemma X5_cleanup_tick_witness :
  let c := cleanupTick Examples.close_rejects Examples.close_rejects 1800001
             (PsError "ps: not found") (ExecError "pgrep: not found")
             (ExecError "pkill: not found") in
  result_of c Examples.idle_and_busy = Normal tt /\
  JsMap.get "s1" (sessions (state_after c Examples.idle_and_busy)) = None /\
  JsMap.get "e1" (electronSessions (state_after c Examples.idle_and_busy)) = None.
Proof.
  destruct (X5_cleanup_tick_never_throws_and_evicts_idle
              Examples.close_rejects Examples.close_rejects 1800001
              (PsError "ps: not found") (ExecError "pgrep: not found")
              (ExecError "pkill: not found") Examples.idle_and_busy)
    as (Hr & _ & Hb & He).
  split; [exact Hr|]. split.
  - apply (Hb "s1"%string (Examples.mkSession 1 0 0 [("main"%string, 7)]));
      [reflexivity|vm_compute; reflexivity].
  - apply (He "e1"%string (Examples.mkElectron 3 0 0));
      [reflexivity|vm_compute; reflexivity].
Defined.

(** ** Launching and closing browser sessions *)

Lemma touchSessions_absent id now m :
  JsMap.get id m = None -> touchSessions id now m = m.
Proof. intros H. unfold touchSessions. now rewrite H. Qed.

Lemma touchElectronSessions_absent id now m :
  JsMap.get id m = None -> touchElectronSessions id now m = m.
Proof. intros H. unfold touchElectronSessions. now rewrite H. Qed.

Lemma set_absent {V} k (v : V) (m : JsMap.t V) :
  JsMap.get k m = None -> JsMap.set k v m = m ++ [(k, v)].
Proof.
  induction m as [|[k' v'] m IH]; simpl; [reflexivity|].
  destruct (String.eqb k k'); [discriminate|].
  intros H. now rewrite IH.
Qed.

(** [launchBrowser] when one of the driver calls rejects. *)
Lemma launchBrowser_fails id headless w st e :
  JsMap.get id (sessions st) = None ->
  launch_error w = Some e ->
  exists st',
    launchBrowser id headless w st = (Thrown e, st') /\
    sessions st' = sessions st /\
    electronSessions st' = electronSessions st /\
    stream_ends (trace st') = stream_ends (trace st) /\
    browser_closes (trace st') = browser_closes (trace st).
Proof.
  intros Hnone Herr. destruct st as [ss es tm sd tr]. proj_simpl.
  apply JsMapFacts.has_false in Hnone as Hhas.
  unfold launchBrowser, launch_error in *. run_m. proj_simpl. rewrite Hhas.
  destruct (chromium_launch w) as [b|e1].
  - destruct (browser_newContext w) as [c|e2].
    + destruct (context_newPage w) as [p|e3]; [discriminate|].
      injection Herr as ->. eexists. split; [reflexivity|]. proj_simpl.
      rewrite !stream_ends_app, !browser_closes_app. simpl.
      now rewrite !app_nil_r.
    + injection Herr as ->. eexists. split; [reflexivity|]. proj_simpl.
      rewrite !stream_ends_app, !browser_closes_app. simpl.
      now rewrite !app_nil_r.
  - injection Herr as ->. eexists. split; [reflexivity|]. proj_simpl.
    rewrite !stream_ends_app, !browser_closes_app. simpl.
    now rewrite !app_nil_r.
Qed.

(** X6. When a driver call of the launch rejects, [browser_launch] answers
    with the error text instead of throwing, prints the error, and leaves
    the browser registry as it was: no entry is made for the identifier.
    A browser that was started before the rejection is not closed. *)
Theorem X6_failed_launch_registers_nothing :
  forall (id : string) (headless : bool) (now : Z) (w : LaunchWorld)
         (st : Server) (e : string),
    JsMap.get id (sessions st) = None ->
    launch_error w = Some e ->
    let r := tool_browser_launch id headless now w st in
    fst r = Normal ("Error: " ++ e)%string /\
    sessions (snd r) = sessions st /\
    browser_closes (trace (snd r)) = browser_closes (trace st) /\
    In (ConsoleError ("Tool browser_launch error: " ++ e)%string) (trace (snd r)).
Proof.
  intros id headless now w st e Hnone Herr r. subst r.
  unfold tool_browser_launch. rewrite callTool_run. cbv zeta.
  match goal with |- context [launchBrowser id headless w ?s0] =>
    destruct (launchBrowser_fails id headless w s0 e) as (st' & Hrun & Hs & _ & _ & Hb);
      [|exact Herr|]
  end.
  - destruct (Str.truthy id); [|exact Hnone].
    cbn [sessions]. now rewrite touchSessions_absent.
  - rewrite Hrun. destruct st' as [ss' es' tm' sd' tr']. proj_simpl.
    split; [reflexivity|]. split; [|split].
    + rewrite Hs. destruct (Str.truthy id); [|reflexivity].
      cbn [sessions]. now apply touchSessions_absent.
    + rewrite browser_closes_app, Hb. simpl. rewrite app_nil_r.
      now destruct (Str.truthy id).
    + apply in_or_app. right. now left.
Qed.

Lemma X6_failed_launch_witness :
  let w := {| chromium_launch := Normal 5;
              browser_newContext := Thrown "Target closed"%string;
              context_newPage := Normal 6;
              createWriteStream := 9;
              launch_now := 40 |} in
  let r := tool_browser_launch "s9" true 40 w Examples.idle_and_busy in
  fst r = Normal "Error: Target closed"%string /\
  sessions (snd r) = sessions Examples.idle_and_busy /\
  browser_closes (trace (snd r)) = browser_closes (trace Examples.idle_and_busy) /\
  In (ConsoleError "Tool browser_launch error: Target closed"%string) (trace (snd r)).
Proof.
  apply (X6_failed_launch_registers_nothing "s9" true 40
           {| chromium_launch := Normal 5;
              browser_newContext := Thrown "Target closed"%string;
              context_newPage := Normal 6;
              createWriteStream := 9;
              launch_now := 40 |}
           Examples.idle_and_busy "Target closed"); reflexivity.
Defined.

(** [launchBrowser] when the driver answers: the registry afterwards. *)
Lemma launchBrowser_appends id headless w st b c p :
  JsMap.get id (sessions st) = None ->
  chromium_launch w = Normal b ->
  browser_newContext w = Normal c ->
  context_newPage w = Normal p ->
  exists st',
    launchBrowser id headless w st =
      (Normal ("Browser launched with session ID: " ++ id ++
               " (headless: " ++ show_bool headless ++ ")")%string, st') /\
    sessions st' = sessions st ++ [(id, launched_session b c p w)] /\
    electronSessions st' = electronSessions st.
Proof.
  intros Hnone Hb Hc Hp. destruct st as [ss es tm sd tr]. proj_simpl.
  unfold launchBrowser, setupPageLogging. run_m. proj_simpl.
  apply JsMapFacts.has_false in Hnone as Hhas. rewrite Hhas.
  rewrite Hb, Hc, Hp. proj_simpl.
  rewrite JsMapFacts.get_set_same. proj_simpl.
  eexists. split; [reflexivity|]. proj_simpl. split; [|reflexivity].
  rewrite set_set_same. now apply set_absent.
Qed.

(** X7. A successful [browser_launch] of a new identifier puts the new
    session at the end of the registry's iteration order and leaves every
    other entry, and their order, as they were. *)
Theorem X7_launch_appends_session :
  forall (id : string) (headless : bool) (now : Z) (w : LaunchWorld)
         (st : Server) (b c p : Handle),
    JsMap.get id (sessions st) = None ->
    chromium_launch w = Normal b ->
    browser_newContext w = Normal c ->
    context_newPage w = Normal p ->
    let r := tool_browser_launch id headless now w st in
    fst r = Normal ("Browser launched with session ID: " ++ id ++
                    " (headless: " ++ show_bool headless ++ ")")%string /\
    sessions (snd r) = sessions st ++ [(id, launched_session b c p w)].
Proof.
  intros id headless now w st b c p Hnone Hb Hc Hp r. subst r.
  unfold tool_browser_launch. rewrite callTool_run. cbv zeta.
  match goal with |- context [launchBrowser id headless w ?s0] =>
    destruct (launchBrowser_appends id headless w s0 b c p) as (st' & Hrun & Hs & _);
      [|exact Hb|exact Hc|exact Hp|]
  end.
  - destruct (Str.truthy id); [|exact Hnone].
    cbn [sessions]. now rewrite touchSessions_absent.
  - rewrite Hrun. cbn [fst snd]. split; [reflexivity|].
    rewrite Hs. destruct (Str.truthy id); [|reflexivity].
    cbn [sessions]. now rewrite touchSessions_absent.
Qed.

Lemma X7_launch_appends_witness :
  let r := tool_browser_launch "s3" false 70 (Examples.launch_world 5 9 70)
             Examples.idle_and_busy in
  fst r = Normal "Browser launched with session ID: s3 (headless: false)"%string /\
  sessions (snd r) =
    sessions Examples.idle_and_busy ++
    [("s3"%string, launched_session 5 105 205 (Examples.launch_world 5 9 70))].
Proof.
  apply (X7_launch_appends_session "s3" false 70 (Examples.launch_world 5 9 70)
           Examples.idle_and_busy 5 105 205); reflexivity.
Defined.

(** X8. After [browser_close] of an existing session, a [browser_launch]
    with the same identifier succeeds and makes a new session whose
    [createdAt] and [lastActivity] are the time of that launch. *)
Theorem X8_close_then_launch_makes_a_new_session :
  forall (bc : Handle -> Completion unit) (id : string) (headless : bool)
         (now1 now2 : Z) (w : LaunchWorld) (st : Server) (s : BrowserSession)
         (b c p : Handle),
    JsMap.get id (sessions st) = Some s ->
    chromium_launch w = Normal b ->
    browser_newContext w = Normal c ->
    context_newPage w = Normal p ->
    let st1 := state_after (tool_browser_close bc id now1) st in
    let r := tool_browser_launch id headless now2 w st1 in
    fst r = Normal ("Browser launched with session ID: " ++ id ++
                    " (headless: " ++ show_bool headless ++ ")")%string /\
    JsMap.get id (sessions (snd r)) = Some (launched_session b c p w).
Proof.
  intros bc id headless now1 now2 w st s b c p Hget Hb Hc Hp st1 r.
  assert (Hnone : JsMap.get id (sessions st1) = None).
  { subst st1. unfold state_after. rewrite (tool_browser_close_run bc id now1 st s Hget).
    cbn [snd sessions]. apply JsMapFacts.get_delete_same. }
  destruct (tool_browser_launch_creates id headless now2 w st1 b c p Hnone Hb Hc Hp)
    as (st' & Hrun & Hs & _).
  subst r. rewrite Hrun. cbn [fst snd]. split; [reflexivity|exact Hs].
Qed.

Lemma X8_close_then_launch_witness :
  let st1 :=
    state_after (tool_browser_close Examples.close_rejects "s1" 10) Examples.launched in
  let r := tool_browser_launch "s1" true 20 (Examples.launch_world 2 8 20) st1 in
  fst r = Normal "Browser launched with session ID: s1 (headless: true)"%string /\
  JsMap.get "s1" (sessions (snd r)) =
    Some (launched_session 2 102 202 (Examples.launch_world 2 8 20)).
Proof.
  apply (X8_close_then_launch_makes_a_new_session Examples.close_rejects "s1" true
           10 20 (Examples.launch_world 2 8 20) Examples.launched
           (launched_session 1 101 201 (Examples.launch_world 1 7 0)) 2 102 202);
    reflexivity.
Defined.

Lemma closeBrowser_absent bc id st :
  JsMap.get id (sessions st) = None ->
  closeBrowser bc id st = (Normal ("Session " ++ id ++ " not found")%string, st).
Proof.
  intros Hnone. unfold closeBrowser. unfold bind at 1. unfold get_server at 1.
  now rewrite Hnone.
Qed.

Lemma closeElectron_absent ac id st :
  JsMap.get id (electronSessions st) = None ->
  closeElectron ac id st =
  (Normal ("Electron session " ++ id ++ " not found")%string, st).
Proof.
  intros Hnone. unfold closeElectron. unfold bind at 1. unfold get_server at 1.
  now rewrite Hnone.
Qed.

(** X9. [browser_close] and [electron_close] of an identifier that is not
    in their registry answer that the session was not found, call nothing
    outside the process and leave that registry as it is. *)
Theorem X9_close_of_absent_session_reports_not_found :
  forall (bc ac : Handle -> Completion unit) (id : string) (now : Z) (st : Server),
    (JsMap.get id (sessions st) = None ->
     let r := tool_browser_close bc id now st in
     fst r = Normal ("Session " ++ id ++ " not found")%string /\
     sessions (snd r) = sessions st /\
     trace (snd r) = trace st) /\
    (JsMap.get id (electronSessions st) = None ->
     let r := tool_electron_close ac id now st in
     fst r = Normal ("Electron session " ++ id ++ " not found")%string /\
     electronSessions (snd r) = electronSessions st /\
     trace (snd r) = trace st).
Proof.
  intros bc ac id now st. split; intros Hnone r; subst r.
  - unfold tool_browser_close. rewrite callTool_run. cbv zeta.
    destruct (Str.truthy id).
    + rewrite closeBrowser_absent
        by (cbn [sessions]; now rewrite touchSessions_absent).
      cbn [fst snd sessions trace]. split; [reflexivity|]. split; [|reflexivity].
      now apply touchSessions_absent.
    + rewrite closeBrowser_absent by exact Hnone. cbn [fst snd]. auto.
  - unfold tool_electron_close. rewrite callTool_run. cbv zeta.
    destruct (Str.truthy id).
    + rewrite closeElectron_absent
        by (cbn [electronSessions]; now rewrite touchElectronSessions_absent).
      cbn [fst snd electronSessions trace]. split; [reflexivity|]. split; [|reflexivity].
      now apply touchElectronSessions_absent.
    + rewrite closeElectron_absent by exact Hnone. cbn [fst snd]. auto.
Qed.

Lemma X9_close_of_absent_session_witness :
  (let r := tool_browser_close Examples.close_ok "e1" 10 Examples.idle_and_busy in
   fst r = Normal "Session e1 not found"%string /\
   sessions (snd r) = sessions Examples.idle_and_busy /\
   trace (snd r) = trace Examples.idle_and_busy) /\
  (let r := tool_electron_close Examples.close_ok "s1" 10 Examples.idle_and_busy in
   fst r = Normal "Electron session s1 not found"%string /\
   electronSessions (snd r) = electronSessions Examples.idle_and_busy /\
   trace (snd r) = trace Examples.idle_and_busy).
Proof.
  destruct (X9_close_of_absent_session_reports_not_found
              Examples.close_ok Examples.close_ok "e1" 10 Examples.idle_and_busy)
    as [Hb _].
  destruct (X9_close_of_absent_session_reports_not_found
              Examples.close_ok Examples.close_ok "s1" 10 Examples.idle_and_busy)
    as [_ He].
  split; [apply Hb|apply He]; reflexivity.
Defined.

(** ** Looking a page up *)

(** X10. After a successful [browser_launch] of a new identifier, [getPage]
    finds the page [main] of that session and changes nothing; any other
    page name fails with the message for a missing page, and an identifier
    that is not in the registry fails with the message for a missing
    session. *)
Theorem X10_getPage_after_launch :
  forall (id : string) (headless : bool) (now : Z) (w : LaunchWorld)
         (st : Server) (b c p : Handle),
    JsMap.get id (sessions st) = None ->
    chromium_launch w = Normal b ->
    browser_newContext w = Normal c ->
    context_newPage w = Normal p ->
    let st1 := state_after (tool_browser_launch id headless now w) st in
    getPage id "main" st1 = (Normal p, st1) /\
    (forall pageId,
       pageId <> "main"%string ->
       getPage id pageId st1 =
       (Thrown ("Page " ++ pageId ++ " not found in session " ++ id)%string, st1)) /\
    (forall id' pageId,
       JsMap.get id' (sessions st1) = None ->
       getPage id' pageId st1 =
       (Thrown ("Session " ++ id' ++ " not found")%string, st1)).
Proof.
  intros id headless now w st b c p Hnone Hb Hc Hp st1.
  destruct (tool_browser_launch_creates id headless now w st b c p Hnone Hb Hc Hp)
    as (st' & Hrun & Hs & _).
  assert (Hst1 : st1 = st') by (subst st1; unfold state_after; now rewrite Hrun).
  rewrite <- Hst1 in Hs. clearbody st1. clear Hrun Hst1 st'.
  split; [|split].
  - unfold getPage. unfold bind at 1. unfold get_server at 1. rewrite Hs.
    reflexivity.
  - intros pageId Hne. unfold getPage. unfold bind at 1. unfold get_server at 1.
    rewrite Hs. cbn [pages JsMap.get].
    destruct (String.eqb pageId "main") eqn:E; [|reflexivity].
    apply String.eqb_eq in E. contradiction.
  - intros id' pageId Hnone'. unfold getPage. unfold bind at 1.
    unfold get_server at 1. now rewrite Hnone'.
Qed.

Lemma X10_getPage_witness :
  let st1 := Examples.launched in
  getPage "s1" "main" st1 = (Normal 201, st1) /\
  getPage "s1" "popup" st1 =
    (Thrown "Page popup not found in session s1"%string, st1) /\
  getPage "s2" "main" st1 = (Thrown "Session s2 not found"%string, st1).
Proof.
  destruct (X10_getPage_after_launch "s1" true 0 (Examples.launch_world 1 7 0)
              initial 1 101 201) as (Hm & Hp & Hs); try reflexivity.
  split; [exact Hm|]. split.
  - apply Hp. discriminate.
  - apply Hs. reflexivity.
Defined.

(** ** Counting the processes listed by [pgrep] *)

Module StrFacts.
Import Str.
Local Open Scope string_scope.

Lemma trimStart_pid_line (s rest : string) :
  pid_line s = true -> trimStart (s ++ rest) = s ++ rest.
Proof.
  unfold pid_line. destruct s as [|c s]; simpl; [discriminate|].
  destruct (is_space c); simpl; [discriminate|reflexivity].
Qed.

Lemma trimEnd_nl (s : string) : trimEnd (s ++ nl) = trimEnd s.
Proof.
  induction s as [|c s IH]; simpl; [reflexivity|]. now rewrite IH.
Qed.

Lemma trimEnd_pid_line (s : string) : pid_line s = true -> trimEnd s = s.
Proof.
  unfold pid_line. induction s as [|c s IH]; simpl; [discriminate|].
  intros H. apply andb_prop in H as [Hc Hs]. apply negb_true_iff in Hc.
  destruct s as [|c' s'].
  - simpl. now rewrite Hc.
  - rewrite IH by exact Hs. reflexivity.
Qed.

Lemma trimEnd_prefix (u body : string) :
  trimEnd body = body -> body <> EmptyString -> trimEnd (u ++ body) = u ++ body.
Proof.
  intros Htrim Hne. induction u as [|c u IH]; simpl; [exact Htrim|].
  rewrite IH. destruct (u ++ body) eqn:E; [|reflexivity].
  destruct u; simpl in E; [contradiction|discriminate].
Qed.

Lemma split_lines_no_space (s : string) :
  no_space s = true -> split_lines s = [s].
Proof.
  induction s as [|c s IH]; simpl; [reflexivity|].
  intros H. apply andb_prop in H as [Hc Hs]. apply negb_true_iff in Hc.
  destruct (Ascii.eqb c (ascii_of_nat 10)) eqn:E.
  - apply Ascii.eqb_eq in E. subst c. discriminate.
  - now rewrite IH.
Qed.

Lemma split_lines_line (s rest : string) :
  no_space s = true ->
  split_lines (s ++ nl ++ rest) = s :: split_lines rest.
Proof.
  change (nl ++ rest) with (String (ascii_of_nat 10) rest).
  induction s as [|c s IH]; simpl; [reflexivity|].
  intros H. apply andb_prop in H as [Hc Hs]. apply negb_true_iff in Hc.
  destruct (Ascii.eqb c (ascii_of_nat 10)) eqn:E.
  - apply Ascii.eqb_eq in E. subst c. discriminate.
  - now rewrite (IH Hs).
Qed.

(** The lines of a listing, without the newline that ends the last one. *)
Lemma pgrep_output_lines (pid : string) (pids : list string) :
  Forall (fun s => pid_line s = true) (pid :: pids) ->
  exists body,
    pgrep_output (pid :: pids) = body ++ nl /\
    trimEnd body = body /\
    split_lines body = pid :: pids.
Proof.
  revert pid. induction pids as [|q pids IH]; intros pid Hall.
  - inversion Hall as [|? ? Hp _]; subst. exists pid. simpl.
    split; [reflexivity|]. split; [now apply trimEnd_pid_line|].
    apply split_lines_no_space. unfold pid_line in Hp.
    now apply andb_prop in Hp as [_ Hp].
  - inversion Hall as [|? ? Hp Hrest]; subst.
    destruct (IH q Hrest) as (body & Hout & Htrim & Hsplit).
    exists (pid ++ nl ++ body). split; [|split].
    + change (pgrep_output (pid :: q :: pids))
        with (pid ++ nl ++ pgrep_output (q :: pids)).
      rewrite Hout. now rewrite !RenderFacts.append_assoc.
    + rewrite <- RenderFacts.append_assoc.
      apply trimEnd_prefix; [exact Htrim|].
      intros ->. simpl in Hsplit. injection Hsplit as <- _.
      inversion Hrest as [|? ? Hq _]. discriminate.
    + rewrite split_lines_line; [now rewrite Hsplit|].
      unfold pid_line in Hp. now apply andb_prop in Hp as [_ Hp].
Qed.

End StrFacts.

(** X11. Counting is exact on what [pgrep] prints: for a listing of
    processes, one per line and each line ended by a newline, the parsed
    list is the list of the lines, so the final newline adds no entry; an
    empty output gives no entry at all. *)
Theorem X11_parsePids_reads_pgrep_output :
  forall pids : list string,
    Forall (fun s => pid_line s = true) pids ->
    parsePids (pgrep_output pids) = pids.
Proof.
  intros [|pid pids] Hall; [reflexivity|].
  destruct (StrFacts.pgrep_output_lines pid pids Hall) as (body & Hout & Htrim & Hsplit).
  unfold parsePids, Str.trim.
  inversion Hall as [|? ? Hp Hrest]; subst.
  change (pgrep_output (pid :: pids))
    with (pid ++ (nl ++ pgrep_output pids))%string at 1.
  rewrite (StrFacts.trimStart_pid_line pid _ Hp).
  change (pid ++ (nl ++ pgrep_output pids))%string with (pgrep_output (pid :: pids)).
  rewrite Hout, StrFacts.trimEnd_nl, Htrim, Hsplit.
  apply filter_all. intros s Hs.
  rewrite Forall_forall in Hall. specialize (Hall s Hs).
  unfold pid_line in Hall. now apply andb_prop in Hall as [Ht _].
Qed.

Lemma X11_parsePids_witness :
  parsePids (pgrep_output ["101"; "23"; "4567"]%string) = ["101"; "23"; "4567"]%string.
Proof.
  apply (X11_parsePids_reads_pgrep_output ["101"; "23"; "4567"]%string).
  repeat constructor.
Defined.

(** ** Rendering, action by action *)

Module RenderMore.
Import Render.
Local Open Scope string_scope.

Lemma append_nil_r (s : string) : s ++ EmptyString = s.
Proof. induction s as [|c s IH]; simpl; [reflexivity|now rewrite IH]. Qed.

Lemma actionSteps_acc (l : list TestAction) (indent format : string) :
  forall steps,
    actionSteps steps l indent format =
    steps ++ actionSteps EmptyString l indent format.
Proof.
  induction l as [|a l IH]; intros steps; simpl.
  - now rewrite append_nil_r.
  - rewrite IH, (IH (actionStep indent format a)).
    now rewrite RenderFacts.append_assoc.
Qed.

Lemma playwrightBody_acc (l : list TestAction) :
  forall body, playwrightBody body l = body ++ playwrightBody EmptyString l.
Proof.
  induction l as [|a l IH]; intros body; simpl.
  - now rewrite append_nil_r.
  - rewrite IH, (IH (playwrightStep a)).
    now rewrite RenderFacts.append_assoc.
Qed.

Lemma Contains_refl (s : string) : Contains s s.
Proof. exists EmptyString, EmptyString. simpl. now rewrite append_nil_r. Qed.

Lemma Contains_actionSteps (a : TestAction) (l : list TestAction) (indent format : string) :
  In a l ->
  Contains (actionStep indent format a) (actionSteps EmptyString l indent format).
Proof.
  induction l as [|b l IH]; simpl; intros Hin; [contradiction|].
  rewrite actionSteps_acc.
  destruct Hin as [->|Hin].
  - apply RenderFacts.Contains_append_l, Contains_refl.
  - apply RenderFacts.Contains_append_r. now apply IH.
Qed.

Lemma Contains_playwrightBody_step (a : TestAction) (l : list TestAction) :
  In a l -> Contains (playwrightStep a) (playwrightBody EmptyString l).
Proof.
  induction l as [|b l IH]; simpl; intros Hin; [contradiction|].
  rewrite playwrightBody_acc.
  destruct Hin as [->|Hin].
  - apply RenderFacts.Contains_append_l, Contains_refl.
  - apply RenderFacts.Contains_append_r. now apply IH.
Qed.

Lemma Contains_generatePlaywrightScript (a : TestAction) testName l md :
  In a l -> Contains (playwrightStep a) (generatePlaywrightScript testName l md).
Proof.
  intros Hin. unfold generatePlaywrightScript. cbv zeta.
  rewrite playwrightBody_acc.
  apply RenderFacts.Contains_append_r, RenderFacts.Contains_append_r.
  apply RenderFacts.Contains_append_l, RenderFacts.Contains_append_r.
  now apply Contains_playwrightBody_step.
Qed.

(** X12. The steps rendered for a sequence of actions are the steps of its
    first part followed by the steps of its second part, for either
    indentation and format. *)
Theorem X12_generateActionSteps_concatenates :
  forall (actions1 actions2 : list TestAction) (indent format : string),
    generateActionSteps (actions1 ++ actions2) indent format =
    generateActionSteps actions1 indent format ++
    generateActionSteps actions2 indent format.
Proof.
  intros l1 l2 indent format. unfold generateActionSteps.
  induction l1 as [|a l1 IH]; simpl; [reflexivity|].
  rewrite actionSteps_acc, (actionSteps_acc l1), IH.
  now rewrite RenderFacts.append_assoc.
Qed.

(** X13. Whatever format is asked for, the script of a recording contains,
    for each of its actions, the text that the renderer chosen for the
    format gives to that action: the steps of [generateActionSteps] for
    jest and mocha, and those of the Playwright renderer for playwright and
    for every other format name. *)
Theorem X13_script_contains_every_step :
  forall (recording : TestRecording) (testName format : string) (a : TestAction),
    In a (actions recording) ->
    Contains
      (if String.eqb format "jest" || String.eqb format "mocha"
       then actionStep "    " format a
       else playwrightStep a)
      (generateTestScript recording testName format).
Proof.
  intros r testName format a Hin. unfold generateTestScript.
  destruct (String.eqb format "playwright") eqn:Ep.
  - apply String.eqb_eq in Ep. subst format. simpl.
    now apply Contains_generatePlaywrightScript.
  - destruct (String.eqb format "jest") eqn:Ej.
    + apply String.eqb_eq in Ej. subst format. simpl orb. cbv iota.
      unfold generateJestScript, generateActionSteps.
      repeat match goal with
             | |- Contains _ (actionSteps _ _ _ _ ++ _) =>
                 apply RenderFacts.Contains_append_l; now apply Contains_actionSteps
             | |- Contains _ (_ ++ _) => apply RenderFacts.Contains_append_r
             end.
    + destruct (String.eqb format "mocha") eqn:Em.
      * apply String.eqb_eq in Em. subst format. simpl orb. cbv iota.
        unfold generateMochaScript, generateActionSteps.
        repeat match goal with
               | |- Contains _ (actionSteps _ _ _ _ ++ _) =>
                   apply RenderFacts.Contains_append_l; now apply Contains_actionSteps
               | |- Contains _ (_ ++ _) => apply RenderFacts.Contains_append_r
               end.
      * simpl. now apply Contains_generatePlaywrightScript.
Qed.

Lemma X13_script_contains_witness :
  Contains ("    await page.goto('https://example.com');" ++ nl)
    (generateTestScript (roundTripRecording "https://example.com") "t" "jest").
Proof.
  apply (X13_script_contains_every_step (roundTripRecording "https://example.com")
           "t" "jest" (navigateAction 1 "https://example.com")).
  simpl. now left.
Defined.

End RenderMore.

(** ** Closing everything *)

(** Unfolds the operations of the monad of tools. *)
Ltac run_h :=
  unfold hcall, writeFileSync, hmodify, hawait, hget, hret, hthrow, hbind,
    htry_catch, lift;
  cbn beta iota zeta delta [fst snd].

(** Reduces the projections of a host state. *)
Ltac hproj_simpl :=
  unfold with_server, with_recordings, with_files, with_calls in *;
  cbn [server recordings files calls fst snd] in *.

Lemma closeListedBrowser_run bc k v st :
  JsMap.get k (sessions st) = Some v ->
  closeListedBrowser bc k st =
  (Normal tt,
   with_trace
     (trace st ++
      BrowserClose (browser v) ::
      match bc (browser v) with
      | Normal _ => []
      | Thrown error =>
          [ConsoleError ("Error closing browser " ++ k ++ ": " ++ error)%string]
      end)
     st).
Proof.
  intros Hget. unfold closeListedBrowser. unfold bind at 1. unfold get_server at 1.
  rewrite Hget. unfold await_browser_close. run_m.
  destruct st. destruct (bc (browser v)) as [[]|e]; proj_simpl; now rewrite <- ?app_assoc.
Qed.

Lemma closeListedElectron_run ac k v st :
  JsMap.get k (electronSessions st) = Some v ->
  closeListedElectron ac k st =
  (Normal tt,
   with_trace
     (trace st ++
      AppClose (app v) ::
      match ac (app v) with
      | Normal _ => []
      | Thrown error =>
          [ConsoleError ("Error closing electron " ++ k ++ ": " ++ error)%string]
      end)
     st).
Proof.
  intros Hget. unfold closeListedElectron. unfold bind at 1. unfold get_server at 1.
  rewrite Hget. unfold await_app_close. run_m.
  destruct st. destruct (ac (app v)) as [[]|e]; proj_simpl; now rewrite <- ?app_assoc.
Qed.

Lemma closeAllBrowserSessions_spec bc (es : list (string * BrowserSession)) :
  forall st,
    (forall k v, In (k, v) es -> JsMap.get k (sessions st) = Some v) ->
    exists st',
      closeAllBrowserSessions bc (map fst es) st = (Normal tt, st') /\
      sessions st' = sessions st /\
      electronSessions st' = electronSessions st /\
      browser_closes (trace st') =
        browser_closes (trace st) ++ map (fun e => browser (snd e)) es /\
      app_closes (trace st') = app_closes (trace st) /\
      stream_ends (trace st') = stream_ends (trace st).
Proof.
  unfold closeAllBrowserSessions.
  induction es as [|[k v] es IH]; intros st Hget; simpl.
  - exists st. rewrite app_nil_r. unfold ret. repeat split.
  - unfold bind at 1. rewrite (closeListedBrowser_run bc k v st) by (apply Hget; now left).
    match goal with |- context [for_each _ _ ?s1] =>
      destruct (IH s1) as (st' & Hrun & Hs & He & Hb & Ha & Hse)
    end.
    { intros k' v' Hin. destruct st. proj_simpl. apply Hget. now right. }
    rewrite Hrun. exists st'. destruct st. proj_simpl.
    split; [reflexivity|]. split; [exact Hs|]. split; [exact He|].
    split; [|split].
    + rewrite Hb, browser_closes_app. simpl.
      destruct (bc (browser v)); simpl; now rewrite <- app_assoc.
    + rewrite Ha, app_closes_app. simpl.
      destruct (bc (browser v)); simpl; now rewrite app_nil_r.
    + rewrite Hse, stream_ends_app. simpl.
      destruct (bc (browser v)); simpl; now rewrite app_nil_r.
Qed.

Lemma closeAllElectronSessions_spec ac (es : list (string * ElectronSession)) :
  forall st,
    (forall k v, In (k, v) es -> JsMap.get k (electronSessions st) = Some v) ->
    exists st',
      closeAllElectronSessions ac (map fst es) st = (Normal tt, st') /\
      sessions st' = sessions st /\
      electronSessions st' = electronSessions st /\
      browser_closes (trace st') = browser_closes (trace st) /\
      app_closes (trace st') =
        app_closes (trace st) ++ map (fun e => app (snd e)) es /\
      stream_ends (trace st') = stream_ends (trace st).
Proof.
  unfold closeAllElectronSessions.
  induction es as [|[k v] es IH]; intros st Hget; simpl.
  - exists st. rewrite app_nil_r. unfold ret. repeat split.
  - unfold bind at 1. rewrite (closeListedElectron_run ac k v st) by (apply Hget; now left).
    match goal with |- context [for_each _ _ ?s1] =>
      destruct (IH s1) as (st' & Hrun & Hs & He & Hb & Ha & Hse)
    end.
    { intros k' v' Hin. destruct st. proj_simpl. apply Hget. now right. }
    rewrite Hrun. exists st'. destruct st. proj_simpl.
    split; [reflexivity|]. split; [exact Hs|]. split; [exact He|].
    split; [|split].
    + rewrite Hb, browser_closes_app. simpl.
      destruct (ac (app v)); simpl; now rewrite app_nil_r.
    + rewrite Ha, app_closes_app. simpl.
      destruct (ac (app v)); simpl; now rewrite <- app_assoc.
    + rewrite Hse, stream_ends_app. simpl.
      destruct (ac (app v)); simpl; now rewrite app_nil_r.
Qed.

(** [closeAllBrowsers] as one step. *)
Lemma closeAllBrowsers_run bc ac pkill h :
  JsMap.wf (sessions (server h)) ->
  JsMap.wf (electronSessions (server h)) ->
  exists st2,
    closeAllBrowsers bc ac pkill h =
    (Normal ("Closed " ++ show_nat (JsMap.size (sessions (server h))) ++
             " browser sessions and " ++
             show_nat (JsMap.size (electronSessions (server h))) ++
             " electron sessions. Cleaned up zombie processes.")%string,
     {| server := st2; recordings := recordings h; files := files h;
        calls := calls h ++ [PkillBrowsers] |}) /\
    sessions st2 = [] /\
    electronSessions st2 = [] /\
    browser_closes (trace st2) =
      browser_closes (trace (server h)) ++ browser_handles (server h) /\
    app_closes (trace st2) = app_closes (trace (server h)) ++ app_handles (server h) /\
    stream_ends (trace st2) = stream_ends (trace (server h)).
Proof.
  intros Hwf Hwfe. destruct h as [st recs fs cs]. hproj_simpl.
  destruct (closeAllBrowserSessions_spec bc (sessions st) st)
    as (st1 & Hrun1 & Hs1 & He1 & Hb1 & Ha1 & Hse1).
  { intros k v Hin. now apply JsMapFacts.In_get. }
  destruct (closeAllElectronSessions_spec ac (electronSessions st)
              (with_sessions JsMap.empty st1))
    as (st2 & Hrun2 & Hs2 & He2 & Hb2 & Ha2 & Hse2).
  { intros k v Hin. cbn [with_sessions electronSessions]. rewrite He1.
    now apply JsMapFacts.In_get. }
  exists (with_electronSessions JsMap.empty st2).
  split.
  - unfold closeAllBrowsers. run_h. hproj_simpl.
    unfold JsMap.keys. unfold bind at 1. rewrite Hrun1.
    unfold modify at 1. cbn [fst snd]. hproj_simpl.
    unfold bind at 1. fold (with_sessions JsMap.empty st1). rewrite Hrun2.
    unfold modify at 1. hproj_simpl.
    rewrite !length_map. unfold JsMap.size.
    destruct pkill; reflexivity.
  - cbn [with_electronSessions sessions electronSessions trace].
    rewrite Hs2, Hb2, Ha2, Hse2. cbn [with_sessions sessions trace].
    rewrite Hb1, Ha1, Hse1. unfold browser_handles, app_handles, JsMap.values.
    rewrite !map_map. repeat split.
Qed.

(** X14. When every [close()] call settles, by resolving or by rejecting,
    [closeAllBrowsers] returns normally, whether or not the closes and the
    [pkill] fail. It calls [close()] once on every browser and then once on
    every application, in registry order, empties both registries, issues
    one [pkill], and reports the numbers of sessions it found. It ends no
    log stream and leaves the recordings alone. (A [close()] that never
    settles is outside this statement: the tool then stays at its
    [await].) *)
Theorem X14_closeAllBrowsers_closes_all_and_clears :
  forall (bc ac : Handle -> Completion unit) (pkill : ExecResult) (h : Host),
    JsMap.wf (sessions (server h)) ->
    JsMap.wf (electronSessions (server h)) ->
    let r := closeAllBrowsers bc ac pkill h in
    fst r =
      Normal ("Closed " ++ show_nat (JsMap.size (sessions (server h))) ++
              " browser sessions and " ++
              show_nat (JsMap.size (electronSessions (server h))) ++
              " electron sessions. Cleaned up zombie processes.")%string /\
    sessions (server (snd r)) = [] /\
    electronSessions (server (snd r)) = [] /\
    browser_closes (trace (server (snd r))) =
      browser_closes (trace (server h)) ++ browser_handles (server h) /\
    app_closes (trace (server (snd r))) =
      app_closes (trace (server h)) ++ app_handles (server h) /\
    stream_ends (trace (server (snd r))) = stream_ends (trace (server h)) /\
    calls (snd r) = calls h ++ [PkillBrowsers] /\
    recordings (snd r) = recordings h.
Proof.
  intros bc ac pkill h Hwf Hwfe r. subst r.
  destruct (closeAllBrowsers_run bc ac pkill h Hwf Hwfe)
    as (st2 & Hrun & Hs & He & Hb & Ha & Hse).
  rewrite Hrun. cbn [fst snd server calls recordings].
  repeat split; assumption.
Qed.

Lemma X14_closeAllBrowsers_witness :
  let r := closeAllBrowsers Examples.close_rejects Examples.close_rejects
             (ExecError "pkill: not found") Scenarios.two_and_two in
  fst r =
    Normal "Closed 2 browser sessions and 2 electron sessions. Cleaned up zombie processes."%string /\
  sessions (server (snd r)) = [] /\
  electronSessions (server (snd r)) = [] /\
  browser_closes (trace (server (snd r))) = [1; 2] /\
  app_closes (trace (server (snd r))) = [3; 4] /\
  stream_ends (trace (server (snd r))) = [] /\
  calls (snd r) = [PkillBrowsers] /\
  recordings (snd r) = [].
Proof.
  apply (X14_closeAllBrowsers_closes_all_and_clears
           Examples.close_rejects Examples.close_rejects
           (ExecError "pkill: not found") Scenarios.two_and_two); solve_wf.
Defined.

(** ** Electron sessions *)

(** The request handler around a tool of the host. *)
Lemma hcallTool_run name id now (tool : H string) h :
  hcallTool name id now tool h =
  let h0 :=
    if Str.truthy id then
      with_server
        {| sessions := touchSessions id now (sessions (server h));
           electronSessions :=
             touchElectronSessions id now (electronSessions (server h));
           cleanupTimer := cleanupTimer (server h);
           isShuttingDown := isShuttingDown (server h);
           trace := trace (server h) |}
        h
    else h in
  match tool h0 with
  | (Normal a, h1) => (Normal a, h1)
  | (Thrown e, h1) =>
      (Normal ("Error: " ++ e)%string,
       with_server
         (with_trace
            (trace (server h1) ++
             [ConsoleError ("Tool " ++ name ++ " error: " ++ e)%string])
            (server h1))
         h1)
  end.
Proof.
  unfold hcallTool, htry_catch. unfold hbind at 1.
  destruct (Str.truthy id).
  - unfold lift at 1. rewrite updateSessionActivity_run. cbv zeta.
    destruct (tool _) as [[a|e] h1]; reflexivity.
  - unfold hret at 1. cbv zeta. destruct (tool h) as [[a|e] h1]; reflexivity.
Qed.

Lemma launchElectron_existing id path w h :
  JsMap.has id (electronSessions (server h)) = true ->
  launchElectron id path w h =
  (Normal ("Electron session " ++ id ++ " already exists")%string, h).
Proof.
  intros Hhas. unfold launchElectron. unfold hbind at 1. unfold hget at 1.
  now rewrite Hhas.
Qed.

Lemma launchElectron_rejected id path w h e :
  JsMap.get id (electronSessions (server h)) = None ->
  electron_launch w = Thrown e ->
  launchElectron id path w h =
  (Thrown e, with_calls (calls h ++ [ElectronLaunch path]) h).
Proof.
  intros Hnone Hl. apply JsMapFacts.has_false in Hnone.
  unfold launchElectron. run_h. rewrite Hnone, Hl. reflexivity.
Qed.

Lemma launchElectron_launched id path w h a :
  JsMap.get id (electronSessions (server h)) = None ->
  electron_launch w = Normal a ->
  launchElectron id path w h =
  (Normal ("Electron app launched with session " ++ id)%string,
   {| server :=
        with_electronSessions
          (electronSessions (server h) ++
           [(id, {| app := a;
                    mainWindow := match app_firstWindow w with
                                  | Normal win => Some win
                                  | Thrown _ => None
                                  end;
                    executablePath := path;
                    e_lastActivity := electron_now w;
                    e_createdAt := electron_now w |})])
          (server h);
      recordings := recordings h;
      files := files h;
      calls := calls h ++ [ElectronLaunch path; FirstWindow a] |}).
Proof.
  intros Hnone Hl. apply JsMapFacts.has_false in Hnone as Hhas.
  destruct h as [st recs fs cs]. hproj_simpl.
  unfold launchElectron. run_h. hproj_simpl. rewrite Hhas, Hl. hproj_simpl.
  unfold modify.
  destruct (app_firstWindow w); hproj_simpl;
    rewrite (set_absent _ _ _ Hnone), <- app_assoc; reflexivity.
Qed.

(** X15. [electron_launch] of a new identifier, once [electron.launch] has
    answered, registers the session at the end of the electron registry even
    when no first window can be obtained: the session then has no window. *)
Theorem X15_electron_launch_tolerates_missing_window :
  forall (id path : string) (now : Z) (w : ElectronWorld) (h : Host) (a : Handle),
    JsMap.get id (electronSessions (server h)) = None ->
    electron_launch w = Normal a ->
    let r := tool_electron_launch id path now w h in
    fst r = Normal ("Electron app launched with session " ++ id)%string /\
    electronSessions (server (snd r)) =
      electronSessions (server h) ++
      [(id, {| app := a;
               mainWindow := match app_firstWindow w with
                             | Normal win => Some win
                             | Thrown _ => None
                             end;
               executablePath := path;
               e_lastActivity := electron_now w;
               e_createdAt := electron_now w |})] /\
    calls (snd r) = calls h ++ [ElectronLaunch path; FirstWindow a].
Proof.
  intros id path now w h a Hnone Hl r. subst r.
  unfold tool_electron_launch. rewrite hcallTool_run. cbv zeta.
  destruct (Str.truthy id).
  - rewrite (launchElectron_launched id path w _ a);
      [|hproj_simpl; cbn [electronSessions];
        now rewrite touchElectronSessions_absent|exact Hl].
    hproj_simpl. cbn [with_electronSessions electronSessions].
    now rewrite touchElectronSessions_absent.
  - rewrite (launchElectron_launched id path w h a Hnone Hl).
    hproj_simpl. cbn [with_electronSessions electronSessions]. auto.
Qed.

Lemma X15_electron_launch_witness :
  let r := tool_electron_launch "app2" "/opt/app/electron" 500 Scenarios.windowless
             Scenarios.two_and_two in
  fst r = Normal "Electron app launched with session app2"%string /\
  electronSessions (server (snd r)) =
    electronSessions (server Scenarios.two_and_two) ++
    [("app2"%string,
      {| app := 40; mainWindow := None; executablePath := "/opt/app/electron";
         e_lastActivity := 500; e_createdAt := 500 |})] /\
  calls (snd r) = [ElectronLaunch "/opt/app/electron"; FirstWindow 40].
Proof.
  apply (X15_electron_launch_tolerates_missing_window "app2" "/opt/app/electron" 500
           Scenarios.windowless Scenarios.two_and_two 40); reflexivity.
Defined.

(** X16. [electron_launch] registers nothing when it cannot: for an
    identifier already in the electron registry it answers that the session
    exists and calls nothing outside the process; when [electron.launch]
    rejects it answers with the error text and the electron registry is as
    before. *)
Theorem X16_electron_launch_refused_or_failed :
  forall (id path : string) (now : Z) (w : ElectronWorld) (h : Host),
    (forall s,
       JsMap.get id (electronSessions (server h)) = Some s ->
       let r := tool_electron_launch id path now w h in
       fst r = Normal ("Electron session " ++ id ++ " already exists")%string /\
       calls (snd r) = calls h /\
       trace (server (snd r)) = trace (server h) /\
       JsMap.keys (electronSessions (server (snd r))) =
         JsMap.keys (electronSessions (server h))) /\
    (forall e,
       JsMap.get id (electronSessions (server h)) = None ->
       electron_launch w = Thrown e ->
       let r := tool_electron_launch id path now w h in
       fst r = Normal ("Error: " ++ e)%string /\
       electronSessions (server (snd r)) = electronSessions (server h)).
Proof.
  intros id path now w h. split.
  - intros s Hget r. subst r.
    unfold tool_electron_launch. rewrite hcallTool_run. cbv zeta.
    destruct (Str.truthy id).
    + rewrite launchElectron_existing.
      * hproj_simpl. cbn [electronSessions trace].
        rewrite keys_touchElectronSessions. auto.
      * hproj_simpl. cbn [electronSessions]. apply JsMapFacts.has_true.
        eexists. apply get_touchElectronSessions. exact Hget.
    + rewrite launchElectron_existing; [auto|].
      apply JsMapFacts.has_true. eauto.
  - intros e Hnone Hl r. subst r.
    unfold tool_electron_launch. rewrite hcallTool_run. cbv zeta.
    destruct (Str.truthy id).
    + rewrite (launchElectron_rejected id path w _ e);
        [|hproj_simpl; cbn [electronSessions];
          now rewrite touchElectronSessions_absent|exact Hl].
      hproj_simpl. cbn [with_trace electronSessions].
      split; [reflexivity|]. now apply touchElectronSessions_absent.
    + rewrite (launchElectron_rejected id path w h e Hnone Hl).
      hproj_simpl. cbn [with_trace electronSessions]. auto.
Qed.

Lemma X16_electron_launch_witness :
  (let r := tool_electron_launch "e1" "/opt/app/electron" 500 Scenarios.windowless
              Scenarios.two_and_two in
   fst r = Normal "Electron session e1 already exists"%string /\
   calls (snd r) = [] /\
   trace (server (snd r)) = [] /\
   JsMap.keys (electronSessions (server (snd r))) = ["e1"; "e2"]%string) /\
  (let w := {| electron_launch := Thrown "spawn ENOENT"%string;
               app_firstWindow := Normal 41;
               electron_now := 500 |} in
   let r := tool_electron_launch "app2" "/missing" 500 w Scenarios.two_and_two in
   fst r = Normal "Error: spawn ENOENT"%string /\
   electronSessions (server (snd r)) = electronSessions (server Scenarios.two_and_two)).
Proof.
  split.
  - destruct (X16_electron_launch_refused_or_failed "e1" "/opt/app/electron" 500
                Scenarios.windowless Scenarios.two_and_two) as [H1 _].
    apply (H1 (Examples.mkElectron 3 0 0)). reflexivity.
  - destruct (X16_electron_launch_refused_or_failed "app2" "/missing" 500
                {| electron_launch := Thrown "spawn ENOENT"%string;
                   app_firstWindow := Normal 41;
                   electron_now := 500 |}
                Scenarios.two_and_two) as [_ H2].
    apply (H2 "spawn ENOENT"%string); reflexivity.
Defined.

Lemma evaluateInRenderer_windowless id expr ev h s :
  JsMap.get id (electronSessions (server h)) = Some s ->
  mainWindow s = None ->
  evaluateInRenderer id expr ev h =
  (Thrown ("No window available in session " ++ id)%string, h).
Proof.
  intros Hget Hwin. unfold evaluateInRenderer. unfold hbind at 1. unfold hget at 1.
  now rewrite Hget, Hwin.
Qed.

Lemma evaluateInMain_run id expr ev h s :
  JsMap.get id (electronSessions (server h)) = Some s ->
  evaluateInMain id expr ev h =
  (ev, with_calls (calls h ++ [AppEvaluate (app s) expr]) h).
Proof.
  intros Hget. unfold evaluateInMain. unfold hbind at 1. unfold hget at 1.
  rewrite Hget. run_h. now destruct ev.
Qed.

(** X17. On an electron session that has no window, evaluation in the
    renderer is answered with the text for a missing window and the driver
    is not called, while evaluation in the main process calls the
    application and answers what it answers. *)
Theorem X17_windowless_session_serves_main_only :
  forall (id expr : string) (now : Z) (ev : Completion string) (h : Host)
         (s : ElectronSession),
    JsMap.get id (electronSessions (server h)) = Some s ->
    mainWindow s = None ->
    (let r := tool_electron_evaluate_renderer id expr now ev h in
     fst r = Normal ("Error: No window available in session " ++ id)%string /\
     calls (snd r) = calls h) /\
    (forall text,
       ev = Normal text ->
       let r := tool_electron_evaluate_main id expr now ev h in
       fst r = Normal text /\
       calls (snd r) = calls h ++ [AppEvaluate (app s) expr]).
Proof.
  intros id expr now ev h s Hget Hwin.
  assert (Htouched :
            forall h0,
              h0 = (if Str.truthy id then
                      with_server
                        {| sessions := touchSessions id now (sessions (server h));
                           electronSessions :=
                             touchElectronSessions id now (electronSessions (server h));
                           cleanupTimer := cleanupTimer (server h);
                           isShuttingDown := isShuttingDown (server h);
                           trace := trace (server h) |} h
                    else h) ->
              calls h0 = calls h /\
              exists s', JsMap.get id (electronSessions (server h0)) = Some s' /\
                         mainWindow s' = None /\ app s' = app s).
  { intros h0 ->. destruct (Str.truthy id).
    - hproj_simpl. cbn [electronSessions]. split; [reflexivity|].
      exists (set_e_lastActivity now s). split; [|auto].
      now apply get_touchElectronSessions.
    - split; [reflexivity|]. exists s. auto. }
  split.
  - intros r. subst r. unfold tool_electron_evaluate_renderer.
    rewrite hcallTool_run. cbv zeta.
    match goal with |- context [evaluateInRenderer id expr ev ?h0] =>
      destruct (Htouched h0 eq_refl) as (Hc & s' & Hs' & Hw' & _);
      rewrite (evaluateInRenderer_windowless id expr ev h0 s' Hs' Hw')
    end.
    hproj_simpl. auto.
  - intros text -> r. subst r. unfold tool_electron_evaluate_main.
    rewrite hcallTool_run. cbv zeta.
    match goal with |- context [evaluateInMain id expr ?ev0 ?h0] =>
      destruct (Htouched h0 eq_refl) as (Hc & s' & Hs' & _ & Ha');
      rewrite (evaluateInMain_run id expr ev0 h0 s' Hs')
    end.
    hproj_simpl. rewrite Hc, Ha'. auto.
Qed.

Lemma X17_windowless_session_witness :
  let h1 :=
    snd (tool_electron_launch "app2" "/opt/app/electron" 500 Scenarios.windowless
           Scenarios.two_and_two) in
  (let r := tool_electron_evaluate_renderer "app2" "document.title" 600
              (Normal "null"%string) h1 in
   fst r = Normal "Error: No window available in session app2"%string /\
   calls (snd r) = calls h1) /\
  (let r := tool_electron_evaluate_main "app2" "app.getName()" 600
              (Normal "demo"%string) h1 in
   fst r = Normal "demo"%string /\
   calls (snd r) = calls h1 ++ [AppEvaluate 40 "app.getName()"]).
Proof.
  split.
  - destruct (X17_windowless_session_serves_main_only "app2" "document.title" 600
                (Normal "null"%string)
                (snd (tool_electron_launch "app2" "/opt/app/electron" 500
                        Scenarios.windowless Scenarios.two_and_two))
                {| app := 40; mainWindow := None; executablePath := "/opt/app/electron";
                   e_lastActivity := 500; e_createdAt := 500 |})
      as [Hr _]; [reflexivity|reflexivity|exact Hr].
  - destruct (X17_windowless_session_serves_main_only "app2" "app.getName()" 600
                (Normal "demo"%string)
                (snd (tool_electron_launch "app2" "/opt/app/electron" 500
                        Scenarios.windowless Scenarios.two_and_two))
                {| app := 40; mainWindow := None; executablePath := "/opt/app/electron";
                   e_lastActivity := 500; e_createdAt := 500 |})
      as [_ Hm]; [reflexivity|reflexivity|].
    apply (Hm "demo"%string). reflexivity.
Defined.

(** ** Recordings *)

Lemma startTestRecording_started id name now w h s page ua :
  JsMap.get id (sessions (server h)) = Some s ->
  JsMap.get "main" (pages s) = Some page ->
  page_userAgent w = Normal ua ->
  startTestRecording id name now w h =
  (Normal ("Started recording test " ++ dq ++ name ++ dq ++ " for session " ++ id)%string,
   {| server := server h;
      recordings := JsMap.set name (started_recording id now w ua) (recordings h);
      files := files h;
      calls := calls h ++ [PageUserAgent page] |}).
Proof.
  intros Hs Hp Hua. destruct h as [st recs fs cs]. hproj_simpl.
  unfold startTestRecording. run_h. hproj_simpl. rewrite Hs, Hp, Hua.
  reflexivity.
Qed.

(** X18. [startTestRecording] either stores one recording under the given
    name, bound to the session, with no actions and the given start time,
    or fails and leaves the recordings as they are; it fails exactly when
    the session or its page [main] is missing, or the user agent cannot be
    read. In both cases the server and the files are untouched. *)
Theorem X18_start_recording_stores_one_or_nothing :
  forall (id name : string) (now : Z) (w : PageWorld) (h : Host),
    let r := startTestRecording id name now w h in
    server (snd r) = server h /\
    files (snd r) = files h /\
    match JsMap.get id (sessions (server h)) with
    | None =>
        fst r = Thrown ("Session " ++ id ++ " not found")%string /\
        recordings (snd r) = recordings h
    | Some s =>
        match JsMap.get "main" (pages s), page_userAgent w with
        | None, _ =>
            fst r = Thrown ("Main page not found in session " ++ id)%string /\
            recordings (snd r) = recordings h
        | Some _, Thrown e =>
            fst r = Thrown e /\ recordings (snd r) = recordings h
        | Some _, Normal ua =>
            fst r = Normal ("Started recording test " ++ dq ++ name ++ dq ++
                            " for session " ++ id)%string /\
            recordings (snd r) =
              JsMap.set name (started_recording id now w ua) (recordings h)
        end
    end.
Proof.
  intros id name now w h r. subst r. destruct h as [st recs fs cs]. hproj_simpl.
  unfold startTestRecording. run_h. hproj_simpl.
  destruct (JsMap.get id (sessions st)) as [s|]; [|auto].
  destruct (JsMap.get "main" (pages s)) as [page|]; [|auto].
  hproj_simpl.
  destruct (page_userAgent w) as [ua|e]; hproj_simpl; auto.
Qed.

Lemma find_app {A} (f : A -> bool) (l1 l2 : list A) :
  find f (l1 ++ l2) =
  match find f l1 with
  | Some x => Some x
  | None => find f l2
  end.
Proof.
  induction l1 as [|x l1 IH]; simpl; [reflexivity|].
  destruct (f x); [reflexivity|exact IH].
Qed.

Lemma delete_absent {V} k (m : JsMap.t V) :
  JsMap.get k m = None -> JsMap.delete k m = m.
Proof.
  intros Hnone. unfold JsMap.delete. apply filter_all. intros [k' v] Hin.
  simpl. apply negb_true_iff, String.eqb_neq. intros ->.
  apply JsMapFacts.get_None_not_In in Hnone. apply Hnone.
  now apply JsMapFacts.In_keys with v.
Qed.

Lemma delete_app {V} k (m1 m2 : JsMap.t V) :
  JsMap.delete k (m1 ++ m2) = JsMap.delete k m1 ++ JsMap.delete k m2.
Proof. unfold JsMap.delete. apply filter_app. Qed.

Lemma get_app_None {V} k (m1 m2 : JsMap.t V) :
  JsMap.get k m1 = None -> JsMap.get k (m1 ++ m2) = JsMap.get k m2.
Proof.
  induction m1 as [|[k' v] m1 IH]; simpl; [reflexivity|].
  destruct (String.eqb k k'); [discriminate|exact IH].
Qed.

Section RecordingFacts.

Variable fs_write : string -> string -> Completion unit.
Variable join : string -> string -> string.
Variable testDir : string.

Lemma stopTestRecording_none id format h :
  find_recording id (recordings h) = None ->
  stopTestRecording fs_write join testDir id format h =
  (Thrown ("No active recording found for session " ++ id)%string, h).
Proof.
  intros Hfind. unfold stopTestRecording. unfold hbind at 1. unfold hget at 1.
  now rewrite Hfind.
Qed.

(** A stop that finds a named recording: the script is handed to the file
    system; the recording is removed when the write succeeds, and stays
    when it fails. *)
Lemma stopTestRecording_found id format h name rec :
  find_recording id (recordings h) = Some (name, rec) ->
  Str.truthy name = true ->
  stopTestRecording fs_write join testDir id format h =
  match fs_write (join testDir (script_name name format))
          (Render.generateTestScript rec name format) with
  | Normal _ =>
      (Normal ("Test recording stopped. Generated test script: " ++
               join testDir (script_name name format))%string,
       {| server := server h;
          recordings := JsMap.delete name (recordings h);
          files := JsMap.set (join testDir (script_name name format))
                     (Render.generateTestScript rec name format) (files h);
          calls := calls h ++
                   [WriteFile (join testDir (script_name name format))
                      (Render.generateTestScript rec name format)] |})
  | Thrown e =>
      (Thrown e,
       {| server := server h;
          recordings := recordings h;
          files := files h;
          calls := calls h ++
                   [WriteFile (join testDir (script_name name format))
                      (Render.generateTestScript rec name format)] |})
  end.
Proof.
  intros Hfind Htruthy. destruct h as [st recs fs cs]. hproj_simpl.
  unfold stopTestRecording. run_h. hproj_simpl. rewrite Hfind, Htruthy.
  unfold script_name.
  destruct (fs_write _ _) as [[]|e]; reflexivity.
Qed.

Lemma find_recording_last id name rec (m : JsMap.t TestRecording) :
  find_recording id m = None ->
  r_sessionId rec = id ->
  find_recording id (m ++ [(name, rec)]) = Some (name, rec).
Proof.
  intros Hnone Hid. unfold find_recording, JsMap.entries in *.
  rewrite find_app, Hnone. simpl. rewrite Hid, String.eqb_refl. reflexivity.
Qed.

Lemma find_recording_first id e (m m' : JsMap.t TestRecording) :
  find_recording id m = Some e -> find_recording id (m ++ m') = Some e.
Proof.
  intros Hfind. unfold find_recording, JsMap.entries in *.
  now rewrite find_app, Hfind.
Qed.

(** X19. Starting a recording under a new name on a session that has no
    recording, and stopping it, hands to the file system the script of a
    recording without actions, for the file [<testName>-<format>.spec.js]
    of the test directory. When the write succeeds, the recordings are
    again what they were before the start and the file holds the script;
    when the write fails, the stop fails with the error of the file
    system, no file is written and the recording stays stored. *)
Theorem X19_start_then_stop_round_trip :
  forall (id name format : string) (now : Z) (w : PageWorld) (h : Host)
         (s : BrowserSession) (page : Handle) (ua : string),
    JsMap.get id (sessions (server h)) = Some s ->
    JsMap.get "main" (pages s) = Some page ->
    page_userAgent w = Normal ua ->
    JsMap.get name (recordings h) = None ->
    find_recording id (recordings h) = None ->
    Str.truthy name = true ->
    let h1 := snd (startTestRecording id name now w h) in
    let r := stopTestRecording fs_write join testDir id format h1 in
    let path := join testDir (name ++ "-" ++ format ++ ".spec.js")%string in
    let script :=
      Render.generateTestScript (started_recording id now w ua) name format in
    server (snd r) = server h /\
    calls (snd r) = calls h1 ++ [WriteFile path script] /\
    match fs_write path script with
    | Normal _ =>
        fst r =
          Normal ("Test recording stopped. Generated test script: " ++ path)%string /\
        recordings (snd r) = recordings h /\
        files (snd r) = JsMap.set path script (files h)
    | Thrown e =>
        fst r = Thrown e /\
        recordings (snd r) = recordings h1 /\
        files (snd r) = files h
    end.
Proof.
  intros id name format now w h s page ua Hs Hp Hua Hname Hfind Htruthy h1 r path script.
  subst h1 r path script.
  rewrite (startTestRecording_started id name now w h s page ua Hs Hp Hua).
  cbn [snd]. rewrite (set_absent _ _ _ Hname).
  rewrite (stopTestRecording_found id format _ name (started_recording id now w ua));
    [|hproj_simpl; now apply find_recording_last|exact Htruthy].
  hproj_simpl. fold (script_name name format).
  destruct (fs_write _ _) as [[]|e]; hproj_simpl.
  - split; [reflexivity|]. split; [reflexivity|]. split; [reflexivity|].
    split; [|reflexivity].
    rewrite delete_app, (delete_absent _ _ Hname). unfold JsMap.delete. simpl.
    rewrite String.eqb_refl. simpl. apply app_nil_r.
  - repeat split; reflexivity.
Qed.

(** X20. Two recordings started on one session are stopped in the order in
    which they were started, where the file system takes both scripts: the
    first stop writes the script of the first recording and removes that
    recording alone, the second stop does the same for the second, and a
    third stop fails because no recording is left for the session. The
    two writes are all that is handed to the file system. *)
Theorem X20_recordings_of_a_session_stop_in_start_order :
  forall (id name1 name2 format : string) (now1 now2 : Z) (w1 w2 : PageWorld)
         (h : Host) (s : BrowserSession) (page : Handle) (ua1 ua2 : string),
    JsMap.get id (sessions (server h)) = Some s ->
    JsMap.get "main" (pages s) = Some page ->
    page_userAgent w1 = Normal ua1 ->
    page_userAgent w2 = Normal ua2 ->
    JsMap.get name1 (recordings h) = None ->
    JsMap.get name2 (recordings h) = None ->
    name1 <> name2 ->
    find_recording id (recordings h) = None ->
    Str.truthy name1 = true ->
    Str.truthy name2 = true ->
    let path1 := join testDir (name1 ++ "-" ++ format ++ ".spec.js")%string in
    let path2 := join testDir (name2 ++ "-" ++ format ++ ".spec.js")%string in
    let script1 :=
      Render.generateTestScript (started_recording id now1 w1 ua1) name1 format in
    let script2 :=
      Render.generateTestScript (started_recording id now2 w2 ua2) name2 format in
    fs_write path1 script1 = Normal tt ->
    fs_write path2 script2 = Normal tt ->
    let h1 := snd (startTestRecording id name1 now1 w1 h) in
    let h2 := snd (startTestRecording id name2 now2 w2 h1) in
    let r3 := stopTestRecording fs_write join testDir id format h2 in
    let r4 := stopTestRecording fs_write join testDir id format (snd r3) in
    let r5 := stopTestRecording fs_write join testDir id format (snd r4) in
    (fst r3 = Normal ("Test recording stopped. Generated test script: " ++
                      path1)%string /\
     recordings (snd r3) =
       recordings h ++ [(name2, started_recording id now2 w2 ua2)] /\
     files (snd r3) = JsMap.set path1 script1 (files h) /\
     calls (snd r3) = calls h2 ++ [WriteFile path1 script1]) /\
    (fst r4 = Normal ("Test recording stopped. Generated test script: " ++
                      path2)%string /\
     recordings (snd r4) = recordings h /\
     files (snd r4) = JsMap.set path2 script2 (JsMap.set path1 script1 (files h)) /\
     calls (snd r4) = calls h2 ++ [WriteFile path1 script1; WriteFile path2 script2]) /\
    (fst r5 = Thrown ("No active recording found for session " ++ id)%string /\
     snd r5 = snd r4).
Proof.
  intros id name1 name2 format now1 now2 w1 w2 h s page ua1 ua2
         Hs Hp Hua1 Hua2 Hn1 Hn2 Hne Hfind Ht1 Ht2 path1 path2 script1 script2
         Hw1 Hw2 h1 h2 r3 r4 r5.
  set (rec1 := started_recording id now1 w1 ua1) in *.
  set (rec2 := started_recording id now2 w2 ua2) in *.
  assert (Hh1 : h1 = {| server := server h;
                        recordings := recordings h ++ [(name1, rec1)];
                        files := files h;
                        calls := calls h ++ [PageUserAgent page] |}).
  { subst h1. rewrite (startTestRecording_started id name1 now1 w1 h s page ua1 Hs Hp Hua1).
    cbn [snd]. now rewrite (set_absent _ _ _ Hn1). }
  assert (Hn2' : JsMap.get name2 (recordings h ++ [(name1, rec1)]) = None).
  { rewrite get_app_None by exact Hn2. simpl.
    destruct (String.eqb name2 name1) eqn:E; [|reflexivity].
    apply String.eqb_eq in E. congruence. }
  assert (Hh2 : h2 = {| server := server h;
                        recordings := (recordings h ++ [(name1, rec1)]) ++ [(name2, rec2)];
                        files := files h;
                        calls := (calls h ++ [PageUserAgent page]) ++ [PageUserAgent page] |}).
  { subst h2. rewrite Hh1.
    rewrite (startTestRecording_started id name2 now2 w2 _ s page ua2); try assumption.
    cbn [snd]. hproj_simpl. now rewrite (set_absent _ _ _ Hn2'). }
  assert (Hr3 : r3 =
            (Normal ("Test recording stopped. Generated test script: " ++ path1)%string,
             {| server := server h;
                recordings := recordings h ++ [(name2, rec2)];
                files := JsMap.set path1 script1 (files h);
                calls := calls h2 ++ [WriteFile path1 script1] |})).
  { subst r3. rewrite Hh2 at 1.
    rewrite (stopTestRecording_found id format _ name1 rec1); [|hproj_simpl|exact Ht1].
    - fold path1 script1. unfold script_name. fold path1. rewrite Hw1.
      rewrite Hh2. hproj_simpl. f_equal. f_equal.
      rewrite !delete_app, (delete_absent _ _ Hn1). unfold JsMap.delete. simpl.
      rewrite String.eqb_refl. simpl.
      destruct (String.eqb name1 name2) eqn:E.
      + apply String.eqb_eq in E. congruence.
      + simpl. now rewrite app_nil_r.
    - apply find_recording_first. now apply find_recording_last. }
  assert (Hr4 : r4 =
            (Normal ("Test recording stopped. Generated test script: " ++ path2)%string,
             {| server := server h;
                recordings := recordings h;
                files := JsMap.set path2 script2 (JsMap.set path1 script1 (files h));
                calls := calls h2 ++ [WriteFile path1 script1; WriteFile path2 script2] |})).
  { subst r4. rewrite Hr3. cbn [snd].
    rewrite (stopTestRecording_found id format _ name2 rec2); [|hproj_simpl|exact Ht2].
    - unfold script_name. fold path2 script2. rewrite Hw2.
      hproj_simpl. f_equal. f_equal; [|now rewrite <- app_assoc].
      rewrite delete_app, (delete_absent _ _ Hn2). unfold JsMap.delete. simpl.
      rewrite String.eqb_refl. simpl. apply app_nil_r.
    - now apply find_recording_last. }
  assert (Hr5 : r5 = (Thrown ("No active recording found for session " ++ id)%string,
                      snd r4)).
  { subst r5. apply stopTestRecording_none. rewrite Hr4. exact Hfind. }
  rewrite Hr5. rewrite Hr4 at 1 2 3 4. rewrite Hr3. hproj_simpl. auto 10.
Qed.

(** X21. A recording stored under the empty name cannot be stopped: when it
    is the first recording of its session, every stop for that session
    fails with the message for a missing name, writes nothing and leaves
    the recordings as they are. *)
Theorem X21_recording_without_name_blocks_stop :
  forall (id format : string) (now : Z) (w : PageWorld) (h : Host)
         (s : BrowserSession) (page : Handle) (ua : string),
    JsMap.get id (sessions (server h)) = Some s ->
    JsMap.get "main" (pages s) = Some page ->
    page_userAgent w = Normal ua ->
    JsMap.get EmptyString (recordings h) = None ->
    find_recording id (recordings h) = None ->
    let h1 := snd (startTestRecording id EmptyString now w h) in
    stopTestRecording fs_write join testDir id format h1 =
    (Thrown "Recording name not found"%string, h1).
Proof.
  intros id format now w h s page ua Hs Hp Hua Hname Hfind h1. subst h1.
  rewrite (startTestRecording_started id EmptyString now w h s page ua Hs Hp Hua).
  cbn [snd]. rewrite (set_absent _ _ _ Hname).
  unfold stopTestRecording. unfold hbind at 1. unfold hget at 1. hproj_simpl.
  rewrite (find_recording_last id EmptyString (started_recording id now w ua) _ Hfind)
    by reflexivity.
  reflexivity.
Qed.

End RecordingFacts.

Lemma X19_start_then_stop_witness :
  let h1 := snd (startTestRecording "s1" "login" 30 Scenarios.page_world
                   Scenarios.one_launched) in
  let path := Scenarios.join Scenarios.testDir "login-mocha.spec.js" in
  let script :=
    Render.generateTestScript
      (started_recording "s1" 30 Scenarios.page_world "Mozilla/5.0") "login" "mocha" in
  (let r := stopTestRecording Scenarios.fs_ok Scenarios.join Scenarios.testDir
              "s1" "mocha" h1 in
   server (snd r) = server Scenarios.one_launched /\
   calls (snd r) = calls h1 ++ [WriteFile path script] /\
   fst r = Normal ("Test recording stopped. Generated test script: " ++ path)%string /\
   recordings (snd r) = recordings Scenarios.one_launched /\
   files (snd r) = JsMap.set path script (files Scenarios.one_launched)) /\
  (let r := stopTestRecording Scenarios.fs_no_directory Scenarios.join Scenarios.testDir
              "s1" "mocha" h1 in
   server (snd r) = server Scenarios.one_launched /\
   calls (snd r) = calls h1 ++ [WriteFile path script] /\
   fst r = Thrown ("ENOENT: no such file or directory, open '" ++ path ++ "'")%string /\
   recordings (snd r) = recordings h1 /\
   files (snd r) = files Scenarios.one_launched).
Proof.
  split.
  - apply (X19_start_then_stop_round_trip Scenarios.fs_ok Scenarios.join Scenarios.testDir
             "s1" "login" "mocha" 30 Scenarios.page_world Scenarios.one_launched
             (launched_session 1 101 201 (Examples.launch_world 1 7 0)) 201 "Mozilla/5.0");
      reflexivity.
  - apply (X19_start_then_stop_round_trip Scenarios.fs_no_directory Scenarios.join
             Scenarios.testDir
             "s1" "login" "mocha" 30 Scenarios.page_world Scenarios.one_launched
             (launched_session 1 101 201 (Examples.launch_world 1 7 0)) 201 "Mozilla/5.0");
      reflexivity.
Defined.

Lemma X20_recordings_stop_order_witness :
  let h1 := snd (startTestRecording "s1" "first" 30 Scenarios.page_world
                   Scenarios.one_launched) in
  let h2 := snd (startTestRecording "s1" "second" 40 Scenarios.page_world h1) in
  let path1 := Scenarios.join Scenarios.testDir "first-jest.spec.js" in
  let path2 := Scenarios.join Scenarios.testDir "second-jest.spec.js" in
  let script1 :=
    Render.generateTestScript
      (started_recording "s1" 30 Scenarios.page_world "Mozilla/5.0") "first" "jest" in
  let script2 :=
    Render.generateTestScript
      (started_recording "s1" 40 Scenarios.page_world "Mozilla/5.0") "second" "jest" in
  let r3 := stopTestRecording Scenarios.fs_ok Scenarios.join Scenarios.testDir
              "s1" "jest" h2 in
  let r4 := stopTestRecording Scenarios.fs_ok Scenarios.join Scenarios.testDir
              "s1" "jest" (snd r3) in
  let r5 := stopTestRecording Scenarios.fs_ok Scenarios.join Scenarios.testDir
              "s1" "jest" (snd r4) in
  (fst r3 = Normal ("Test recording stopped. Generated test script: " ++ path1)%string /\
   recordings (snd r3) =
     recordings Scenarios.one_launched ++
     [("second"%string, started_recording "s1" 40 Scenarios.page_world "Mozilla/5.0")] /\
   files (snd r3) = JsMap.set path1 script1 (files Scenarios.one_launched) /\
   calls (snd r3) = calls h2 ++ [WriteFile path1 script1]) /\
  (fst r4 = Normal ("Test recording stopped. Generated test script: " ++ path2)%string /\
   recordings (snd r4) = recordings Scenarios.one_launched /\
   files (snd r4) =
     JsMap.set path2 script2 (JsMap.set path1 script1 (files Scenarios.one_launched)) /\
   calls (snd r4) = calls h2 ++ [WriteFile path1 script1; WriteFile path2 script2]) /\
  (fst r5 = Thrown "No active recording found for session s1"%string /\
   snd r5 = snd r4).
Proof.
  apply (X20_recordings_of_a_session_stop_in_start_order
           Scenarios.fs_ok Scenarios.join Scenarios.testDir
           "s1" "first" "second" "jest" 30 40
           Scenarios.page_world Scenarios.page_world Scenarios.one_launched
           (launched_session 1 101 201 (Examples.launch_world 1 7 0)) 201
           "Mozilla/5.0" "Mozilla/5.0"); try reflexivity.
  discriminate.
Defined.

Lemma X21_recording_without_name_witness :
  let h1 := snd (startTestRecording "s1" EmptyString 30 Scenarios.page_world
                   Scenarios.one_launched) in
  stopTestRecording Scenarios.fs_ok Scenarios.join Scenarios.testDir "s1" "playwright" h1 =
  (Thrown "Recording name not found"%string, h1).
Proof.
  apply (X21_recording_without_name_blocks_stop Scenarios.fs_ok Scenarios.join
           Scenarios.testDir
           "s1" "playwright" 30 Scenarios.page_world Scenarios.one_launched
           (launched_session 1 101 201 (Examples.launch_world 1 7 0)) 201 "Mozilla/5.0");
    reflexivity.
Defined.

(** ** Regression tests from the state of a page *)

Lemma Contains_trans (a b c : string) :
  Contains a b -> Contains b c -> Contains a c.
Proof.
  intros (p1 & q1 & ->) (p2 & q2 & ->).
  exists (p2 ++ p1)%string, (q1 ++ q2)%string.
  now rewrite !RenderFacts.append_assoc.
Qed.

Lemma playwrightStep_assertTitle (title : string) (t : Z) :
  Render.playwrightStep
    {| type := assert; timestamp := t; selector := None; value := None; url := None;
       assertion := Some {| a_type := a_title; expected := title |} |} =
  (("  // Assert page title" ++ nl ++ "  ") ++
   ("await expect(page).toHaveTitle('" ++ title ++ "');") ++ (nl ++ nl))%string.
Proof.
  unfold Render.playwrightStep; cbn. rewrite ?RenderFacts.append_assoc. reflexivity.
Qed.

Lemma playwrightStep_visible (sel : string) (t : Z) :
  Render.playwrightStep (visibleAction t sel) =
  (("  // Assert element is visible" ++ nl ++ "  ") ++
   ("await expect(page.locator('" ++ sel ++ "')).toBeVisible();") ++ (nl ++ nl))%string.
Proof.
  unfold Render.playwrightStep; cbn. rewrite ?RenderFacts.append_assoc. reflexivity.
Qed.

Lemma probeSelector_run page now w acc sel h :
  probeSelector page now w acc sel h =
  (Normal (acc ++ if probe_visible w sel then [visibleAction now sel] else []),
   with_calls (calls h ++ probe_calls page w sel) h).
Proof.
  unfold probeSelector, probe_visible, probe_calls. run_h.
  destruct (rw_probe w sel) as [e| |[[|]|e]]; hproj_simpl;
    rewrite <- ?app_assoc, ?app_nil_r; reflexivity.
Qed.

Lemma probeSelectors_run page now w sels :
  forall acc h,
    probeSelectors page now w acc sels h =
    (Normal (acc ++ map (visibleAction now) (filter (probe_visible w) sels)),
     with_calls (calls h ++ flat_map (probe_calls page w) sels) h).
Proof.
  induction sels as [|sel sels IH]; intros acc h; simpl.
  - unfold hret. destruct h. hproj_simpl. now rewrite !app_nil_r.
  - unfold hbind. rewrite probeSelector_run, IH. destruct h. hproj_simpl.
    f_equal; [f_equal|f_equal].
    + destruct (probe_visible w sel); simpl; now rewrite <- app_assoc.
    + now rewrite <- app_assoc.
Qed.

Section RegressionFacts.

Variable fs_write : string -> string -> Completion unit.
Variable join : string -> string -> string.
Variable testDir : string.

(** The actions [generateRegressionTest] renders, and what becomes of the
    script. *)
Lemma generateRegressionTest_run id pageId name assertions now w h s page title ua :
  JsMap.get id (sessions (server h)) = Some s ->
  JsMap.get pageId (pages s) = Some page ->
  rw_title w = Normal title ->
  rw_userAgent w = Normal ua ->
  let acts :=
    Render.navigateAction now (rw_url w)
    :: [Render.assertUrlAction now (rw_url w);
        {| type := assert; timestamp := now; selector := None; value := None;
           url := None;
           assertion := Some {| a_type := a_title; expected := title |} |}]
       ++ map (customAction now) assertions
       ++ map (visibleAction now) (filter (probe_visible w) commonSelectors) in
  let script :=
    Render.generatePlaywrightScript name acts
      {| m_url := rw_url w;
         viewport := match rw_viewportSize w with
                     | Some v => v
                     | None => defaultViewport
                     end;
         userAgent := ua |} in
  let path := join testDir (name ++ "-regression.spec.js")%string in
  generateRegressionTest fs_write join testDir id pageId name assertions now w h =
  (match fs_write path script with
   | Normal _ =>
       Normal ("Regression test generated: " ++ path ++ nl ++ "Included " ++
               show_nat (List.length acts) ++ " assertions")%string
   | Thrown e => Thrown e
   end,
   {| server := server h;
      recordings := recordings h;
      files := match fs_write path script with
               | Normal _ => JsMap.set path script (files h)
               | Thrown _ => files h
               end;
      calls := calls h ++ [PageTitle page] ++
               flat_map (probe_calls page w) commonSelectors ++
               [PageUserAgent page; WriteFile path script] |}).
Proof.
  intros Hs Hp Ht Hua acts script path. subst acts script path.
  destruct h as [st recs fs cs]. hproj_simpl.
  unfold generateRegressionTest.
  unfold hbind at 1. unfold lift at 1. hproj_simpl.
  unfold getPage. unfold bind at 1. unfold get_server at 1. rewrite Hs, Hp.
  unfold ret. hproj_simpl.
  unfold hbind at 1. unfold hcall at 1, hmodify at 1. hproj_simpl.
  unfold hbind at 1. unfold hawait at 1. rewrite Ht.
  unfold hbind at 1. rewrite probeSelectors_run. hproj_simpl.
  unfold writeFileSync. run_h. hproj_simpl. rewrite Hua. hproj_simpl.
  cbn [actions app]. rewrite <- !app_assoc.
  destruct (fs_write _ _) as [[]|e]; reflexivity.
Qed.

(** X22. On a page that [getPage] finds and whose title and user agent can
    be read, [generateRegressionTest] hands to the file system, for the
    file [<testName>-regression.spec.js] of the test directory, a
    Playwright script that goes to the current URL, asserts that URL and
    the title, and asserts the visibility of every common selector that
    was found visible; a selector whose probe rejects, finds nothing or
    finds a hidden element adds nothing; an element that is found is asked
    whether it is visible. When the write succeeds, the file
    holds the script and the count reported is three (the navigation
    included), plus the custom assertions, plus the visible selectors; when
    the write fails, the tool fails with the error of the file system and
    no file is written. The recordings are not touched. *)
Theorem X22_regression_test_asserts_page_state :
  forall (id pageId name : string) (assertions : list CustomAssertion) (now : Z)
         (w : RegressionWorld) (h : Host) (s : BrowserSession) (page : Handle)
         (title ua : string),
    JsMap.get id (sessions (server h)) = Some s ->
    JsMap.get pageId (pages s) = Some page ->
    rw_title w = Normal title ->
    rw_userAgent w = Normal ua ->
    let r :=
      generateRegressionTest fs_write join testDir id pageId name assertions now w h in
    let path := join testDir (name ++ "-regression.spec.js")%string in
    exists script,
      calls (snd r) =
        calls h ++ [PageTitle page] ++ flat_map (probe_calls page w) commonSelectors ++
        [PageUserAgent page; WriteFile path script] /\
      Contains ("await page.goto('" ++ rw_url w ++ "');")%string script /\
      Contains ("await expect(page).toHaveURL('" ++ rw_url w ++ "');")%string script /\
      Contains ("await expect(page).toHaveTitle('" ++ title ++ "');")%string script /\
      (forall sel,
         In sel commonSelectors ->
         probe_visible w sel = true ->
         Contains ("await expect(page.locator('" ++ sel ++ "')).toBeVisible();")%string
           script) /\
      match fs_write path script with
      | Normal _ =>
          fst r =
            Normal ("Regression test generated: " ++ path ++ nl ++ "Included " ++
                    show_nat (3 + List.length assertions +
                              List.length (filter (probe_visible w) commonSelectors)) ++
                    " assertions")%string /\
          files (snd r) = JsMap.set path script (files h)
      | Thrown e =>
          fst r = Thrown e /\
          files (snd r) = files h
      end /\
      recordings (snd r) = recordings h.
Proof.
  intros id pageId name assertions now w h s page title ua Hs Hp Ht Hua r path.
  subst r path.
  rewrite (generateRegressionTest_run id pageId name assertions now w h s page title ua
             Hs Hp Ht Hua).
  cbv zeta. cbn [fst snd files recordings calls].
  eexists. split.
  { reflexivity. }
  split; [|split; [|split; [|split; [|split]]]].
  - eapply Contains_trans;
      [|apply RenderMore.Contains_generatePlaywrightScript; left; reflexivity].
    rewrite RenderFacts.playwrightStep_navigate. now eexists _, _.
  - eapply Contains_trans;
      [|apply RenderMore.Contains_generatePlaywrightScript; right; left; reflexivity].
    rewrite RenderFacts.playwrightStep_assertUrl. now eexists _, _.
  - eapply Contains_trans;
      [|apply RenderMore.Contains_generatePlaywrightScript; right; right; left;
        reflexivity].
    rewrite playwrightStep_assertTitle. now eexists _, _.
  - intros sel Hin Hvis.
    eapply Contains_trans;
      [|apply (RenderMore.Contains_generatePlaywrightScript (visibleAction now sel))].
    + rewrite playwrightStep_visible. now eexists _, _.
    + apply in_cons. apply in_or_app; right. apply in_or_app; right.
      apply in_map, filter_In. auto.
  - destruct (fs_write _ _) as [[]|e]; [|split; reflexivity].
    split; [|reflexivity].
    cbn [List.length app]. rewrite !length_app, !length_map.
    reflexivity.
  - reflexivity.
Qed.

End RegressionFacts.

Lemma X22_regression_test_witness :
  let path := Scenarios.join Scenarios.testDir "home-regression.spec.js" in
  let custom :=
    [{| ca_type := a_text; ca_selector := Some "h1"%string;
        ca_expected := "Example Domain"%string |}] in
  let r :=
    generateRegressionTest Scenarios.fs_ok Scenarios.join Scenarios.testDir
      "s1" "main" "home" custom 90 Scenarios.regression_world Scenarios.one_launched in
  exists script,
    calls (snd r) =
      calls Scenarios.one_launched ++ [PageTitle 201] ++
      flat_map (probe_calls 201 Scenarios.regression_world) commonSelectors ++
      [PageUserAgent 201; WriteFile path script] /\
    Contains "await page.goto('https://example.com/');" script /\
    Contains "await expect(page).toHaveURL('https://example.com/');" script /\
    Contains "await expect(page).toHaveTitle('Example Domain');" script /\
    (forall sel,
       In sel commonSelectors ->
       probe_visible Scenarios.regression_world sel = true ->
       Contains ("await expect(page.locator('" ++ sel ++ "')).toBeVisible();")%string
         script) /\
    match Scenarios.fs_ok path script with
    | Normal _ =>
        fst r =
          Normal ("Regression test generated: " ++ path ++ nl ++
                  "Included 6 assertions")%string /\
        files (snd r) = JsMap.set path script (files Scenarios.one_launched)
    | Thrown e =>
        fst r = Thrown e /\
        files (snd r) = files Scenarios.one_launched
    end /\
    recordings (snd r) = recordings Scenarios.one_launched.
Proof.
  apply (X22_regression_test_asserts_page_state
           Scenarios.fs_ok Scenarios.join Scenarios.testDir
           "s1" "main" "home"
           [{| ca_type := a_text; ca_selector := Some "h1"%string;
               ca_expected := "Example Domain"%string |}]
           90 Scenarios.regression_world Scenarios.one_launched
           (launched_session 1 101 201 (Examples.launch_world 1 7 0)) 201
           "Example Domain" "Mozilla/5.0"); reflexivity.
Defined.

(** ** The memory threshold in kilobytes *)

(** X23. The memory check finds the usage too high exactly when [ps]
    reports more than 2097152 kilobytes, that is more than 2048 megabytes:
    a reading of exactly 2048 megabytes does not start an eviction. *)
Theorem X23_memory_threshold_in_kilobytes :
  forall rss : Z, memory_high rss = true <-> (rss > 2097152)%Z.
Proof.
  intros rss. unfold memory_high, memoryMB, MAX_MEMORY_MB.
  rewrite negb_true_iff.
  unfold Qle_bool, Qdiv, Qinv, Qmult, inject_Z. cbn [Qnum Qden].
  rewrite Z.leb_gt. simpl. lia.
Qed.

(** ** Refreshing the activity of a session *)

(** X24. [updateSessionActivity] returns normally and makes no external
    call. It keeps the identifiers and the order of both registries, leaves
    every entry under another identifier as it is, and changes nothing at
    all when the identifier is in neither registry. *)
Theorem X24_touch_changes_one_identifier_only :
  forall (id : string) (now : Z) (st : Server),
    let r := updateSessionActivity id now st in
    fst r = Normal tt /\
    trace (snd r) = trace st /\
    JsMap.keys (sessions (snd r)) = JsMap.keys (sessions st) /\
    JsMap.keys (electronSessions (snd r)) = JsMap.keys (electronSessions st) /\
    (forall id', id <> id' ->
       JsMap.get id' (sessions (snd r)) = JsMap.get id' (sessions st) /\
       JsMap.get id' (electronSessions (snd r)) = JsMap.get id' (electronSessions st)) /\
    (JsMap.get id (sessions st) = None ->
     JsMap.get id (electronSessions st) = None ->
     sessions (snd r) = sessions st /\
     electronSessions (snd r) = electronSessions st).
Proof.
  intros id now st r. subst r. rewrite updateSessionActivity_run.
  cbn [fst snd sessions electronSessions trace].
  split; [reflexivity|]. split; [reflexivity|].
  split; [apply keys_touchSessions|]. split; [apply keys_touchElectronSessions|].
  split.
  - intros id' Hne. split.
    + now apply get_touchSessions_other.
    + now apply get_touchElectronSessions_other.
  - intros Hb He. split.
    + now apply touchSessions_absent.
    + now apply touchElectronSessions_absent.
Qed.

Lemma X24_touch_witness :
  let r := updateSessionActivity "s1" 777 Examples.idle_and_busy in
  JsMap.get "s2" (sessions (snd r)) = JsMap.get "s2" (sessions Examples.idle_and_busy) /\
  JsMap.get "s2" (electronSessions (snd r)) =
    JsMap.get "s2" (electronSessions Examples.idle_and_busy).
Proof.
  destruct (X24_touch_changes_one_identifier_only "s1" 777 Examples.idle_and_busy)
    as (_ & _ & _ & _ & Hother & _).
  apply (Hother "s2"%string). discriminate.
Defined.

(** ** Recordings hold no actions *)

Lemma no_actions_set k rec (m : JsMap.t TestRecording) :
  no_actions m -> actions rec = [] -> no_actions (JsMap.set k rec m).
Proof.
  intros Hm Hrec. induction m as [|[k' v] m IH]; simpl.
  - constructor; [exact Hrec|constructor].
  - inversion Hm; subst. destruct (String.eqb k k').
    + constructor; assumption.
    + constructor; [assumption|now apply IH].
Qed.

Lemma no_actions_delete k (m : JsMap.t TestRecording) :
  no_actions m -> no_actions (JsMap.delete k m).
Proof.
  unfold no_actions, JsMap.delete. rewrite !Forall_forall.
  intros Hm e He. apply filter_In in He as [He _]. now apply Hm.
Qed.

Lemma find_recording_In id name rec (m : JsMap.t TestRecording) :
  find_recording id m = Some (name, rec) -> In (name, rec) m.
Proof.
  unfold find_recording, JsMap.entries. intros H. now apply find_some in H as [H _].
Qed.

Lemma app_one_inv {A} (l : list A) (x y : A) : l ++ [x] = l ++ [y] -> x = y.
Proof.
  intros H. apply app_inv_head in H. now inversion H.
Qed.

Lemma app_one_neq {A} (l : list A) (x : A) : l <> l ++ [x].
Proof.
  intros H. rewrite <- (app_nil_r l) in H at 1.
  apply app_inv_head in H. discriminate.
Qed.

Lemma getPage_state id pageId st : snd (getPage id pageId st) = st.
Proof.
  unfold getPage. run_m.
  destruct (JsMap.get id (sessions st)) as [s|]; [|reflexivity].
  destruct (JsMap.get pageId (pages s)); reflexivity.
Qed.

(** The recordings after [startTestRecording]: unchanged, or with the new
    recording stored. *)
Lemma startTestRecording_recordings id name now w h :
  recordings (snd (startTestRecording id name now w h)) = recordings h \/
  exists ua,
    recordings (snd (startTestRecording id name now w h)) =
    JsMap.set name (started_recording id now w ua) (recordings h).
Proof.
  destruct h as [st recs fs cs]. hproj_simpl.
  unfold startTestRecording. run_h. hproj_simpl.
  destruct (JsMap.get id (sessions st)) as [s|]; [|now left].
  destruct (JsMap.get "main" (pages s)) as [page|]; [|now left].
  hproj_simpl.
  destruct (page_userAgent w) as [ua|e]; hproj_simpl; [|now left].
  right. now exists ua.
Qed.

Section RecordingInvariant.

Variable fs_write : string -> string -> Completion unit.
Variable join : string -> string -> string.
Variable testDir : string.

Lemma generateRegressionTest_recordings id pageId name assertions now w h :
  recordings
    (snd (generateRegressionTest fs_write join testDir id pageId name assertions now w h)) =
  recordings h.
Proof.
  destruct h as [st recs fs cs]. unfold generateRegressionTest.
  unfold hbind at 1. unfold lift at 1. hproj_simpl.
  pose proof (getPage_state id pageId st) as Hst.
  destruct (getPage id pageId st) as [[page|e] st']; hproj_simpl; [|reflexivity].
  unfold hbind at 1. unfold hcall at 1, hmodify at 1. hproj_simpl.
  unfold hbind at 1. unfold hawait at 1.
  destruct (rw_title w) as [title|e]; [|reflexivity].
  unfold hbind at 1. rewrite probeSelectors_run. hproj_simpl.
  unfold writeFileSync. run_h. hproj_simpl.
  destruct (rw_userAgent w) as [ua|e]; hproj_simpl; [|reflexivity].
  destruct (fs_write _ _) as [[]|e]; reflexivity.
Qed.

(** X25. No tool puts an action into a stored recording. When no stored
    recording holds an action, this is still so after
    [startTestRecording] and after [stopTestRecording], whatever they
    answer, and [generateRegressionTest] leaves the stored recordings as
    they are. So the script that [stopTestRecording] hands to the file
    system is, in every format, the script of a recording without
    actions. *)
Theorem X25_stored_recordings_hold_no_actions :
  forall h : Host,
    no_actions (recordings h) ->
    (forall id name now w,
       no_actions (recordings (snd (startTestRecording id name now w h)))) /\
    (forall id format,
       let r := stopTestRecording fs_write join testDir id format h in
       no_actions (recordings (snd r)) /\
       forall path content,
         calls (snd r) = calls h ++ [WriteFile path content] ->
         exists name rec,
           content = Render.generateTestScript rec name format /\
           actions rec = []) /\
    (forall id pageId name assertions now w,
       recordings
         (snd (generateRegressionTest fs_write join testDir id pageId name assertions
                 now w h)) =
       recordings h).
Proof.
  intros h Hinv. split; [|split].
  - intros id name now w.
    pose proof (startTestRecording_recordings id name now w h) as Hshape.
    destruct Hshape as [-> | (ua & ->)]; [exact Hinv|].
    now apply no_actions_set.
  - intros id format r. subst r.
    destruct (find_recording id (recordings h)) as [[name rec]|] eqn:Hfind.
    + destruct (Str.truthy name) eqn:Htruthy.
      * rewrite (stopTestRecording_found fs_write join testDir id format h name rec
                   Hfind Htruthy).
        assert (Hrec : actions rec = []).
        { unfold no_actions in Hinv. rewrite Forall_forall in Hinv.
          apply (Hinv (name, rec)). now apply find_recording_In with id. }
        destruct (fs_write _ _) as [[]|e]; cbn [snd recordings calls];
          (split; [try exact Hinv; now apply no_actions_delete|]);
          intros path content Hcalls; apply app_one_inv in Hcalls;
          inversion Hcalls; subst; now exists name, rec.
      * assert (Hrun : stopTestRecording fs_write join testDir id format h =
                       (Thrown "Recording name not found"%string, h)).
        { unfold stopTestRecording. unfold hbind at 1. unfold hget at 1.
          now rewrite Hfind, Htruthy. }
        rewrite Hrun. cbn [snd]. split; [exact Hinv|].
        intros path content Hcalls. now apply app_one_neq in Hcalls.
    + rewrite (stopTestRecording_none fs_write join testDir id format h Hfind).
      cbn [snd]. split; [exact Hinv|].
      intros path content Hcalls. now apply app_one_neq in Hcalls.
  - intros. apply generateRegressionTest_recordings.
Qed.

End RecordingInvariant.

Lemma X25_stored_recordings_witness :
  let h := snd (startTestRecording "s1" "login" 30 Scenarios.page_world
                  Scenarios.one_launched) in
  (forall id name now w,
     no_actions (recordings (snd (startTestRecording id name now w h)))) /\
  (forall id format,
     let r := stopTestRecording Scenarios.fs_ok Scenarios.join Scenarios.testDir
                id format h in
     no_actions (recordings (snd r)) /\
     forall path content,
       calls (snd r) = calls h ++ [WriteFile path content] ->
       exists name rec,
         content = Render.generateTestScript rec name format /\
         actions rec = []) /\
  (forall id pageId name assertions now w,
     recordings
       (snd (generateRegressionTest Scenarios.fs_ok Scenarios.join Scenarios.testDir
               id pageId name assertions now w h)) =
     recordings h).
Proof.
  apply (X25_stored_recordings_hold_no_actions Scenarios.fs_ok Scenarios.join
           Scenarios.testDir).
  repeat constructor.
Defined.
